(** * gs-pypi: the PyPI database generator ([gs_pypi/pypi_db.py])

    A shallow embedding of the fetch worker, the archive loader, the
    detail-page parser and the record normaliser of [pypi_db.py], followed
    by the properties stated about them.

    Python values are embedded as follows.
    - [str] is [string]; a value that may be [None] (the [.string] of a
      BeautifulSoup tag) is [option string].
    - a [dict] used as a map is a [gmap]; a [dict] iterated with [.items()]
      is the list of its items in iteration order.
    - a raised exception is the [Raise] constructor of [result]; collaborator
      calls ([pkg_db], [convert], the queues, [print]) are recorded in
      explicit traces threaded through the code. *)

From Stdlib Require Import String Ascii List Arith Lia Bool.
From stdpp Require Import base option list strings gmap.

Local Open Scope string_scope.
Local Open Scope list_scope.
Local Set Warnings "-register-all".
Local Set Warnings "-abstract-large-number".

(** ** Exceptions *)

Inductive exn : Type :=
| IndexError
| KeyError
| TypeError
| AttributeError
| IOError
| UnboundLocalError
| DownloadingError (msg : string)
| KeyboardInterrupt.

(** The classes that a handler [except Exception] catches: all of the above
    but [KeyboardInterrupt], which derives from [BaseException] only. *)
Definition is_Exception (e : exn) : bool :=
  match e with
  | KeyboardInterrupt => false
  | _ => true
  end.

Inductive result (A : Type) : Type :=
| Ok (a : A)
| Raise (e : exn).
Arguments Ok {A} a.
Arguments Raise {A} e.

Definition rbind {A B : Type} (r : result A) (k : A -> result B) : result B :=
  match r with
  | Ok a => k a
  | Raise e => Raise e
  end.

Declare Scope result_scope.
Delimit Scope result_scope with result.
Notation "'let!' x ':=' r 'in' k" := (rbind r (fun x => k))
  (at level 10, x pattern, r at level 100, k at level 200) : result_scope.

(** ** Python string primitives *)

Definition nl : string := String (ascii_of_nat 10) EmptyString.

Fixpoint is_prefix (p s : string) : bool :=
  match p, s with
  | EmptyString, _ => true
  | String a p', String b s' => Ascii.eqb a b && is_prefix p' s'
  | String _ _, EmptyString => false
  end.

(** [sub in s] *)
Fixpoint contains (sub s : string) : bool :=
  is_prefix sub s ||
  match s with
  | EmptyString => false
  | String _ s' => contains sub s'
  end.

(** [s[n:]] *)
Fixpoint drop_chars (n : nat) (s : string) : string :=
  match n, s with
  | O, _ => s
  | S k, String _ s' => drop_chars k s'
  | S _, EmptyString => EmptyString
  end.

(** [s.split(sep)] for a non-empty [sep]: [cur] is the piece being read,
    [skip] counts the characters of a separator still to be passed over. *)
Fixpoint split_aux (sep : string) (skip : nat) (cur : string) (s : string)
  : list string :=
  match s with
  | EmptyString => [cur]
  | String c s' =>
      match skip with
      | S k => split_aux sep k cur s'
      | O =>
          if is_prefix sep s
          then cur :: split_aux sep (String.length sep - 1) EmptyString s'
          else split_aux sep 0 (cur ++ String c EmptyString) s'
      end
  end.

Definition split (sep s : string) : list string := split_aux sep 0 EmptyString s.

(** [sep.join(l)] *)
Fixpoint join (sep : string) (l : list string) : string :=
  match l with
  | [] => EmptyString
  | [x] => x
  | x :: r => x ++ sep ++ join sep r
  end.

Fixpoint filter_chars (p : ascii -> bool) (s : string) : string :=
  match s with
  | EmptyString => EmptyString
  | String c s' => if p c then String c (filter_chars p s') else filter_chars p s'
  end.

Fixpoint all_chars (p : ascii -> bool) (s : string) : bool :=
  match s with
  | EmptyString => true
  | String c s' => p c && all_chars p s'
  end.

(** Truth value of a [str]-or-[None]. *)
Definition truthy (v : option string) : bool :=
  match v with
  | Some (String _ _) => true
  | _ => false
  end.

Definition in_range (lo hi : ascii) (c : ascii) : bool :=
  Nat.leb (nat_of_ascii lo) (nat_of_ascii c) && Nat.leb (nat_of_ascii c) (nat_of_ascii hi).

Definition is_digit : ascii -> bool := in_range "0" "9".
Definition is_lower : ascii -> bool := in_range "a" "z".
Definition is_upper : ascii -> bool := in_range "A" "Z".

Definition one_of (cs : list ascii) (c : ascii) : bool :=
  existsb (Ascii.eqb c) cs.

(** ** Data model *)

(** One entry of [data["files"]]. *)
Record FileRecord : Type := {
  file_url : string;
  file_md5 : string;
  file_type : option string;
  file_pyversion : option string;
  file_uploaded : option string;
  file_size : option string
}.

(** [data["info"]].  [parse_package_page] is its only producer: it binds the
    label ["Categories"] to a mapping from group name to the list of values
    and every other label to a scalar, so the two kinds of binding are kept
    in two fields. *)
Record InfoBlock : Type := {
  info_fields : gmap string (option string);
  info_categories : option (gmap string (list string))
}.

Record PackageDetail : Type := {
  files : list FileRecord;
  info : InfoBlock
}.

Definition empty_info : InfoBlock :=
  {| info_fields := ∅; info_categories := None |}.

Definition empty_detail : PackageDetail :=
  {| files := []; info := empty_info |}.

(** [bool(info)]: a dict is true when it has a key. *)
Definition info_nonempty (i : InfoBlock) : bool :=
  negb (bool_decide (info_fields i = ∅)) || bool_decide (is_Some (info_categories i)).

(** ** Record normaliser ([PypiDBGenerator.process_data]) *)

(** [g_sorcery.g_collections.Package], a named tuple. *)
Record Package : Type := {
  pkg_category : string;
  pkg_name : string;
  pkg_version : string
}.

Record ebuild_data : Type := {
  realname : string;
  realversion : string;
  description : string;
  longdescription : string;
  homepage : option string;
  license : string;
  source_uri : string;
  md5 : string;
  python_compat : string
}.

Record maintainer : Type := { email : string; name : string }.

Record common_data : Type := {
  eclasses : list string;
  maintainers : list maintainer;
  dependencies_separator : string
}.

(** Calls made on the collaborators, in program order. *)
Inductive call : Type :=
| AddCategory (category : string)
| SetCommonData (category : string) (common : common_data)
| Convert (dict_name : string) (value : string)
| AddPackage (p : Package) (e : ebuild_data).

(** [datetime.datetime.now()], as far as it is read. *)
Record datetime : Type := { year : nat; month : nat; day : nat }.

(** *** ["%0Nd" % n] *)

Definition digit_char (d : nat) : ascii := ascii_of_nat (48 + d).

Fixpoint decimal_aux (fuel n : nat) (acc : string) : string :=
  match fuel with
  | O => acc
  | S f =>
      let acc' := String (digit_char (n mod 10)) acc in
      if Nat.eqb (n / 10) 0 then acc' else decimal_aux f (n / 10) acc'
  end.

(** [str(n)] for a natural number. *)
Definition decimal (n : nat) : string := decimal_aux (S n) n EmptyString.

Fixpoint zeros (k : nat) : string :=
  match k with
  | O => EmptyString
  | S k' => String "0" (zeros k')
  end.

(** ["%0<width>d" % n] *)
Definition zero_padded (width n : nat) : string :=
  let d := decimal n in
  zeros (width - String.length d) ++ d.

(** [pseudoversion = "%04d%02d%02d" % (now.year, now.month, now.day)] *)
Definition pseudoversion (now : datetime) : string :=
  zero_padded 4 (year now) ++ zero_padded 2 (month now) ++ zero_padded 2 (day now).

(** *** The version pattern

    [re.match("(^[0-9]+[a-z]?$)|(^[0-9][0-9\.]+[0-9][a-z]?$)", v)].  Each
    alternative is a sequence of anchors and quantified character classes;
    [match_items] is a backtracking matcher for such sequences.  [re.match]
    starts at position 0 and accepts when the pattern matches a prefix;
    [$] holds at the end of the text and just before a final newline. *)

Inductive item : Type :=
| Bol                      (* ^ *)
| Eol                      (* $ *)
| One (cls : ascii -> bool)
| Opt (cls : ascii -> bool)    (* [..]? *)
| Plus (cls : ascii -> bool).  (* [..]+ *)

Definition at_eol (s : string) : bool :=
  match s with
  | EmptyString => true
  | String c EmptyString => Ascii.eqb c (ascii_of_nat 10)
  | _ => false
  end.

Fixpoint match_items (items : list item) (at_start : bool) (s : string) : bool :=
  match items with
  | [] => true
  | Bol :: r => at_start && match_items r at_start s
  | Eol :: r => at_eol s && match_items r at_start s
  | One cls :: r =>
      match s with
      | String c s' => cls c && match_items r false s'
      | EmptyString => false
      end
  | Opt cls :: r =>
      match s with
      | String c s' => cls c && match_items r false s'
      | EmptyString => false
      end || match_items r at_start s
  | Plus cls :: r =>
      (fix more (s : string) : bool :=
         match s with
         | String c s' => cls c && (more s' || match_items r false s')
         | EmptyString => false
         end) s
  end.

(** [re.match(alt1|alt2|..., s)] as a truth value. *)
Definition re_match (alternatives : list (list item)) (s : string) : bool :=
  existsb (fun items => match_items items true s) alternatives.

Definition digit_or_dot (c : ascii) : bool := is_digit c || Ascii.eqb c ".".

Definition version_pattern : list (list item) :=
  [ [Bol; Plus is_digit; Opt is_lower; Eol];
    [Bol; One is_digit; Plus digit_or_dot; One is_digit; Opt is_lower; Eol] ].

Definition filtered_version (now : datetime) (version : string) : string :=
  if re_match version_pattern version then version else pseudoversion now.

(** *** Effects: a state threaded through the code, and exceptions

    [SE S A] is a computation that reads and updates a state of type [S] and
    either returns an [A] or raises; the state reached when the exception
    was raised is kept, as it is for a mutated Python object. *)

Definition SE (S A : Type) : Type := S -> result A * S.

Definition ret {S A : Type} (a : A) : SE S A := fun t => (Ok a, t).

Definition raise {S A : Type} (e : exn) : SE S A := fun t => (Raise e, t).

Definition bind {S A B : Type} (m : SE S A) (k : A -> SE S B) : SE S B :=
  fun t =>
    match m t with
    | (Ok a, t') => k a t'
    | (Raise e, t') => (Raise e, t')
    end.

Definition lift {S A : Type} (r : result A) : SE S A := fun t => (r, t).

Definition modify {S : Type} (f : S -> S) : SE S unit := fun t => (Ok tt, f t).

Declare Scope SE_scope.
Delimit Scope SE_scope with SE.
Notation "'do!' x ':=' m 'in' k" := (bind m (fun x => k))
  (at level 10, x pattern, m at level 100, k at level 200) : SE_scope.

(** [for x in l: body(x)] *)
Fixpoint for_each {S A : Type} (body : A -> SE S unit) (l : list A) : SE S unit :=
  match l with
  | [] => ret tt
  | x :: r => bind (body x) (fun _ => for_each body r)
  end.

(** *** Steps of the loop body *)

Definition source_marker : string := nl +:+ "    Source" +:+ nl +:+ "  ".

Definition allowed_ords_pkg (c : ascii) : bool :=
  is_lower c || is_upper c || is_digit c || one_of ["+"; "_"; "-"]%char c.

Definition allowed_ords_desc (c : ascii) : bool :=
  is_lower c || is_upper c || is_digit c ||
  one_of ["+"; "_"; "-"; " "; "."; "("; ")"; "["; "]"; "{"; "}"; ","]%char c.

(** Lines 422-429: the first file whose type is the source marker gives
    [(files_src_uri, md5)]; both stay [""] when there is none. *)
Fixpoint first_source (fs : list FileRecord) : string * string :=
  match fs with
  | [] => (EmptyString, EmptyString)
  | file_entry :: r =>
      if bool_decide (file_type file_entry = Some source_marker)
      then (file_url file_entry, file_md5 file_entry)
      else first_source r
  end.

(** Lines 431-435. *)
Definition download_url_of (i : InfoBlock) : option string :=
  if info_nonempty i then
    match info_fields i !! "Download URL:" with
    | Some v => v
    | None => Some EmptyString
    end
  else Some EmptyString.

(** Lines 437-440. *)
Definition select_source_uri (download_url : option string) (files_src_uri : string)
  : string :=
  if truthy download_url then default EmptyString download_url else files_src_uri.

(** Lines 457-472: what one ['Programming Language'] entry adds. *)
Definition language_tags (entry : string) : list string :=
  if String.eqb entry "2" then ["2_7"]
  else if String.eqb entry "3" then ["3_3"; "3_4"; "3_5"]
  else if String.eqb entry "2.6" then ["2_7"]
  else if String.eqb entry "2.7" then ["2_7"]
  else if String.eqb entry "3.2" then ["3_3"]
  else if String.eqb entry "3.3" then ["3_3"]
  else if String.eqb entry "3.4" then ["3_4"]
  else if String.eqb entry "3.5" then ["3_5"]
  else [].

(** Lines 456-472: the loop [py_versions.extend(...)]. *)
Definition py_versions_of (entries : list string) : list string :=
  fold_left (fun py_versions entry => py_versions ++ language_tags entry) entries [].

(** [l[-1]] *)
Definition last_item {A : Type} (l : list A) : result A :=
  match last l with
  | Some x => Ok x
  | None => Raise IndexError
  end.

(** Lines 445-476: [(homepage, pkg_license, py_versions)] before the licence
    lookup. *)
Definition read_info (i : InfoBlock) : result (option string * string * list string) :=
  if info_nonempty i then
    let homepage :=
      match info_fields i !! "Home Page:" with
      | Some v => v
      | None => Some EmptyString
      end in
    match info_categories i with
    | Some categories =>
        let py_versions :=
          match categories !! "Programming Language" with
          | Some entries => py_versions_of entries
          | None => []
          end in
        match categories !! "License" with
        | Some licenses =>
            (let! pkg_license := last_item licenses in
             Ok (homepage, pkg_license, py_versions))%result
        | None => Ok (homepage, EmptyString, py_versions)
        end
    | None => Ok (homepage, EmptyString, [])
    end
  else Ok (Some EmptyString, EmptyString, []).

Definition supported_tags : list string := ["2_7"; "3_3"; "3_4"; "3_5"].

(** Lines 479-480. *)
Definition default_tags (py_versions : list string) : list string :=
  match py_versions with
  | [] => supported_tags
  | _ => py_versions
  end.

(** Lines 482-488. *)
Definition render_python_compat (py_versions : list string) : result string :=
  match py_versions with
  | [v] => Ok ("( python" +:+ v +:+ " )")
  | v0 :: rest =>
      Ok (fold_left (fun python_compat ver => python_compat +:+ "," +:+ ver)
                    rest ("( python{" +:+ v0) +:+ "} )")
  | [] => Raise IndexError
  end.

Section Normaliser.

(** [self.convert([common_config, config], dict_name, value)], the
    licence-normalisation collaborator with its configuration fixed. *)
Variable convert : string -> string -> string.

(** [datetime.datetime.now()] read once before the loop. *)
Variable now : datetime.

(** The collaborators of [process_data] are observed through the trace of
    the calls made on them. *)
Definition emit (c : call) : SE (list call) unit := modify (fun t => t ++ [c]).

Definition call_convert (dict_name value : string) : SE (list call) string :=
  fun t => (Ok (convert dict_name value), t ++ [Convert dict_name value]).

Definition category : string := "dev-python".

(** Lines 498-509. *)
Definition make_ebuild (package version description : string)
           (homepage : option string) (pkg_license source_uri md5 python_compat : string)
  : ebuild_data :=
  {| realname := package;
     realversion := version;
     description := description;
     longdescription := description;
     homepage := homepage;
     license := pkg_license;
     source_uri := source_uri;
     md5 := md5;
     python_compat := python_compat |}.

(** Body of the loop at lines 411-511; [ret tt] before the end is
    [continue]. *)
Definition process_entry (packages : gmap string PackageDetail)
           (entry : (string * string) * string) : SE (list call) unit :=
  let '((package, version), description) := entry in
  let pkg := package +:+ "-" +:+ version in
  match packages !! pkg with
  | None => ret tt
  | Some pkg_data =>
      if negb (bool_decide (files pkg_data ≠ [])) && negb (info_nonempty (info pkg_data))
      then ret tt
      else
        let '(files_src_uri, md5) := first_source (files pkg_data) in
        let download_url := download_url_of (info pkg_data) in
        let source_uri := select_source_uri download_url files_src_uri in
        if negb (truthy (Some source_uri)) then ret tt
        else
          (do! (homepage, pkg_license, py_versions) := lift (read_info (info pkg_data)) in
           do! pkg_license := call_convert "licenses" pkg_license in
           let py_versions := default_tags py_versions in
           do! python_compat := lift (render_python_compat py_versions) in
           let filtered_package := filter_chars allowed_ords_pkg package in
           let description := filter_chars allowed_ords_desc description in
           let filtered_version := filtered_version now version in
           emit (AddPackage
                   {| pkg_category := category;
                      pkg_name := filtered_package;
                      pkg_version := filtered_version |}
                   (make_ebuild package version description homepage pkg_license
                                source_uri md5 python_compat)))%SE
  end.

Definition the_common_data : common_data :=
  {| eclasses := ["g-sorcery"; "gs-pypi"];
     maintainers := [ {| email := "jauhien@gentoo.org"; name := "Jauhien Piatlicki" |} ];
     dependencies_separator := nl +:+ String (ascii_of_nat 9) EmptyString |}.

(** [process_data(pkg_db, data, common_config, config)], where [index] is
    [data["packages"]["index"].items()] and [packages] the other keys of
    [data["packages"]]. *)
Definition process_data (index : list ((string * string) * string))
           (packages : gmap string PackageDetail) : SE (list call) unit :=
  (do! _ := emit (AddCategory category) in
   do! _ := emit (SetCommonData category the_common_data) in
   for_each (process_entry packages) index)%SE.

End Normaliser.

(** The packages added and the licence lookups made in a trace. *)
Definition added (t : list call) : list (Package * ebuild_data) :=
  flat_map (fun c => match c with AddPackage p e => [(p, e)] | _ => [] end) t.

Definition converted (t : list call) : list (string * string) :=
  flat_map (fun c => match c with Convert d v => [(d, v)] | _ => [] end) t.

(** The compatibility expression of a tag list, after defaulting. *)
Definition python_compat_of (py_versions : list string) : string :=
  match render_python_compat (default_tags py_versions) with
  | Ok s => s
  | Raise _ => EmptyString
  end.

(** ** Detail-page parser ([PypiDBGenerator.parse_package_page]) *)

(** *** The BeautifulSoup tree

    The parser reads the tree built by [bs4.BeautifulSoup(data_f.read(),
    "lxml")]; the tree is the input of the embedding.  A tag carries its
    name, its attributes other than [class], the values of its [class]
    attribute (bs4 keeps them as a list) and its [contents]. *)

Inductive node : Type :=
| NavigableString (s : string)
| Tag (tag_name : string) (attrs : gmap string string) (classes : list string)
      (contents : list node).

(** A position in the tree: the child indices from the root.  Two results of
    a search denote the same Python object exactly when their paths agree. *)
Definition path : Type := list nat.

Fixpoint path_prefix (p q : path) : bool :=
  match p, q with
  | [], _ => true
  | i :: p', j :: q' => Nat.eqb i j && path_prefix p' q'
  | _ :: _, [] => false
  end.

(** [tag.descendants]: every node below [n], in document order. *)
Fixpoint descendants (n : node) : list (path * node) :=
  match n with
  | NavigableString _ => []
  | Tag _ _ _ cs =>
      (fix children (i : nat) (cs : list node) : list (path * node) :=
         match cs with
         | [] => []
         | c :: r =>
             ([i], c) :: map (fun pd => (i :: fst pd, snd pd)) (descendants c)
               ++ children (S i) r
         end) 0 cs
  end.

Definition is_tag (wanted : string) (class_ : option string) (n : node) : bool :=
  match n with
  | NavigableString _ => false
  | Tag tag_name _ classes _ =>
      String.eqb tag_name wanted &&
      match class_ with
      | None => true
      | Some c => existsb (String.eqb c) classes
      end
  end.

(** [tag(wanted, class_ = c)], that is [tag.find_all(...)], with positions. *)
Definition find_all_at (wanted : string) (class_ : option string) (n : node)
  : list (path * node) :=
  List.filter (fun pd => is_tag wanted class_ (snd pd)) (descendants n).

(** [tag(wanted)] *)
Definition find_all (wanted : string) (n : node) : list node :=
  map snd (find_all_at wanted None n).

(** [tag.string] *)
Fixpoint tag_string (n : node) : option string :=
  match n with
  | NavigableString s => Some s
  | Tag _ _ _ [c] => tag_string c
  | Tag _ _ _ _ => None
  end.

(** [tag[key]] *)
Definition getitem (n : node) (key : string) : result string :=
  match n with
  | Tag _ attrs _ _ =>
      match attrs !! key with
      | Some v => Ok v
      | None => Raise KeyError
      end
  | NavigableString _ => Raise TypeError
  end.

Definition node_contents (n : node) : list node :=
  match n with
  | Tag _ _ _ cs => cs
  | NavigableString _ => []
  end.

(** [l[i]] for [i >= 0] *)
Definition index {A : Type} (l : list A) (i : nat) : result A :=
  match l !! i with
  | Some x => Ok x
  | None => Raise IndexError
  end.

(** [l[1:-1]] *)
Definition slice_1_m1 {A : Type} (l : list A) : list A := removelast (tl l).

(** [l[-1:]] *)
Definition slice_m1 {A : Type} (l : list A) : list A :=
  match last l with
  | Some x => [x]
  | None => []
  end.

(** [sub in v] where [v] may be [None] *)
Definition contains_in (sub : string) (v : option string) : result bool :=
  match v with
  | Some s => Ok (contains sub s)
  | None => Raise TypeError
  end.

(** [v.split(sep)] where [v] may be [None] *)
Definition split_of (sep : string) (v : option string) : result (list string) :=
  match v with
  | Some s => Ok (split sep s)
  | None => Raise AttributeError
  end.

(** *** The walk inside [try:] (lines 307-373); its state is [data] *)

Definition append_file (f : FileRecord) (data : PackageDetail) : PackageDetail :=
  {| files := files data ++ [f]; info := info data |}.

Definition set_field (entry_name : string) (v : option string) (data : PackageDetail)
  : PackageDetail :=
  {| files := files data;
     info := {| info_fields := <[entry_name := v]> (info_fields (info data));
                info_categories := info_categories (info data) |} |}.

Definition set_categories (cats : gmap string (list string)) (data : PackageDetail)
  : PackageDetail :=
  {| files := files data;
     info := {| info_fields := info_fields (info data);
                info_categories := Some cats |} |}.

(** Lines 312-337: one row of the file table; [fields] is [entry("td")]. *)
Definition parse_row (fields : list node) : result FileRecord :=
  (let! field0 := index fields 0 in
   let! anchor := index (find_all "a" field0) 0 in
   let! href := getitem anchor "href" in
   let file_inf := split "#" href in
   let! file_url := index file_inf 0 in
   let! md5_part := index file_inf 1 in
   let file_md5 := drop_chars 4 md5_part in
   let! field1 := index fields 1 in
   let! field2 := index fields 2 in
   let! field3 := index fields 3 in
   let! field4 := index fields 4 in
   Ok {| file_url := file_url;
         file_md5 := file_md5;
         file_type := tag_string field1;
         file_pyversion := tag_string field2;
         file_uploaded := tag_string field3;
         file_size := tag_string field4 |})%result.

(** Lines 311-338.  [entry.decompose()] empties the row and everything
    below it, so a later row of the list that lies inside a row already
    visited has no cells left; [decomposed] holds the rows visited. *)
Fixpoint walk_rows (decomposed : list path) (rows : list (path * node))
  : SE PackageDetail unit :=
  match rows with
  | [] => ret tt
  | (p, entry) :: r =>
      let fields :=
        if existsb (fun q => path_prefix q p) decomposed then []
        else find_all "td" entry in
      (do! file := lift (parse_row fields) in
       do! _ := modify (append_file file) in
       walk_rows (p :: decomposed) r)%SE
  end.

(** Lines 359-362: one category anchor; [cat_data] is its text split on
    [" :: "]. *)
Definition add_category (cat_data : list string) (data : PackageDetail)
  : result PackageDetail :=
  match cat_data with
  | [] => Raise IndexError
  | group :: values =>
      let cats := default ∅ (info_categories (info data)) in
      match cats !! group with
      | None => Ok (set_categories (<[group := values]> cats) data)
      | Some old => Ok (set_categories (<[group := old ++ values]> cats) data)
      end
  end.

(** Lines 357-362. *)
Definition walk_category (cat_entry : node) : SE PackageDetail unit :=
  fun data =>
    match split_of " :: " (tag_string cat_entry) with
    | Raise e => (Raise e, data)
    | Ok cat_data =>
        match add_category cat_data data with
        | Raise e => (Raise e, data)
        | Ok data' => (Ok tt, data')
        end
    end.

(** Lines 348-372, the loop over the live list [ul.contents].  The last
    branch runs [entry.decompose()], which deletes the entry from the list
    being iterated, so the iterator passes over the entry that followed it. *)
Fixpoint walk_entries (entries : list node) : SE PackageDetail unit :=
  match entries with
  | [] => ret tt
  | entry :: rest =>
      if negb (is_tag "li" None entry) then walk_entries rest
      else
        (do! strong := lift (index (find_all "strong" entry) 0) in
         let entry_name := tag_string strong in
         if negb (truthy entry_name) then walk_entries rest
         else
           let entry_name := default EmptyString entry_name in
           if String.eqb entry_name "Categories" then
             do! _ := modify (set_categories ∅) in
             do! _ := for_each walk_category (find_all "a" entry) in
             walk_entries rest
           else
             match find_all "span" entry, find_all "a" entry with
             | span :: _, _ =>
                 do! _ := modify (set_field entry_name (tag_string span)) in
                 walk_entries rest
             | [], anchor :: _ =>
                 do! href := lift (getitem anchor "href") in
                 do! _ := modify (set_field entry_name (Some href)) in
                 walk_entries rest
             | [], [] =>
                 match rest with
                 | [] => ret tt
                 | _ :: rest' => walk_entries rest'
                 end
             end)%SE
  end.

(** Lines 307-339.  The result is the position of the table when
    [table.decompose()] was reached. *)
Definition walk_table (soup : node) : SE PackageDetail (option path) :=
  match slice_m1 (find_all_at "table" (Some "list") soup) with
  | [] => ret None
  | (p, table) :: _ =>
      (do! th := lift (index (find_all "th" table) 0) in
       do! is_file_table := lift (contains_in "File" (tag_string th)) in
       if negb is_file_table then ret None
       else
         do! _ := walk_rows [] (slice_1_m1 (find_all_at "tr" None table)) in
         ret (Some p))%SE
  end.

(** [tag.decompose()] for the tag at position [p] of the tree: the tag
    leaves the tree with everything below it. *)
Fixpoint remove_at (p : path) (n : node) : node :=
  match p, n with
  | [i], Tag tag_name attrs classes contents =>
      Tag tag_name attrs classes (delete i contents)
  | i :: p', Tag tag_name attrs classes contents =>
      Tag tag_name attrs classes (alter (remove_at p') i contents)
  | _, _ => n
  end.

(** Lines 341-373.  [removed] is the table taken out of the tree by
    [table.decompose()]: the lists are searched and walked in the tree that
    is left, where nothing of the table is seen any more. *)
Definition walk_info (soup : node) (removed : option path) : SE PackageDetail unit :=
  let soup :=
    match removed with
    | Some q => remove_at q soup
    | None => soup
    end in
  let uls := map snd (find_all_at "ul" (Some "nodot") soup) in
  match uls with
  | [] => ret tt
  | ul0 :: _ =>
      (do! strong := lift (index (find_all "strong" ul0) 0) in
       do! all_versions := lift (contains_in "Downloads (All Versions):" (tag_string strong)) in
       do! ul := lift (if all_versions then index uls 1 else index uls 0) in
       (* the closing [ul.decompose()] changes nothing that is read later *)
       walk_entries (node_contents ul))%SE
  end.

Definition walk (soup : node) : SE PackageDetail unit :=
  (do! removed := walk_table soup in walk_info soup removed)%SE.

(** [parse_package_page(data_f)], where [soup] is the tree read from
    [data_f]: [data] starts empty, the walk updates it, and the handler of
    [except Exception] replaces it by a fresh empty record.  This is the
    record returned for a tree; the whole function, from the file on, is
    [PypiDBGenerator_parse_package_page] below. *)
Definition parse_package_page (soup : node) : PackageDetail :=
  match walk soup empty_detail with
  | (Ok _, data) => data
  | (Raise _, _) => empty_detail
  end.

(** The two lines that the handler writes to standard output. *)
Inductive page_event : Type :=
| ParsingError (error : exn)   (* "There was an error during parsing: " + str(error) *)
| IgnoringPackage.             (* "Ignoring this package." *)

Section PageParser.

(** [bs4.BeautifulSoup(markup, "lxml")]: the tree built for the markup, or
    the exception raised by the constructor. *)
Variable BeautifulSoup : string -> result node.

(** Lines 302-383, the whole of [parse_package_page(data_f)], where
    [data_f] stands for what [data_f.read()] gives: the value returned or
    the exception that leaves the function, and the lines written.  Line 302
    is outside [try:], the handler catches the classes derived from
    [Exception], and the closing [soup.decompose()] changes nothing of the
    strings already stored in [data]. *)
Definition PypiDBGenerator_parse_package_page (data_f : result string)
  : result PackageDetail * list page_event :=
  match (let! markup := data_f in BeautifulSoup markup)%result with
  | Raise e => (Raise e, [])
  | Ok soup =>
      match walk soup empty_detail with
      | (Ok _, data) => (Ok data, [])
      | (Raise error, _) =>
          if is_Exception error
          then (Ok empty_detail, [ParsingError error; IgnoringPackage])
          else (Raise error, [])
      end
  end.

End PageParser.

(** The exceptions of indexing, item access and attribute access. *)
Definition lookup_error (e : exn) : Prop :=
  e = IndexError \/ e = KeyError \/ e = TypeError \/ e = AttributeError.

(** ** Archive loader ([load_remote_file] and [_call_parser]) *)

(** Modelled from the spec: [g_sorcery.compatibility.TemporaryDirectory] is
    not part of the sources; it is the "scoped temporary area" of the spec,
    an object that owns a fresh directory and gives its path as [name]. *)
Record TemporaryDirectory : Type := { tmp_name : string }.

(** What [os.path.join] may be given as its first argument here. *)
Inductive pyobj : Type :=
| PyStr (s : string)
| PyTmpDir (d : TemporaryDirectory).

Fixpoint ends_with_slash (s : string) : bool :=
  match s with
  | EmptyString => false
  | String c EmptyString => Ascii.eqb c "/"
  | String _ s' => ends_with_slash s'
  end.

(** [os.path.join(a, b)] of [posixpath]: [a] must offer the string methods;
    on any other object the call raises ([AttributeError] from
    [a.endswith] in Python 2, [TypeError] in Python 3). *)
Definition os_path_join (a : pyobj) (b : string) : result string :=
  match a with
  | PyStr path =>
      Ok (if is_prefix "/" b then b
          else if String.eqb path EmptyString || ends_with_slash path then path +:+ b
          else path +:+ "/" +:+ b)
  | PyTmpDir _ => Raise AttributeError
  end.

(** [l.rfind(c)] on the characters of a string. *)
Fixpoint rfind (c : ascii) (l : list ascii) : option nat :=
  match l with
  | [] => None
  | x :: r =>
      match rfind c r with
      | Some i => Some (S i)
      | None => if Ascii.eqb x c then Some 0 else None
      end
  end.

(** [os.path.splitext(p)]: the extension starts at the last dot of the last
    component, unless only dots precede it there. *)
Definition splitext (p : string) : string * string :=
  let l := list_ascii_of_string p in
  let filename_index := match rfind "/" l with Some i => S i | None => 0 end in
  match rfind "." l with
  | Some dot_index =>
      if Nat.leb filename_index dot_index &&
         existsb (fun c => negb (Ascii.eqb c "."))
                 (take (dot_index - filename_index) (drop filename_index l))
      then (string_of_list_ascii (take dot_index l), string_of_list_ascii (drop dot_index l))
      else (p, EmptyString)
  | None => (p, EmptyString)
  end.

(** [os.path.basename(p)] *)
Definition basename (p : string) : string :=
  let l := list_ascii_of_string p in
  match rfind "/" l with
  | Some i => string_of_list_ascii (drop (S i) l)
  | None => p
  end.

(** A file on disk: a tar archive (its bytes and its members), or any other
    content. *)
Inductive file : Type :=
| TarFile (raw : string) (members : list (string * string))
| Plain (content : string).

(** [open(f_name).read()] *)
Definition read (f : file) : string :=
  match f with
  | TarFile raw _ => raw
  | Plain content => content
  end.

(** The disk, as far as the loader sees it: directories with their entries. *)
Definition disk : Type := list (string * list (string * file)).

(** [glob.glob(pattern)] for a pattern [dir/*]: the entries of [dir] whose
    name does not start with a dot, with their full names. *)
Definition glob (pattern : string) (d : disk) : list (string * file) :=
  flat_map
    (fun dir =>
       if match os_path_join (PyStr (fst dir)) "*" with
          | Ok p => String.eqb p pattern
          | Raise _ => false
          end
       then map (fun e => (fst dir +:+ "/" +:+ fst e, snd e))
                (List.filter (fun e => negb (is_prefix "." (fst e))) (snd dir))
       else [])
    d.

Section Loader.

(** The type of parsed data, and the parser given in the job. *)
Context {D : Type}.

(** Names of the two temporary directories, in creation order. *)
Variable download_dir unpack_dir : TemporaryDirectory.

(** [urllib.URLopener().retrieve(uri, filename)]: the file written to
    [filename], or the [IOError] raised.  The value it returns is a
    non-empty tuple, so the test [if not url.retrieve(...)] never takes
    the branch that raises [DownloadingError("wget failed: ...")]. *)
Variable url_retrieve : string -> result file.

(** [xz -d] on a content: the decompressed content, or [None] when the
    command exits with a non-zero status. *)
Variable xz_d : string -> option string.

(** [_call_parser(f_name, parser, ...)] on a file holding [content]. *)
Definition _call_parser (f_name : string) (content : string) (parser : string -> D)
  : gmap string D :=
  {[ basename f_name := parser content ]}.

(** [loaded_data.update(d)] *)
Definition update (loaded_data d : gmap string D) : gmap string D := d ∪ loaded_data.

(** Lines 97-99: the loop over the unpacked members. *)
Definition parse_members (parser : string -> D) (unpacked : list (string * file))
           (loaded_data : gmap string D) : gmap string D :=
  fold_left
    (fun loaded uf => update loaded (_call_parser (fst uf) (read (snd uf)) parser))
    unpacked loaded_data.

(** Lines 93-109: the body of the loop over the download directory. *)
Definition load_one (uri : string) (parser : string -> D) (f : string * file)
           (loaded_data : gmap string D) : result (gmap string D) :=
  let f_name := fst f in
  match snd f with
  | TarFile _ members =>
      (* unpack_dir = TemporaryDirectory(); f.extractall(unpack_dir.name) *)
      let d : disk :=
        [(tmp_name unpack_dir, map (fun m => (fst m, Plain (snd m))) members)] in
      (let! pattern := os_path_join (PyTmpDir unpack_dir) "*" in
       Ok (parse_members parser (glob pattern d) loaded_data))%result
  | Plain content =>
      let '(name, extention) := splitext f_name in
      if String.eqb extention ".xz" || String.eqb extention ".lzma" then
        match xz_d content with
        | None =>
            Raise (DownloadingError ("xz failed: " +:+ f_name +:+ " from " +:+ uri))
        | Some content' =>
            Ok (update loaded_data (_call_parser name content' parser))
        end
      else Ok (update loaded_data (_call_parser f_name content parser))
  end.

Fixpoint load_all (uri : string) (parser : string -> D) (fs : list (string * file))
         (loaded_data : gmap string D) : result (gmap string D) :=
  match fs with
  | [] => Ok loaded_data
  | f :: r =>
      (let! loaded_data := load_one uri parser f loaded_data in
       load_all uri parser r loaded_data)%result
  end.

(** [load_remote_file(uri, parser, open_file, open_mode, output, timeout)].
    [output] is a file name: the download directory then holds the one
    entry [output].  A name with a slash would be resolved by the file
    system ([./x] is [x]), which is not modelled; what is proved of the
    outcome for a plain or a hidden file is stated for names without a
    slash. *)
Definition load_remote_file (uri : string) (parser : string -> D) (output : string)
  : result (gmap string D) :=
  (let! downloaded := url_retrieve uri in
   let d : disk := [(tmp_name download_dir, [(output, downloaded)])] in
   let! pattern := os_path_join (PyStr (tmp_name download_dir)) "*" in
   load_all uri parser (glob pattern d) ∅)%result.

End Loader.

(** ** Fetch worker ([Worker.run]) *)

(** What the worker does to the outside, in program order. *)
Inductive event (J D : Type) : Type :=
| Get                          (* task_queue.get() *)
| Load (uri : J)               (* load_remote_file is called on the job *)
| Print (msg : string)
| TaskDone                     (* task_queue.task_done() *)
| Put (data : D).              (* result_queue.put(data) *)
Arguments Get {J D}.
Arguments Load {J D} uri.
Arguments Print {J D} msg.
Arguments TaskDone {J D}.
Arguments Put {J D} data.

(** How a loop stands after one pass of its body. *)
Inductive status : Type :=
| Looping                      (* [continue], or the end of the body *)
| Left                         (* [break] *)
| Died (e : exn).              (* an exception leaves [run] *)

Section Worker.

(** Jobs, and the values kept under the names of the loaded files. *)
Context {J P : Type}.

Local Abbreviation D := (gmap string P).

(** [load job n] is what the [n]-th call of [load_remote_file]
    made for [job] does: the network decides, the worker only observes. *)
Variable load : J -> nat -> result D.

(** The local variables of [run] and the trace of its effects. *)
Record worker : Type := {
  attempts : nat;
  data : option D;
  trace : list (event J D)
}.

Definition did (es : list (event J D)) (w : worker) : worker :=
  {| attempts := attempts w; data := data w; trace := trace w ++ es |}.

(** Lines 140-144. *)
Definition deliver (w : worker) : status * worker :=
  match data w with
  | Some d =>
      (Left, did ([TaskDone; Put d] ++ map (fun kv => Print (fst kv)) (map_to_list d)) w)
  | None => (Died UnboundLocalError, did [TaskDone] w)
  end.

(** Lines 130-144: one pass of the inner [while True]. *)
Definition attempt (uri : J) (w : worker) : status * worker :=
  let n := S (attempts w) in
  let w := {| attempts := n; data := data w; trace := trace w ++ [Load uri] |} in
  match load uri n with
  | Ok d => deliver {| attempts := n; data := Some d; trace := trace w |}
  | Raise (DownloadingError error) =>
      let w := did [Print error] w in
      if Nat.ltb n 100 then (Looping, w)
      else if Nat.eqb n 100 then (Left, did [TaskDone] w)
      else deliver w
  | Raise e => (Died e, w)
  end.

(** The inner [while True]; [None] when [fuel] passes do not end it. *)
Fixpoint retry (fuel : nat) (uri : J) (w : worker) : option (status * worker) :=
  match fuel with
  | O => None
  | S fuel' =>
      match attempt uri w with
      | (Looping, w') => retry fuel' uri w'
      | (Left, w') => Some (Looping, w')
      | (Died e, w') => Some (Died e, w')
      end
  end.

(** Lines 123-144: one pass of the outer [while True] on the task that
    [task_queue.get()] returned. *)
Definition serve (fuel : nat) (task : option J) (w : worker) : option (status * worker) :=
  let w := did [Get] w in
  match task with
  | None => Some (Left, did [Print "Exiting"; TaskDone] w)
  | Some uri =>
      retry fuel uri {| attempts := 0; data := data w; trace := trace w |}
  end.

(** [run] on the tasks that [task_queue.get()] hands to this worker, in
    order; when they are used up the worker waits in [get()]. *)
Fixpoint run (fuel : nat) (tasks : list (option J)) (w : worker)
  : option (status * worker) :=
  match tasks with
  | [] => Some (Looping, did [Get] w)
  | task :: rest =>
      match serve fuel task w with
      | Some (Looping, w') => run fuel rest w'
      | r => r
      end
  end.

(** Counting in a trace. *)
Definition loaded (t : list (event J D)) : list J :=
  flat_map (fun e => match e with Load uri => [uri] | _ => [] end) t.

Definition task_dones (t : list (event J D)) : nat :=
  length (List.filter (fun e => match e with TaskDone => true | _ => false end) t).

Definition puts (t : list (event J D)) : list D :=
  flat_map (fun e => match e with Put d => [d] | _ => [] end) t.

End Worker.

(** ** Sample pages and jobs

    Small trees in the shape of a detail page, used to run the code. *)

Definition el (tag_name : string) (contents : list node) : node :=
  Tag tag_name ∅ [] contents.

Definition text (s : string) : node := NavigableString s.

Definition anchor (href label : string) : node :=
  Tag "a" {[ "href" := href ]} [] [text label].

Definition file_row (href type : string) : node :=
  el "tr" [ el "td" [anchor href "file"]; el "td" [text type]; el "td" [text "any"];
            el "td" [text "2015-01-01"]; el "td" [text "10KB"] ].

Definition header_row : node := el "tr" [ el "th" [text "File"]; el "th" [text "Type"] ].

Definition summary_row : node := el "tr" [ el "td" [text "total"] ].

Definition file_table (rows : list node) : node :=
  Tag "table" ∅ ["list"] (header_row :: rows ++ [summary_row]).

(** A list item labelled [Categories] with one anchor per classifier. *)
Definition categories_li (classifiers : list string) : node :=
  el "li" (el "strong" [text "Categories"] :: map (anchor "/pypi?:action=browse") classifiers).

Definition field_li (label value : string) : node :=
  el "li" [ el "strong" [text label]; el "span" [text value] ].

Definition info_list (items : list node) : node := Tag "ul" ∅ ["nodot"] items.

Definition page (body : list node) : node :=
  el "[document]" [ el "html" [ el "body" body ] ].

(** One good row followed by a row whose link has no [#md5=] fragment. *)
Definition page_bad_row : node :=
  page [ file_table [ file_row "http://host/foo-1.0.tar.gz#md5=0123" source_marker;
                      file_row "http://host/foo-1.0.zip" source_marker ] ].



(** A download link and a bare [License] classifier. *)
Definition page_bare_license : node :=
  page [ info_list [ field_li "Download URL:" "http://host/foo-1.0.tar.gz";
                     categories_li ["License"] ] ].


(** A download that fails twice and then gives one parsed page. *)
Definition flaky_load (_ : unit) (n : nat) : result (gmap string nat) :=
  if Nat.ltb n 3 then Raise (DownloadingError "wget failed")
  else Ok {[ "foo-1.0" := 7 ]}.

Definition fresh_worker : @worker unit nat :=
  {| attempts := 0; data := None; trace := [] |}.

(** A field of [info] that is missing, [None] or the empty string. *)
Definition absent_or_empty (v : option (option string)) : Prop :=
  v = None \/ v = Some None \/ v = Some (Some EmptyString).

(** [info["Categories"]["Programming Language"]], or no entry. *)
Definition language_entries (i : InfoBlock) : list string :=
  match info_categories i with
  | Some categories => default [] (categories !! "Programming Language")
  | None => []
  end.

(** Sample run of the normaliser. *)
Definition sample_convert (dict_name value : string) : string := value.

Definition sample_now : datetime := {| year := 2026; month := 11; day := 3 |}.

Definition wheel_file : FileRecord :=
  {| file_url := "http://host/foo-1.0-py2-none-any.whl"; file_md5 := "abcd";
     file_type := Some "Python Wheel"; file_pyversion := Some "2.7";
     file_uploaded := Some "2015-01-01"; file_size := Some "10KB" |}.

Definition source_file : FileRecord :=
  {| file_url := "http://host/foo-1.0.tar.gz"; file_md5 := "0123";
     file_type := Some source_marker; file_pyversion := None;
     file_uploaded := Some "2015-01-01"; file_size := Some "12KB" |}.

(** Two files and the classifiers [2] and [3.4]; no download link. *)
Definition sample_detail : PackageDetail :=
  {| files := [wheel_file; source_file];
     info := {| info_fields := {[ "Home Page:" := Some "http://foo.example" ]};
                info_categories :=
                  Some {[ "Programming Language" := ["2"; "3.4"] ]} |} |}.

Definition sample_packages : gmap string PackageDetail :=
  {[ "foo-1.0" := sample_detail ]}.

(** Sample run of the loader: an archive with one page in it. *)
Definition sample_download_dir : TemporaryDirectory := {| tmp_name := "/tmp/tmpAAAA" |}.

Definition sample_unpack_dir : TemporaryDirectory := {| tmp_name := "/tmp/tmpBBBB" |}.

Definition sample_retrieve (uri : string) : result file :=
  Ok (TarFile "ustar" [("foo-1.0", "<html></html>")]).

Definition sample_xz (content : string) : option string := None.

Definition sample_parser (content : string) : nat := String.length content.

(** ** The version grammar, read from the pattern

    [^[0-9]+[a-z]?$]: digits, then at most one lower-case letter;
    [^[0-9][0-9\.]+[0-9][a-z]?$]: a digit, then digits and dots, then a digit,
    then at most one lower-case letter.  In Python [$] also holds before a
    newline that ends the text. *)

Definition optional_letter (s : string) : Prop :=
  s = EmptyString \/ exists c, is_lower c = true /\ s = String c EmptyString.

Definition line_end (s : string) : Prop := s = EmptyString \/ s = nl.

Definition plain_version (v : string) : Prop :=
  exists ds l e,
    v = ds +:+ l +:+ e /\ ds <> EmptyString /\ all_chars is_digit ds = true /\
    optional_letter l /\ line_end e.

Definition dotted_version (v : string) : Prop :=
  exists a mid b l e,
    v = String a (mid +:+ String b (l +:+ e)) /\
    is_digit a = true /\ mid <> EmptyString /\ all_chars digit_or_dot mid = true /\
    is_digit b = true /\ optional_letter l /\ line_end e.

Definition version_grammar (v : string) : Prop := plain_version v \/ dotted_version v.

(** The last two items of both alternatives. *)
Definition letter_then_end : list item := [Opt is_lower; Eol].

(** ** Vocabulary for the worker's accounting *)

(** The number of [task_queue.get()] calls in a trace. *)
Definition gets {J D : Type} (t : list (event J D)) : nat :=
  length (List.filter (fun e => match e with Get => true | _ => false end) t).

(** A job settles when its download succeeds at some attempt up to the
    100th after [DownloadingError] failures, or fails so 100 times. *)
Definition settles {J P : Type} (load : J -> nat -> result (gmap string P)) (uri : J)
  : Prop :=
  (exists k d,
     1 <= k <= 100 /\
     (forall n, 1 <= n < k -> exists msg, load uri n = Raise (DownloadingError msg)) /\
     load uri k = Ok d) \/
  (forall n, 1 <= n <= 100 -> exists msg, load uri n = Raise (DownloadingError msg)).

(** An exception that the handler of [run] does not catch. *)
Definition uncaught (e : exn) : Prop := forall msg, e <> DownloadingError msg.

(** A download that fails once and then raises [IOError]. *)
Definition broken_load (_ : unit) (n : nat) : result (gmap string nat) :=
  if Nat.ltb n 2 then Raise (DownloadingError "xz failed") else Raise IOError.

(** ** Vocabulary for the output of the normaliser *)

(** [(p, e)] is the record that the loop body builds for [entry]: the detail
    of the entry is in the store, its licence list can be read, its source
    URI is not empty, and the fields are computed as in lines 445-511. *)
Definition record_of (convert : string -> string -> string) (now : datetime)
           (packages : gmap string PackageDetail)
           (entry : (string * string) * string) (p : Package) (e : ebuild_data) : Prop :=
  exists pkg_data homepage raw py_versions,
    packages !! (fst (fst entry) +:+ "-" +:+ snd (fst entry)) = Some pkg_data /\
    read_info (info pkg_data) = Ok (homepage, raw, py_versions) /\
    select_source_uri (download_url_of (info pkg_data))
                      (fst (first_source (files pkg_data))) <> EmptyString /\
    p = {| pkg_category := "dev-python";
           pkg_name := filter_chars allowed_ords_pkg (fst (fst entry));
           pkg_version := filtered_version now (snd (fst entry)) |} /\
    e = make_ebuild (fst (fst entry)) (snd (fst entry))
                    (filter_chars allowed_ords_desc (snd entry))
                    homepage (convert "licenses" raw)
                    (select_source_uri (download_url_of (info pkg_data))
                                       (fst (first_source (files pkg_data))))
                    (snd (first_source (files pkg_data)))
                    (python_compat_of py_versions).

(** A run date that [datetime] can hold. *)
Definition valid_date (now : datetime) : Prop :=
  year now < 10000 /\ month now < 100 /\ day now < 100.

(** An entry that the loop passes over: no detail in the store, an empty
    detail, or a detail that gives no source URI. *)
Definition dropped (packages : gmap string PackageDetail)
           (entry : (string * string) * string) : Prop :=
  match packages !! (fst (fst entry) +:+ "-" +:+ snd (fst entry)) with
  | None => True
  | Some pkg_data =>
      (files pkg_data = [] /\ info_nonempty (info pkg_data) = false) \/
      select_source_uri (download_url_of (info pkg_data))
                        (fst (first_source (files pkg_data))) = EmptyString
  end.

(** A detail with only a built distribution, and one with nothing. *)
Definition wheel_only_detail : PackageDetail :=
  {| files := [wheel_file]; info := empty_info |}.

(** A detail with a source file and no info at all, and one whose page
    lists the languages [2] and [2.7]. *)
Definition bare_source_detail : PackageDetail :=
  {| files := [source_file]; info := empty_info |}.

Definition two_languages_detail : PackageDetail :=
  {| files := [source_file];
     info := {| info_fields := ∅;
                info_categories := Some {[ "Programming Language" := ["2"; "2.7"] ]} |} |}.

(** A constructor that builds the page with the malformed row whatever the
    markup. *)
Definition sample_soup (markup : string) : result node := Ok page_bad_row.

Definition sample_index : list ((string * string) * string) :=
  [ (("foo", "1.0"), ""); (("bar", "0.1-rc1"), ""); (("baz", "2"), "") ].

(** [foo] has a source file, [bar] only a wheel, [baz] has no detail. *)
Definition sample_store : gmap string PackageDetail :=
  {[ "foo-1.0" := sample_detail; "bar-0.1-rc1" := wheel_only_detail ]}.

(** The licence text handed to the lookup: the last value of the [License]
    group, or [""] when the page lists none. *)
Definition raw_license (i : InfoBlock) : string :=
  match info_categories i with
  | Some categories =>
      match categories !! "License" with
      | Some licenses => default EmptyString (last licenses)
      | None => EmptyString
      end
  | None => EmptyString
  end.

Definition sample_run : result unit * list call :=
  process_data sample_convert sample_now sample_index sample_store [].

(** ** Rendered pages

    [find_all_at] unfolded one level: what a search finds below a tag, child
    by child. *)
Fixpoint find_in_children (wanted : string) (class_ : option string) (i : nat)
         (cs : list node) : list (path * node) :=
  match cs with
  | [] => []
  | c :: r =>
      (if is_tag wanted class_ c then [([i], c)] else [])
        ++ map (fun pd => (i :: fst pd, snd pd)) (find_all_at wanted class_ c)
        ++ find_in_children wanted class_ (S i) r
  end.

(** No ["#"] in a string. *)
Definition hash_free (s : string) : Prop :=
  all_chars (fun c => negb (Ascii.eqb c "#")) s = true.

(** A table row for the file at [url] with checksum [hash] and release type
    [type], the record it stands for, and the page made of such rows and of
    labelled values. *)
Definition rendered_row (r : string * string * string) : node :=
  file_row (fst (fst r) +:+ "#md5=" +:+ snd (fst r)) (snd r).

Definition rendered_file (r : string * string * string) : FileRecord :=
  {| file_url := fst (fst r); file_md5 := snd (fst r); file_type := Some (snd r);
     file_pyversion := Some "any"; file_uploaded := Some "2015-01-01";
     file_size := Some "10KB" |}.

Definition rendered_field (kv : string * string) : node := field_li (fst kv) (snd kv).

Definition rendered_page (rows : list (string * string * string))
           (kvs : list (string * string)) : node :=
  page [ file_table (map rendered_row rows); info_list (map rendered_field kvs) ].

(** A label that [walk_entries] stores as a scalar field. *)
Definition field_label (label : string) : Prop :=
  label <> EmptyString /\ label <> "Categories".

(** The results of a search that finds each of [nodes] itself, numbered from
    position [i]. *)
Fixpoint positions (i : nat) (nodes : list node) : list (path * node) :=
  match nodes with
  | [] => []
  | n :: r => ([i], n) :: positions (S i) r
  end.

(** No ["/"] in a name. *)
Definition slash_free (s : string) : Prop :=
  all_chars (fun c => negb (Ascii.eqb c "/")) s = true.

(** Downloads of a plain page and of a compressed one, and an [xz] that
    strips a four-byte header. *)
Definition plain_retrieve (uri : string) : result file := Ok (Plain "<html></html>").

Definition xz_retrieve (uri : string) : result file := Ok (Plain "XZ__<html></html>").

Definition unxz (content : string) : option string :=
  if is_prefix "XZ__" content then Some (drop_chars 4 content) else None.

(** ** URI lists ([get_download_uries] and [decode_download_uries]) *)

(** The values kept in a URI dictionary: strings, booleans, numbers and the
    bound method [self.parse_data]. *)
Inductive setting : Type :=
| Str (s : string)
| Flag (b : bool)
| Num (n : nat)
| Method (method_name : string).

(** An entry of a URI list is a string or a dictionary. *)
Inductive uri_entry : Type :=
| UriString (uri : string)
| UriDict (d : gmap string setting).

(** [if not key in decuri: decuri[key] = v] *)
Definition set_missing (key : string) (v : setting) (decuri : gmap string setting)
  : gmap string setting :=
  match decuri !! key with
  | Some _ => decuri
  | None => <[key := v]> decuri
  end.

(** Lines 219-232: the body of the loop. *)
Definition decode_uri (uri : uri_entry) : gmap string setting :=
  match uri with
  | UriString uri =>
      <["open_mode" := Str "r"]>
        (<["open_file" := Flag true]>
           (<["parser" := Method "parse_data"]>
              (<["uri" := Str uri]> ∅)))
  | UriDict decuri =>
      set_missing "open_mode" (Str "r")
        (set_missing "open_file" (Flag true)
           (set_missing "parser" (Method "parse_data") decuri))
  end.

(** [decode_download_uries(uries)] *)
Definition decode_download_uries (uries : list uri_entry) : list (gmap string setting) :=
  fold_left (fun decoded uri => decoded ++ [decode_uri uri]) uries [].

(** [get_download_uries(common_config, config)]: the value kept in
    [self.repo_uri] and the list returned. *)
Definition get_download_uries (config : gmap string string)
  : result (string * list uri_entry) :=
  match config !! "repo_uri" with
  | None => Raise KeyError
  | Some repo_uri =>
      Ok (repo_uri,
          [UriDict (<["uri" := Str (repo_uri +:+ "simple")]>
                      (<["output" := Str "packages"]> ∅))])
  end.

(** ** Index parser ([pypi_versions] and [PypiDBGenerator.parse_data]) *)

(** [tag.get_text()]: the strings below the tag, in document order. *)
Definition get_text (n : node) : string :=
  join EmptyString
       (omap (fun pd => match snd pd with
                        | NavigableString s => Some s
                        | Tag _ _ _ _ => None
                        end)
             (descendants n)).

(** What [data] holds: the index under ["index"], and the parsed pages that
    the workers put on the result queue. *)
Inductive stored : Type :=
| Index (entries : gmap (string * string) string)
| Page (detail : PackageDetail).

(** What [parse_data] does to the outside, in program order. *)
Inductive index_event : Type :=
| Queued (pkg_job : gmap string setting)   (* task_queue.put(pkg_job) *)
| Joined                                   (* task_queue.join() *)
| Slept (seconds : nat)                    (* time.sleep(seconds) *)
| Printed (line : string)
| Dumped (data : gmap string stored).      (* print(data) *)

(** [data["index"]], the number of requests made so far and the trace. *)
Record index_state : Type := {
  entries : gmap (string * string) string;
  requests : nat;
  said : list index_event
}.

Section IndexParser.

(** [releases n url] is what [requests.get(url).json()["releases"]] gives
    at the [n]-th request of the run: the keys of the object in the order
    of iteration, or the exception raised on the way. *)
Variable releases : nat -> string -> result (list string).

(** [self.repo_uri] *)
Variable repo_uri : string.

(** [pypi_versions(name)] at the [n]-th request. *)
Definition pypi_versions (n : nat) (name : string) : list string :=
  let url := "https://pypi.python.org/pypi/" +:+ name +:+ "/json" in
  let releases :=
    match releases n url with
    | Ok releases => releases
    | Raise _ => []
    end in
  fold_left (fun versions ver => versions ++ [ver]) releases [].

(** Lines 268-271. *)
Definition pkg_job (package version : string) : gmap string setting :=
  <["uri" := Str (repo_uri +:+ "pypi/" +:+ package +:+ "/" +:+ version)]>
    (<["parser" := Str "parse_package_page"]>
       (<["output" := Str (package +:+ "-" +:+ version)]>
          (<["timeout" := Num 2]> ∅))).

(** Lines 266-272: the body of the loop over the versions of [package]. *)
Definition add_version (package : string) (st : index_state) (version : string)
  : index_state :=
  let description := EmptyString in
  {| entries := <[(package, version) := description]> (entries st);
     requests := requests st;
     said := said st ++ [Queued (pkg_job package version)] |}.

(** Lines 261-273.  [entry.decompose()] runs once per version and empties
    the anchor and everything below it, so an anchor of the list that lies
    inside one already decomposed has no text left; [decomposed] holds the
    anchors decomposed so far. *)
Fixpoint walk_anchors (decomposed : list path) (anchors : list (path * node))
         (st : index_state) : index_state :=
  match anchors with
  | [] => st
  | (p, entry) :: rest =>
      let package :=
        if existsb (fun q => path_prefix q p) decomposed then EmptyString
        else get_text entry in
      let versions := pypi_versions (S (requests st)) package in
      let st := {| entries := entries st; requests := S (requests st); said := said st |} in
      let st := fold_left (add_version package) versions st in
      let decomposed :=
        match versions with
        | [] => decomposed
        | _ :: _ => p :: decomposed
        end in
      walk_anchors decomposed rest st
  end.

(** Lines 287-292: the loop that empties the result queue; [results] is
    what [result_queue.get()] hands out until [empty()] holds. *)
Fixpoint empty_queue (first : bool) (results : list (gmap string PackageDetail))
         (data : gmap string stored) (t : list index_event)
  : gmap string stored * list index_event :=
  match results with
  | [] => (data, t)
  | got :: rest =>
      let t := t ++ [Slept 1;
                     Printed ("Emptying Queue: estimated queue length left "
                                +:+ decimal (length results))] in
      let data := update data (Page <$> got) in
      let t := if first then t ++ [Dumped data] else t in
      empty_queue first rest data t
  end.

(** Lines 248-276: the index and the jobs read off the page. *)
Definition read_index (soup : node) : index_state :=
  match head (find_all_at "body" None soup) with
  | Some (_, packages) =>
      walk_anchors [] (find_all_at "a" None packages)
                   {| entries := ∅; requests := 0; said := [] |}
  | None =>
      {| entries := ∅; requests := 0;
         said := [Printed "Error: I have returned no packages??"] |}
  end.

(** [parse_data(data_f)], where [soup] is the tree read from [data_f] and
    [first] is [self.first]: the data returned, the new value of
    [self.first] and the trace.  [self.count] is read into [last], which
    nothing uses; [decode_download_uries] is called on an empty list. *)
Definition parse_data (first : bool) (soup : node)
           (results : list (gmap string PackageDetail))
  : gmap string stored * bool * list index_event :=
  let st := read_index soup in
  let data : gmap string stored := {[ "index" := Index (entries st) ]} in
  let t := said st ++ [Joined] in
  let '(first, t) := if first then (false, t ++ [Slept 5]) else (first, t) in
  let '(data, t) := empty_queue first results data t in
  (data, first, t ++ [Dumped data]).

End IndexParser.

(** The jobs put on the task queue in a trace. *)
Definition queued (t : list index_event) : list (gmap string setting) :=
  flat_map (fun e => match e with Queued j => [j] | _ => [] end) t.

(** The name under which the result of a job is filed. *)
Definition output_of (pkg_job : gmap string setting) : option string :=
  match pkg_job !! "output" with
  | Some (Str output) => Some output
  | _ => None
  end.

(** The parsed pages of [data], which [process_data] looks up by name. *)
Definition pages (data : gmap string stored) : gmap string PackageDetail :=
  omap (fun v => match v with Page detail => Some detail | Index _ => None end) data.

(** The index and the task queue go together: every entry of the index has
    an empty description and its job on the queue, and every job on the
    queue is the job of an entry. *)
Definition in_step (repo_uri : string) (st : index_state) : Prop :=
  (forall p v d, entries st !! (p, v) = Some d ->
                 d = EmptyString /\ In (pkg_job repo_uri p v) (queued (said st))) /\
  (forall j, In j (queued (said st)) ->
             exists p v, j = pkg_job repo_uri p v /\ entries st !! (p, v) = Some EmptyString).

(** A dictionary that [load_remote_file] can be called on without falling
    back on a default of [decode_download_uries]. *)
Definition complete (decuri : gmap string setting) : Prop :=
  is_Some (decuri !! "parser") /\ is_Some (decuri !! "open_file") /\
  is_Some (decuri !! "open_mode").

(** An index page with one anchor per name, and release lists. *)
Definition index_page (names : list string) : node :=
  el "html" [ el "body" (map (fun n => anchor ("/simple/" +:+ n) n) names) ].

Definition sample_releases (n : nat) (url : string) : result (list string) :=
  if String.eqb url "https://pypi.python.org/pypi/foo/json" then Ok ["1.0"; "1.1"]
  else if String.eqb url "https://pypi.python.org/pypi/bar/json" then Ok ["0.1-rc1"]
  else Raise IOError.

Definition sample_results : list (gmap string PackageDetail) :=
  [ {[ "foo-1.0" := sample_detail ]}; {[ "bar-0.1-rc1" := wheel_only_detail ]} ].

(** A run on an index page of three names, the third of which has no
    release list, and the index it leaves. *)
Definition sample_parse : gmap string stored * bool * list index_event :=
  parse_data sample_releases "http://host/" true (index_page ["foo"; "bar"; "baz"])
             sample_results.

Definition sample_entries : gmap (string * string) string :=
  <[("foo", "1.0") := EmptyString]>
    (<[("foo", "1.1") := EmptyString]>
       (<[("bar", "0.1-rc1") := EmptyString]> ∅)).

Definition sample_items : list ((string * string) * string) :=
  [ (("foo", "1.0"), ""); (("foo", "1.1"), ""); (("bar", "0.1-rc1"), "") ].

(** The same result handed out twice, with different pages. *)
Definition repeated_results : list (gmap string PackageDetail) :=
  [ {[ "foo-1.0" := wheel_only_detail ]}; {[ "foo-1.0" := sample_detail ]} ].

(** * Properties *)

(** ** The fetch worker *)

Section WorkerFacts.

Context {J P : Type}.
Variable load : J -> nat -> result (gmap string P).

Local Abbreviation ev := (event J (gmap string P)).

Lemma loaded_app (t u : list ev) : loaded (t ++ u) = loaded t ++ loaded u.
Proof. unfold loaded. apply flat_map_app. Qed.

Lemma task_dones_app (t u : list ev) :
  task_dones (t ++ u) = task_dones t + task_dones u.
Proof. unfold task_dones. now rewrite List.filter_app, length_app. Qed.

Lemma puts_app (t u : list ev) : puts (t ++ u) = puts t ++ puts u.
Proof. unfold puts. apply flat_map_app. Qed.

Lemma loaded_prints {A : Type} (f : A -> string) (l : list A) :
  loaded (map (fun x => Print (f x) : ev) l) = [].
Proof. induction l; auto. Qed.

Lemma task_dones_prints {A : Type} (f : A -> string) (l : list A) :
  task_dones (map (fun x => Print (f x) : ev) l) = 0.
Proof. induction l; auto. Qed.

Lemma puts_prints {A : Type} (f : A -> string) (l : list A) :
  puts (map (fun x => Print (f x) : ev) l) = [].
Proof. induction l; auto. Qed.

Lemma repeat_step (uri : J) a k :
  a < k -> repeat uri (k - a) = [uri] ++ repeat uri (k - S a).
Proof.
  intros H. replace (k - a) with (S (k - S a)) by lia. reflexivity.
Qed.

Lemma retry_S fuel uri (w : worker) :
  retry load (S fuel) uri w =
  match attempt load uri w with
  | (Looping, w') => retry load fuel uri w'
  | (Left, w') => Some (Looping, w')
  | (Died e, w') => Some (Died e, w')
  end.
Proof. reflexivity. Qed.

Lemma attempt_failed uri (w : worker) msg :
  load uri (S (attempts w)) = Raise (DownloadingError msg) ->
  S (attempts w) <= 100 ->
  attempt load uri w =
  let w' := {| attempts := S (attempts w); data := data w;
               trace := trace w ++ [Load uri; Print msg] |} in
  if Nat.ltb (S (attempts w)) 100 then (Looping, w')
  else (Left, did [TaskDone] w').
Proof.
  intros Hl Hle. unfold attempt. rewrite Hl. unfold did. cbn [attempts data trace].
  rewrite <- !app_assoc. cbn [app].
  destruct (Nat.ltb_spec (S (attempts w)) 100) as [|Hge]; [reflexivity|].
  destruct (Nat.eqb_spec (S (attempts w)) 100) as [|Hne]; [reflexivity|lia].
Qed.

Lemma attempt_loaded uri (w : worker) d :
  load uri (S (attempts w)) = Ok d ->
  attempt load uri w =
  (Left, {| attempts := S (attempts w); data := Some d;
            trace := trace w ++ [Load uri; TaskDone; Put d]
                       ++ map (fun kv => Print (fst kv)) (map_to_list d) |}).
Proof.
  intros Hl. unfold attempt. rewrite Hl. unfold deliver, did.
  cbn [attempts data trace]. now rewrite <- !app_assoc.
Qed.

(** Exhaustion: from [a] attempts made, failures up to the 100th attempt
    end the loop after [100 - a] more calls, one [task_done] and no [put]. *)
Lemma retry_exhausted uri fuel : forall w : worker,
  attempts w < 100 ->
  100 <= attempts w + fuel ->
  (forall n, attempts w < n <= 100 -> exists msg, load uri n = Raise (DownloadingError msg)) ->
  exists t,
    retry load fuel uri w =
      Some (Looping, {| attempts := 100; data := data w; trace := trace w ++ t |}) /\
    loaded t = repeat uri (100 - attempts w) /\ task_dones t = 1 /\ puts t = [].
Proof.
  induction fuel as [|fuel IH]; intros w Hlt Hfuel Hfail; [lia|].
  destruct (Hfail (S (attempts w))) as [msg Hmsg]; [lia|].
  rewrite retry_S, (attempt_failed _ _ _ Hmsg) by lia. cbv zeta.
  destruct (Nat.ltb_spec (S (attempts w)) 100) as [Hlt'|Hge].
  - edestruct (IH {| attempts := S (attempts w); data := data w;
                     trace := trace w ++ [Load uri; Print msg] |})
      as (t & Hr & Hl & Htd & Hp); cbn [attempts data trace] in *; try lia.
    { intros n Hn. apply Hfail. lia. }
    exists ([Load uri; Print msg] ++ t). rewrite Hr, <- app_assoc.
    split; [reflexivity|].
    rewrite loaded_app, task_dones_app, puts_app, Hl, Htd, Hp.
    change (loaded [Load uri; Print msg]) with [uri].
    change (task_dones [Load uri; Print msg]) with 0.
    change (puts [Load uri; Print msg]) with (@nil (gmap string P)).
    repeat split; try lia.
    rewrite (repeat_step uri (attempts w) 100) by lia. reflexivity.
  - assert (He : S (attempts w) = 100) by lia.
    exists [Load uri; Print msg; TaskDone]. unfold did. cbn [attempts data trace].
    rewrite He, <- app_assoc. split; [reflexivity|].
    change (loaded [Load uri; Print msg; TaskDone]) with [uri].
    repeat split; try reflexivity.
    rewrite (repeat_step uri (attempts w) 100) by lia.
    replace (100 - S (attempts w)) with 0 by lia. reflexivity.
Qed.

(** Success at the [k]-th attempt after failures. *)
Lemma retry_succeeded uri k d fuel : forall w : worker,
  attempts w < k <= 100 ->
  k <= attempts w + fuel ->
  (forall n, attempts w < n < k -> exists msg, load uri n = Raise (DownloadingError msg)) ->
  load uri k = Ok d ->
  exists t,
    retry load fuel uri w =
      Some (Looping, {| attempts := k; data := Some d; trace := trace w ++ t |}) /\
    loaded t = repeat uri (k - attempts w) /\ task_dones t = 1 /\ puts t = [d].
Proof.
  induction fuel as [|fuel IH]; intros w Hlt Hfuel Hfail Hok; [lia|].
  rewrite retry_S.
  destruct (Nat.eq_dec (S (attempts w)) k) as [Hk|Hk].
  - rewrite (attempt_loaded _ _ d) by now rewrite Hk.
    rewrite Hk. eexists. split; [reflexivity|].
    rewrite !loaded_app, !task_dones_app, !puts_app.
    rewrite (loaded_prints fst), (task_dones_prints fst), (puts_prints fst).
    change (loaded [Load uri; TaskDone; Put d]) with [uri].
    change (task_dones [Load uri; TaskDone; Put d]) with 1.
    change (puts [Load uri; TaskDone; Put d]) with [d].
    repeat split; try lia.
    rewrite (repeat_step uri (attempts w) k) by lia.
    replace (k - S (attempts w)) with 0 by lia. reflexivity.
  - destruct (Hfail (S (attempts w))) as [msg Hmsg]; [lia|].
    rewrite (attempt_failed _ _ _ Hmsg) by lia. cbv zeta.
    destruct (Nat.ltb_spec (S (attempts w)) 100) as [Hlt'|Hge]; [|lia].
    edestruct (IH {| attempts := S (attempts w); data := data w;
                     trace := trace w ++ [Load uri; Print msg] |})
      as (t & Hr & Hl & Htd & Hp); cbn [attempts data trace] in *; try lia; eauto.
    { intros n Hn. apply Hfail. lia. }
    exists ([Load uri; Print msg] ++ t). rewrite Hr, <- app_assoc.
    split; [reflexivity|].
    rewrite loaded_app, task_dones_app, puts_app, Hl, Htd, Hp.
    change (loaded [Load uri; Print msg]) with [uri].
    change (task_dones [Load uri; Print msg]) with 0.
    change (puts [Load uri; Print msg]) with (@nil (gmap string P)).
    repeat split; try lia.
    rewrite (repeat_step uri (attempts w) k) by lia. reflexivity.
Qed.

End WorkerFacts.



(** ** The detail-page parser *)

(** *** The exceptions that the walk can raise *)

Lemma index_raises {A : Type} (l : list A) (i : nat) e :
  index l i = Raise e -> e = IndexError.
Proof. unfold index. destruct (l !! i); [discriminate|]. now intros [= <-]. Qed.

Lemma getitem_raises (n : node) (key : string) e :
  getitem n key = Raise e -> e = KeyError \/ e = TypeError.
Proof.
  destruct n as [s|tag_name attrs classes contents]; cbn [getitem].
  - intros [= <-]. now right.
  - destruct (attrs !! key); [discriminate|]. intros [= <-]. now left.
Qed.

Lemma contains_in_raises (sub : string) (v : option string) e :
  contains_in sub v = Raise e -> e = TypeError.
Proof. destruct v; cbn; [discriminate|]. now intros [= <-]. Qed.

Lemma split_of_raises (sep : string) (v : option string) e :
  split_of sep v = Raise e -> e = AttributeError.
Proof. destruct v; cbn; [discriminate|]. now intros [= <-]. Qed.

Ltac lookup_error_of H :=
  first
    [ apply index_raises in H; subst; unfold lookup_error; tauto
    | apply getitem_raises in H; destruct H; subst; unfold lookup_error; tauto
    | apply contains_in_raises in H; subst; unfold lookup_error; tauto
    | apply split_of_raises in H; subst; unfold lookup_error; tauto ].

Lemma parse_row_raises (fields : list node) e :
  parse_row fields = Raise e -> lookup_error e.
Proof.
  unfold parse_row, rbind.
  repeat match goal with
         | |- context [match ?r with Ok _ => _ | Raise _ => _ end] =>
             let H := fresh "H" in
             destruct r eqn:H; [|intros [= <-]; lookup_error_of H]
         end.
  discriminate.
Qed.

Lemma walk_rows_raises (rows : list (path * node)) :
  forall decomposed data e data',
    walk_rows decomposed rows data = (Raise e, data') -> lookup_error e.
Proof.
  induction rows as [|[p entry] rows IH]; intros decomposed data e data'.
  - discriminate.
  - cbn [walk_rows]. unfold bind, lift, modify.
    destruct (parse_row _) as [file|err] eqn:Hrow.
    + apply IH.
    + intros [= <- _]. exact (parse_row_raises _ _ Hrow).
Qed.

Lemma walk_category_raises (cat_entry : node) data e data' :
  walk_category cat_entry data = (Raise e, data') -> lookup_error e.
Proof.
  unfold walk_category.
  destruct (split_of " :: " (tag_string cat_entry)) as [cat_data|err] eqn:Hsplit.
  - unfold add_category. destruct cat_data as [|group values].
    + intros [= <- _]. unfold lookup_error. tauto.
    + destruct (default ∅ (info_categories (info data)) !! group); discriminate.
  - intros [= <- _]. lookup_error_of Hsplit.
Qed.

Lemma for_each_walk_category_raises (anchors : list node) :
  forall data e data',
    for_each walk_category anchors data = (Raise e, data') -> lookup_error e.
Proof.
  induction anchors as [|a anchors IH]; intros data e data'.
  - discriminate.
  - cbn [for_each]. unfold bind.
    destruct (walk_category a data) as [[[]|err] data1] eqn:Hcat.
    + apply IH.
    + intros [= <- _]. exact (walk_category_raises _ _ _ _ Hcat).
Qed.

Lemma walk_entries_raises (n : nat) :
  forall entries, length entries <= n ->
  forall data e data',
    walk_entries entries data = (Raise e, data') -> lookup_error e.
Proof.
  induction n as [|n IH]; intros entries Hlen data e data'.
  - destruct entries; [discriminate|cbn in Hlen; lia].
  - destruct entries as [|entry rest]; [discriminate|]. cbn [length] in Hlen.
    assert (Hrest : forall data, walk_entries rest data = (Raise e, data') -> lookup_error e).
    { intros d. apply IH. lia. }
    cbn [walk_entries].
    destruct (negb (is_tag "li" None entry)); [apply Hrest|].
    unfold bind, lift, modify.
    destruct (index (find_all "strong" entry) 0) as [strong|err] eqn:Hstrong.
    2: { intros [= <- _]. lookup_error_of Hstrong. }
    destruct (negb (truthy (tag_string strong))); [apply Hrest|].
    destruct (String.eqb _ "Categories").
    + destruct (for_each walk_category (find_all "a" entry) _) as [[[]|err] data1] eqn:Hcats.
      * apply Hrest.
      * intros [= <- _]. exact (for_each_walk_category_raises _ _ _ _ Hcats).
    + destruct (find_all "span" entry) as [|span spans]; [|apply Hrest].
      destruct (find_all "a" entry) as [|anchor anchors].
      * destruct rest as [|next rest']; [discriminate|]. apply IH. cbn [length] in Hlen. lia.
      * destruct (getitem anchor "href") as [href|err] eqn:Hhref; [apply Hrest|].
        intros [= <- _]. lookup_error_of Hhref.
Qed.

Lemma walk_table_raises (soup : node) data e data' :
  walk_table soup data = (Raise e, data') -> lookup_error e.
Proof.
  unfold walk_table.
  destruct (slice_m1 _) as [|[p table] others]; [discriminate|].
  unfold bind, lift.
  destruct (index (find_all "th" table) 0) as [th|err] eqn:Hth.
  2: { intros [= <- _]. lookup_error_of Hth. }
  destruct (contains_in "File" (tag_string th)) as [is_file_table|err] eqn:Hfile.
  2: { intros [= <- _]. lookup_error_of Hfile. }
  destruct (negb is_file_table); [discriminate|].
  destruct (walk_rows _ _ _) as [[[]|err] data1] eqn:Hrows; [discriminate|].
  intros [= <- _]. exact (walk_rows_raises _ _ _ _ _ Hrows).
Qed.

Lemma walk_info_raises (soup : node) removed data e data' :
  walk_info soup removed data = (Raise e, data') -> lookup_error e.
Proof.
  unfold walk_info.
  destruct (map snd _) as [|ul0 uls]; [discriminate|].
  unfold bind, lift.
  destruct (index (find_all "strong" ul0) 0) as [strong|err] eqn:Hstrong.
  2: { intros [= <- _]. lookup_error_of Hstrong. }
  destruct (contains_in _ (tag_string strong)) as [all_versions|err] eqn:Hall.
  2: { intros [= <- _]. lookup_error_of Hall. }
  destruct (if all_versions then _ else _) as [ul|err] eqn:Hul.
  2: { intros [= <- _]. destruct all_versions; lookup_error_of Hul. }
  apply (walk_entries_raises (length (node_contents ul))). lia.
Qed.

(** Whatever the tree, the walk raises nothing but the exceptions of
    indexing, item access and attribute access. *)
Lemma walk_raises (soup : node) data e data' :
  walk soup data = (Raise e, data') -> lookup_error e.
Proof.
  unfold walk, bind.
  destruct (walk_table soup data) as [[removed|err] data1] eqn:Htable.
  - apply walk_info_raises.
  - intros [= <- _]. exact (walk_table_raises _ _ _ _ Htable).
Qed.

Lemma lookup_error_is_Exception (e : exn) : lookup_error e -> is_Exception e = true.
Proof. intros [->|[->|[->| ->]]]; reflexivity. Qed.

(** C2.  [parse_package_page] is total over the markup it is given.  Once
    the file is read and the tree is built, nothing leaves the function:
    whatever the tree, the walk of the file table and of the info list
    raises nothing but [IndexError], [KeyError], [TypeError] and
    [AttributeError], which the handler of [except Exception] catches.  The
    value returned is a record with its two fields; when the walk raised,
    what it had collected is dropped, the empty record is returned and the
    two lines of the handler are written; when it did not, the collected
    record is returned and nothing is written. *)
Theorem parse_package_page_total (BeautifulSoup : string -> result node)
        (markup : string) (soup : node) :
  BeautifulSoup markup = Ok soup ->
  exists data out,
    PypiDBGenerator_parse_package_page BeautifulSoup (Ok markup) = (Ok data, out) /\
    data = parse_package_page soup /\
    (forall error partial,
       walk soup empty_detail = (Raise error, partial) ->
       lookup_error error /\
       data = {| files := []; info := empty_info |} /\
       out = [ParsingError error; IgnoringPackage]) /\
    (forall collected,
       walk soup empty_detail = (Ok tt, collected) -> data = collected /\ out = []).
Proof.
  intros Hsoup. unfold PypiDBGenerator_parse_package_page, parse_package_page.
  cbn [rbind]. rewrite Hsoup.
  destruct (walk soup empty_detail) as [[[]|error] partial] eqn:Hwalk.
  - exists partial, []. split; [reflexivity|]. split; [reflexivity|]. split.
    + discriminate.
    + intros collected [= <-]. auto.
  - assert (Herr := walk_raises _ _ _ _ Hwalk).
    rewrite (lookup_error_is_Exception _ Herr).
    eexists _, _. split; [reflexivity|]. split; [reflexivity|]. split.
    + intros error' partial' [= <- <-]. auto.
    + discriminate.
Qed.

Lemma parse_package_page_total_witness :
  fst (walk page_bad_row empty_detail) = Raise IndexError /\
  length (files (snd (walk page_bad_row empty_detail))) = 1 /\
  PypiDBGenerator_parse_package_page sample_soup (Ok "<html><table class='list'>")
  = (Ok {| files := []; info := empty_info |}, [ParsingError IndexError; IgnoringPackage]).
Proof.
  split; [vm_compute; reflexivity|]. split; [vm_compute; reflexivity|].
  destruct (parse_package_page_total sample_soup "<html><table class='list'>" page_bad_row
              eq_refl) as (data & out & Hrun & _ & Hraise & _).
  destruct (Hraise IndexError (snd (walk page_bad_row empty_detail)))
    as (_ & Hdata & Hout).
  - vm_compute. reflexivity.
  - rewrite Hrun, Hdata, Hout. reflexivity.
Defined.

(** Line 302 is outside [try:]: an exception of [data_f.read()] or of the
    constructor leaves the function as it is. *)
Remark parse_package_page_read_error (BeautifulSoup : string -> result node) (e : exn) :
  PypiDBGenerator_parse_package_page BeautifulSoup (Raise e) = (Raise e, []) /\
  (forall markup,
     BeautifulSoup markup = Raise e ->
     PypiDBGenerator_parse_package_page BeautifulSoup (Ok markup) = (Raise e, [])).
Proof.
  split; [reflexivity|]. intros markup H. unfold PypiDBGenerator_parse_package_page.
  cbn [rbind]. now rewrite H.
Qed.







(** ** The record normaliser *)

Lemma render_default_ok (py_versions : list string) :
  render_python_compat (default_tags py_versions) = Ok (python_compat_of py_versions).
Proof.
  unfold python_compat_of. destruct py_versions as [|a [|b l]]; reflexivity.
Qed.

Lemma truthy_nonempty (s : string) : truthy (Some s) = true <-> s <> EmptyString.
Proof. destruct s; cbn; split; congruence. Qed.

Section NormaliserFacts.

Variable convert : string -> string -> string.
Variable now : datetime.

(** What one pass of the loop body does, case by case. *)
Lemma process_entry_run packages package version description pkg_data (t : list call) :
  packages !! (package +:+ "-" +:+ version) = Some pkg_data ->
  files pkg_data <> [] \/ info_nonempty (info pkg_data) = true ->
  process_entry convert now packages ((package, version), description) t =
  let src := select_source_uri (download_url_of (info pkg_data))
                               (fst (first_source (files pkg_data))) in
  if truthy (Some src) then
    match read_info (info pkg_data) with
    | Ok (homepage, raw, py_versions) =>
        (Ok tt,
         t ++ [ Convert "licenses" raw;
                AddPackage
                  {| pkg_category := "dev-python";
                     pkg_name := filter_chars allowed_ords_pkg package;
                     pkg_version := filtered_version now version |}
                  (make_ebuild package version
                               (filter_chars allowed_ords_desc description)
                               homepage (convert "licenses" raw) src
                               (snd (first_source (files pkg_data)))
                               (python_compat_of py_versions)) ])
    | Raise e => (Raise e, t)
    end
  else (Ok tt, t).
Proof.
  intros Hpkg Hne. unfold process_entry. rewrite Hpkg.
  assert (Hskip : negb (bool_decide (files pkg_data <> [])) &&
                  negb (info_nonempty (info pkg_data)) = false).
  { destruct Hne as [Hf|Hi].
    - rewrite bool_decide_eq_true_2 by assumption. reflexivity.
    - rewrite Hi. apply andb_false_r. }
  rewrite Hskip. destruct (first_source (files pkg_data)) as [files_src_uri md5'].
  cbn [fst snd]. cbv zeta.
  destruct (truthy (Some (select_source_uri _ files_src_uri))); [|reflexivity].
  cbn [negb]. unfold bind, lift, call_convert, emit, modify.
  destruct (read_info (info pkg_data)) as [[[homepage raw] py_versions]|e];
    [|reflexivity].
  rewrite render_default_ok. rewrite <- app_assoc. reflexivity.
Qed.

Lemma process_entry_absent packages package version description (t : list call) :
  packages !! (package +:+ "-" +:+ version) = None ->
  process_entry convert now packages ((package, version), description) t = (Ok tt, t).
Proof. intros H. unfold process_entry. now rewrite H. Qed.

Lemma process_entry_empty packages package version description pkg_data (t : list call) :
  packages !! (package +:+ "-" +:+ version) = Some pkg_data ->
  files pkg_data = [] -> info_nonempty (info pkg_data) = false ->
  process_entry convert now packages ((package, version), description) t = (Ok tt, t).
Proof.
  intros H Hf Hi. unfold process_entry. rewrite H, Hf, Hi. reflexivity.
Qed.

End NormaliserFacts.

Lemma first_source_found pre f post :
  Forall (fun g => file_type g <> Some source_marker) pre ->
  file_type f = Some source_marker ->
  first_source (pre ++ f :: post) = (file_url f, file_md5 f).
Proof.
  induction 1 as [|g pre Hg _ IH]; intros Hf; cbn [app first_source].
  - now rewrite bool_decide_eq_true_2.
  - rewrite bool_decide_eq_false_2 by assumption. auto.
Qed.

Lemma first_source_none fs :
  Forall (fun g => file_type g <> Some source_marker) fs ->
  first_source fs = (EmptyString, EmptyString).
Proof.
  induction 1 as [|g fs Hg _ IH]; cbn [first_source]; [reflexivity|].
  now rewrite bool_decide_eq_false_2.
Qed.

Lemma select_download_url i u files_src_uri :
  info_fields i !! "Download URL:" = Some (Some u) -> u <> EmptyString ->
  select_source_uri (download_url_of i) files_src_uri = u.
Proof.
  intros Hdl Hu. unfold download_url_of, info_nonempty.
  rewrite bool_decide_eq_false_2.
  - cbn [negb orb]. rewrite Hdl. unfold select_source_uri.
    destruct u; [congruence|reflexivity].
  - intros He. rewrite He, lookup_empty in Hdl. discriminate.
Qed.

Lemma select_files_src_uri i files_src_uri :
  absent_or_empty (info_fields i !! "Download URL:") ->
  select_source_uri (download_url_of i) files_src_uri = files_src_uri.
Proof.
  intros Habs. unfold download_url_of.
  destruct (info_nonempty i); [|reflexivity].
  destruct Habs as [-> | [-> | ->]]; reflexivity.
Qed.

(** C3.  For an index entry whose detail is present and not empty:
    a non-empty ["Download URL:"] field is the source URI of the record
    added; when that field is absent, [None] or empty, the URL (and md5) of
    the first file whose type is the source marker is; when there is no such
    file either, the entry is skipped: nothing is added and no collaborator
    is called.  ([r] is [Ok] unless the licence list of the page is empty.) *)
Theorem source_uri_selection (convert : string -> string -> string) (now : datetime)
        packages package version description pkg_data (t : list call) :
  packages !! (package +:+ "-" +:+ version) = Some pkg_data ->
  files pkg_data <> [] \/ info_nonempty (info pkg_data) = true ->
  exists r evs,
    process_entry convert now packages ((package, version), description) t = (r, t ++ evs) /\
    let dl := info_fields (info pkg_data) !! "Download URL:" in
    (forall u, dl = Some (Some u) -> u <> EmptyString ->
       (forall p e, In (p, e) (added evs) -> source_uri e = u) /\
       (r = Ok tt -> exists p e, added evs = [(p, e)])) /\
    (forall pre f post,
       absent_or_empty dl ->
       files pkg_data = pre ++ f :: post ->
       Forall (fun g => file_type g <> Some source_marker) pre ->
       file_type f = Some source_marker ->
       (forall p e, In (p, e) (added evs) ->
                    source_uri e = file_url f /\ md5 e = file_md5 f) /\
       (r = Ok tt -> file_url f <> EmptyString -> exists p e, added evs = [(p, e)])) /\
    (absent_or_empty dl ->
     Forall (fun g => file_type g <> Some source_marker) (files pkg_data) ->
     r = Ok tt /\ evs = []).
Proof.
  intros Hpkg Hne.
  rewrite (process_entry_run convert now _ _ _ _ _ t Hpkg Hne). cbv zeta.
  set (src := select_source_uri _ _).
  destruct (truthy (Some src)) eqn:Hsrc.
  - apply truthy_nonempty in Hsrc.
    destruct (read_info (info pkg_data)) as [[[homepage raw] py_versions]|err].
    + eexists (Ok tt), _. split; [reflexivity|]. split; [|split].
      * intros u Hdl Hu. split; [|eauto].
        intros p e [[= <- <-]|[]]. cbn [source_uri make_ebuild].
        apply select_download_url; assumption.
      * intros pre f post Habs Hfiles Hpre Hf. split; [|eauto].
        intros p e [[= <- <-]|[]]. cbn [source_uri md5 make_ebuild].
        subst src. rewrite select_files_src_uri by assumption.
        rewrite Hfiles, first_source_found by assumption. auto.
      * intros Habs Hnone. exfalso. apply Hsrc. subst src.
        rewrite select_files_src_uri by assumption.
        now rewrite first_source_none.
    + exists (Raise err), []. rewrite app_nil_r. split; [reflexivity|].
      split; [|split].
      * intros u _ _. split; [intros p e []|discriminate].
      * intros pre f post _ _ _ _. split; [intros p e []|discriminate].
      * intros Habs Hnone. exfalso. apply Hsrc. subst src.
        rewrite select_files_src_uri by assumption.
        now rewrite first_source_none.
  - assert (Hempty : src = EmptyString).
    { destruct src; [reflexivity|discriminate]. }
    exists (Ok tt), []. rewrite app_nil_r. split; [reflexivity|].
    split; [|split].
    + intros u Hdl Hu. exfalso. apply Hu. rewrite <- Hempty. subst src.
      symmetry. apply select_download_url; assumption.
    + intros pre f post Habs Hfiles Hpre Hf. split; [intros p e []|].
      intros _ Hurl. exfalso. apply Hurl. rewrite <- Hempty. subst src.
      rewrite select_files_src_uri by assumption.
      now rewrite Hfiles, first_source_found.
    + auto.
Qed.

Lemma source_uri_selection_witness :
  exists r evs,
    process_entry sample_convert sample_now sample_packages (("foo", "1.0"), "") []
      = (r, [] ++ evs) /\
    r = Ok tt /\
    (exists p e, added evs = [(p, e)]) /\
    (forall p e, In (p, e) (added evs) ->
                 source_uri e = "http://host/foo-1.0.tar.gz" /\ md5 e = "0123").
Proof.
  destruct (source_uri_selection sample_convert sample_now sample_packages
              "foo" "1.0" "" sample_detail [])
    as (r & evs & Hrun & _ & Hfile & _).
  - vm_compute. reflexivity.
  - left. discriminate.
  - exists r, evs. split; [exact Hrun|].
    assert (Hr : r = Ok tt).
    { vm_compute in Hrun. now inversion Hrun. }
    destruct (Hfile [wheel_file] source_file []) as [Huri Hone].
    + left. vm_compute. reflexivity.
    + reflexivity.
    + repeat constructor. discriminate.
    + reflexivity.
    + split; [exact Hr|]. split; [|exact Huri].
      apply Hone; [exact Hr|discriminate].
Defined.

(** *** Rendering of the compatibility expression *)

Lemma append_assoc (a b c : string) : (a +:+ b) +:+ c = a +:+ (b +:+ c).
Proof.
  induction a as [|x a IH]; [reflexivity|].
  change (String x ((a +:+ b) +:+ c) = String x (a +:+ (b +:+ c))).
  now rewrite IH.
Qed.

Lemma join_cons (sep x y : string) (r : list string) :
  join sep (x :: y :: r) = x +:+ sep +:+ join sep (y :: r).
Proof. reflexivity. Qed.

Lemma render_fold (rest : list string) : forall acc v,
  fold_left (fun python_compat ver => python_compat +:+ "," +:+ ver) rest (acc +:+ v)
  = acc +:+ join "," (v :: rest).
Proof.
  induction rest as [|w rest IH]; intros acc v; cbn [fold_left].
  - reflexivity.
  - rewrite join_cons.
    replace ((acc +:+ v) +:+ "," +:+ w) with ((acc +:+ v +:+ ",") +:+ w)
      by (now rewrite !append_assoc).
    rewrite IH. now rewrite !append_assoc.
Qed.

Lemma render_single (tag : string) :
  render_python_compat [tag] = Ok ("( python" +:+ tag +:+ " )").
Proof. reflexivity. Qed.

Lemma render_many (v0 v1 : string) (rest : list string) :
  render_python_compat (v0 :: v1 :: rest)
  = Ok ("( python{" +:+ join "," (v0 :: v1 :: rest) +:+ "} )").
Proof.
  unfold render_python_compat. rewrite render_fold, append_assoc. reflexivity.
Qed.

Lemma py_versions_of_flat (entries : list string) :
  py_versions_of entries = flat_map language_tags entries.
Proof.
  unfold py_versions_of.
  assert (H : forall acc, fold_left (fun py_versions entry => py_versions ++ language_tags entry)
                                    entries acc = acc ++ flat_map language_tags entries).
  { induction entries as [|e entries IH]; intros acc; cbn [fold_left flat_map].
    - now rewrite app_nil_r.
    - now rewrite IH, <- app_assoc. }
  apply H.
Qed.

Lemma py_versions_of_app (a b : list string) :
  py_versions_of (a ++ b) = py_versions_of a ++ py_versions_of b.
Proof. rewrite !py_versions_of_flat. apply flat_map_app. Qed.

Lemma contains_prefix (x post : string) : is_prefix x (x +:+ post) = true.
Proof.
  induction x as [|c x IH]; [reflexivity|].
  change (Ascii.eqb c c && is_prefix x (x +:+ post) = true).
  now rewrite Ascii.eqb_refl, IH.
Qed.

Lemma contains_middle (pre x post : string) : contains x (pre +:+ x +:+ post) = true.
Proof.
  induction pre as [|c pre IH].
  - change (contains x (x +:+ post) = true).
    destruct (x +:+ post) eqn:E; cbn [contains];
      rewrite <- E, contains_prefix; reflexivity.
  - change (contains x (String c (pre +:+ x +:+ post)) = true).
    cbn [contains]. rewrite IH. apply orb_true_r.
Qed.

Lemma render_contains_first (v0 : string) (rest : list string) :
  exists s, render_python_compat (v0 :: rest) = Ok s /\ contains v0 s = true.
Proof.
  destruct rest as [|v1 rest].
  - eexists. split; [apply render_single|]. apply contains_middle.
  - eexists. split; [apply render_many|]. rewrite join_cons, !append_assoc.
    apply contains_middle.
Qed.

(** C5, as the code has it.  The entries [2] and [3.4] give the tags [2_7]
    and [3_4] in that order, both through the table and through a run of the
    normaliser; the expression is rendered with a blank inside each
    parenthesis: [( python{2_7,3_4} )].  A single tag [t] is rendered as
    [( python] [t] [ )]; two or more tags as [( python{] tags joined by commas
    [} )]. *)
Theorem python_compat_rendering :
  py_versions_of ["2"; "3.4"] = ["2_7"; "3_4"] /\
  render_python_compat (py_versions_of ["2"; "3.4"]) = Ok "( python{2_7,3_4} )" /\
  (exists p e,
     added (snd (process_entry sample_convert sample_now sample_packages
                               (("foo", "1.0"), "") [])) = [(p, e)] /\
     python_compat e = "( python{2_7,3_4} )") /\
  (forall tag, render_python_compat [tag] = Ok ("( python" +:+ tag +:+ " )")) /\
  (forall v0 v1 rest,
     render_python_compat (v0 :: v1 :: rest)
     = Ok ("( python{" +:+ join "," (v0 :: v1 :: rest) +:+ "} )")).
Proof.
  split; [reflexivity|]. split; [reflexivity|]. split.
  - eexists _, _. split; vm_compute; reflexivity.
  - split; [apply render_single|apply render_many].
Qed.

(** C5, as stated, fails: the expression for the entries [2] and [3.4] is
    not the text [(python{2_7,3_4})]. *)
Lemma python_compat_rendering_counterexample :
  render_python_compat (py_versions_of ["2"; "3.4"]) <> Ok "(python{2_7,3_4})".
Proof. vm_compute. discriminate. Qed.

Lemma read_info_py_versions (i : InfoBlock) homepage raw py_versions :
  read_info i = Ok (homepage, raw, py_versions) ->
  py_versions = py_versions_of (language_entries i).
Proof.
  unfold read_info, language_entries, info_nonempty.
  destruct (info_categories i) as [categories|].
  - rewrite (bool_decide_eq_true_2 (is_Some (Some categories))) by (eexists; reflexivity).
    rewrite orb_true_r.
    destruct (categories !! "Programming Language") as [entries|];
      destruct (categories !! "License") as [licenses|]; cbn [default from_option id];
      try (intros [= _ _ <-]; reflexivity);
      unfold rbind; destruct (last_item licenses); intros [= _ _ <-]; reflexivity.
  - destruct (negb _ || _); intros [= _ _ <-]; reflexivity.
Qed.

Lemma added_of_run (t evs evs' : list call) (r r' : result unit) :
  (r, t ++ evs) = (r', t ++ evs') -> evs = evs'.
Proof. intros [= _ H]. now apply app_inv_head in H. Qed.

(** What a record added by one pass of the loop is made of. *)
Lemma process_entry_added (convert : string -> string -> string) (now : datetime)
      packages package version description (t evs : list call) r p e :
  process_entry convert now packages ((package, version), description) t = (r, t ++ evs) ->
  In (p, e) (added evs) ->
  exists pkg_data homepage raw py_versions,
    packages !! (package +:+ "-" +:+ version) = Some pkg_data /\
    read_info (info pkg_data) = Ok (homepage, raw, py_versions) /\
    p = {| pkg_category := "dev-python";
           pkg_name := filter_chars allowed_ords_pkg package;
           pkg_version := filtered_version now version |} /\
    e = make_ebuild package version (filter_chars allowed_ords_desc description)
                    homepage (convert "licenses" raw)
                    (select_source_uri (download_url_of (info pkg_data))
                                       (fst (first_source (files pkg_data))))
                    (snd (first_source (files pkg_data)))
                    (python_compat_of py_versions).
Proof.
  intros Hrun Hin.
  assert (Hnil : forall r', (r', t) = (r, t ++ evs) -> False).
  { intros r' H. rewrite <- (app_nil_r t) in H at 1. apply added_of_run in H.
    subst evs. destruct Hin. }
  destruct (packages !! (package +:+ "-" +:+ version)) as [pkg_data|] eqn:Hpkg.
  2: { rewrite process_entry_absent in Hrun by assumption. now apply Hnil in Hrun. }
  assert (Hne : files pkg_data <> [] \/ info_nonempty (info pkg_data) = true).
  { destruct (files pkg_data) eqn:Hf; [|left; discriminate].
    destruct (info_nonempty (info pkg_data)) eqn:Hi; [now right|].
    rewrite (process_entry_empty convert now _ _ _ _ _ t Hpkg Hf Hi) in Hrun.
    now apply Hnil in Hrun. }
  rewrite (process_entry_run convert now _ _ _ _ _ t Hpkg Hne) in Hrun.
  cbv zeta in Hrun.
  destruct (truthy _) in Hrun; [|now apply Hnil in Hrun].
  destruct (read_info (info pkg_data)) as [[[homepage raw] py_versions]|err] eqn:Hread;
    [|now apply Hnil in Hrun].
  apply added_of_run in Hrun. subst evs. destruct Hin as [[= <- <-]|[]].
  exists pkg_data, homepage, raw, py_versions.
  split; [reflexivity|]. split; [exact Hread|]. split; reflexivity.
Qed.

(** An entry with a source URI whose licence can be read is added. *)
Lemma process_entry_adds (convert : string -> string -> string) (now : datetime)
      packages package version description pkg_data (t : list call)
      homepage raw py_versions :
  packages !! (package +:+ "-" +:+ version) = Some pkg_data ->
  select_source_uri (download_url_of (info pkg_data))
                    (fst (first_source (files pkg_data))) <> EmptyString ->
  read_info (info pkg_data) = Ok (homepage, raw, py_versions) ->
  process_entry convert now packages ((package, version), description) t
  = (Ok tt,
     t ++ [ Convert "licenses" raw;
            AddPackage
              {| pkg_category := "dev-python";
                 pkg_name := filter_chars allowed_ords_pkg package;
                 pkg_version := filtered_version now version |}
              (make_ebuild package version (filter_chars allowed_ords_desc description)
                           homepage (convert "licenses" raw)
                           (select_source_uri (download_url_of (info pkg_data))
                                              (fst (first_source (files pkg_data))))
                           (snd (first_source (files pkg_data)))
                           (python_compat_of py_versions)) ]).
Proof.
  intros Hpkg Hsrc Hread.
  assert (Hne : files pkg_data <> [] \/ info_nonempty (info pkg_data) = true).
  { destruct (files pkg_data) as [|f fs] eqn:Hf; [|left; discriminate].
    destruct (info_nonempty (info pkg_data)) eqn:Hinfo; [now right|].
    exfalso. apply Hsrc. unfold select_source_uri, download_url_of.
    rewrite Hinfo. reflexivity. }
  rewrite (process_entry_run convert now _ _ _ _ _ t Hpkg Hne). cbv zeta.
  apply truthy_nonempty in Hsrc. rewrite Hsrc, Hread. reflexivity.
Qed.

Lemma python_compat_of_inferred (py_versions : list string) :
  render_python_compat (default_tags py_versions) = Ok (python_compat_of py_versions) /\
  (py_versions = [] ->
   default_tags py_versions = ["2_7"; "3_3"; "3_4"; "3_5"] /\
   python_compat_of py_versions = "( python{2_7,3_3,3_4,3_5} )").
Proof.
  split; [apply render_default_ok|]. intros ->. split; reflexivity.
Qed.

(** C9.  The tags are kept in a list, one run of tags per entry and nothing
    removed: entries mapped to the same tag give that tag twice, in the list
    and in the rendered expression (as for [2] and [2.7]).  So does the
    normaliser: for a page whose Programming Language entries are two
    entries mapped to the same tag, the list read from the page holds the tag
    twice and the record added carries the expression with the tag twice;
    for the entries [2] and [2.7] the record carries [( python{2_7,2_7} )]. *)
Theorem duplicate_tags_are_kept :
  (forall a b, py_versions_of (a ++ b) = py_versions_of a ++ py_versions_of b) /\
  (forall e1 e2 tag,
     language_tags e1 = [tag] -> language_tags e2 = [tag] ->
     py_versions_of [e1; e2] = [tag; tag] /\
     render_python_compat (py_versions_of [e1; e2])
     = Ok ("( python{" +:+ tag +:+ "," +:+ tag +:+ "} )")) /\
  py_versions_of ["2"; "2.7"] = ["2_7"; "2_7"] /\
  render_python_compat (py_versions_of ["2"; "2.7"]) = Ok "( python{2_7,2_7} )" /\
  (forall (convert : string -> string -> string) (now : datetime)
          packages package version description pkg_data (t : list call)
          categories e1 e2 tag homepage raw py_versions,
     packages !! (package +:+ "-" +:+ version) = Some pkg_data ->
     info_categories (info pkg_data) = Some categories ->
     categories !! "Programming Language" = Some [e1; e2] ->
     language_tags e1 = [tag] -> language_tags e2 = [tag] ->
     select_source_uri (download_url_of (info pkg_data))
                       (fst (first_source (files pkg_data))) <> EmptyString ->
     read_info (info pkg_data) = Ok (homepage, raw, py_versions) ->
     py_versions = [tag; tag] /\
     exists p e,
       process_entry convert now packages ((package, version), description) t
       = (Ok tt, t ++ [Convert "licenses" raw; AddPackage p e]) /\
       python_compat e = "( python{" +:+ tag +:+ "," +:+ tag +:+ "} )") /\
  (exists p e,
     process_entry sample_convert sample_now {[ "foo-1.0" := two_languages_detail ]}
                   (("foo", "1.0"), "") []
     = (Ok tt, [Convert "licenses" ""; AddPackage p e]) /\
     python_compat e = "( python{2_7,2_7} )").
Proof.
  assert (Htwice : forall e1 e2 tag,
             language_tags e1 = [tag] -> language_tags e2 = [tag] ->
             py_versions_of [e1; e2] = [tag; tag]).
  { intros e1 e2 tag H1 H2. rewrite py_versions_of_flat. cbn [flat_map].
    now rewrite H1, H2. }
  assert (Hrender : forall tag,
             render_python_compat [tag; tag]
             = Ok ("( python{" +:+ tag +:+ "," +:+ tag +:+ "} )")).
  { intros tag. rewrite render_many. cbn [join]. now rewrite !append_assoc. }
  split; [apply py_versions_of_app|]. split; [|split; [reflexivity|split; [reflexivity|split]]].
  - intros e1 e2 tag H1 H2. rewrite (Htwice e1 e2 tag H1 H2). auto.
  - intros convert now packages package version description pkg_data t
           categories e1 e2 tag homepage raw py_versions
           Hpkg Hcats Hlang H1 H2 Hsrc Hread.
    assert (Hpy : py_versions = [tag; tag]).
    { rewrite (read_info_py_versions _ _ _ _ Hread). unfold language_entries.
      rewrite Hcats. cbn. rewrite Hlang. cbn. now apply Htwice. }
    split; [exact Hpy|]. eexists _, _.
    split; [exact (process_entry_adds convert now _ _ _ _ _ t _ _ _ Hpkg Hsrc Hread)|].
    cbn [python_compat make_ebuild]. subst py_versions.
    unfold python_compat_of. change (default_tags [tag; tag]) with [tag; tag].
    now rewrite Hrender.
  - eexists _, _. split; vm_compute; reflexivity.
Qed.

Lemma duplicate_tags_are_kept_witness :
  exists p e,
    process_entry sample_convert sample_now {[ "foo-1.0" := two_languages_detail ]}
                  (("foo", "1.0"), "") []
    = (Ok tt, [] ++ [Convert "licenses" ""; AddPackage p e]) /\
    python_compat e = "( python{" +:+ "2_7" +:+ "," +:+ "2_7" +:+ "} )".
Proof.
  apply (proj1 (proj2 (proj2 (proj2 (proj2 duplicate_tags_are_kept))))
               sample_convert sample_now {[ "foo-1.0" := two_languages_detail ]}
               "foo" "1.0" "" two_languages_detail []
               {[ "Programming Language" := ["2"; "2.7"] ]} "2" "2.7" "2_7"
               (Some "") "" ["2_7"; "2_7"]);
    try reflexivity.
  vm_compute. discriminate.
Defined.

(** C7.  Every record added by the normaliser carries the rendering of a tag
    list that is not empty, the first tag of which occurs in the expression.
    An entry with a source URI whose licence can be read is added, whatever
    its tags, with the rendering of the tags mapped from the Programming
    Language entries of its page; when these give no tag the list is
    replaced by the four supported tags before it is rendered, and the
    record carries [( python{2_7,3_3,3_4,3_5} )]. *)
Theorem compat_expression_has_tag (convert : string -> string -> string) (now : datetime)
        packages package version description pkg_data (t : list call) :
  packages !! (package +:+ "-" +:+ version) = Some pkg_data ->
  let inferred := py_versions_of (language_entries (info pkg_data)) in
  let src := select_source_uri (download_url_of (info pkg_data))
                               (fst (first_source (files pkg_data))) in
  (forall evs r p e,
     process_entry convert now packages ((package, version), description) t = (r, t ++ evs) ->
     In (p, e) (added evs) ->
     exists tag tags,
       default_tags inferred = tag :: tags /\
       render_python_compat (tag :: tags) = Ok (python_compat e) /\
       contains tag (python_compat e) = true) /\
  (forall homepage raw py_versions,
     src <> EmptyString ->
     read_info (info pkg_data) = Ok (homepage, raw, py_versions) ->
     exists p e,
       process_entry convert now packages ((package, version), description) t
       = (Ok tt, t ++ [Convert "licenses" raw; AddPackage p e]) /\
       render_python_compat (default_tags inferred) = Ok (python_compat e) /\
       (inferred = [] ->
        default_tags inferred = ["2_7"; "3_3"; "3_4"; "3_5"] /\
        python_compat e = "( python{2_7,3_3,3_4,3_5} )")).
Proof.
  intros Hpkg inferred src. split.
  - intros evs r p e Hrun Hin.
    destruct (process_entry_added convert now _ _ _ _ _ _ _ _ _ Hrun Hin)
      as (pkg_data' & homepage & raw & py_versions & Hpkg' & Hread & _ & ->).
    rewrite Hpkg in Hpkg'. injection Hpkg' as <-.
    apply read_info_py_versions in Hread. fold inferred in Hread. subst py_versions.
    cbn [python_compat make_ebuild].
    assert (Hd : exists tag tags, default_tags inferred = tag :: tags).
    { destruct inferred; cbn; eauto. }
    destruct Hd as (tag & tags & Hd). exists tag, tags. split; [exact Hd|].
    assert (Hok := render_default_ok inferred). rewrite Hd in Hok.
    split; [exact Hok|].
    destruct (render_contains_first tag tags) as (s & Hs & Hc). congruence.
  - intros homepage raw py_versions Hsrc Hread. eexists _, _.
    split; [exact (process_entry_adds convert now _ _ _ _ _ t _ _ _ Hpkg Hsrc Hread)|].
    cbn [python_compat make_ebuild].
    apply read_info_py_versions in Hread. fold inferred in Hread. subst py_versions.
    apply python_compat_of_inferred.
Qed.

Lemma compat_expression_has_tag_witness :
  exists p e,
    process_entry sample_convert sample_now {[ "foo-1.0" := bare_source_detail ]}
                  (("foo", "1.0"), "") []
    = (Ok tt, [] ++ [Convert "licenses" ""; AddPackage p e]) /\
    python_compat e = "( python{2_7,3_3,3_4,3_5} )".
Proof.
  assert (Hpkg : ({[ "foo-1.0" := bare_source_detail ]} : gmap string PackageDetail)
                   !! ("foo" +:+ "-" +:+ "1.0") = Some bare_source_detail)
    by (vm_compute; reflexivity).
  destruct (proj2 (compat_expression_has_tag sample_convert sample_now
                     {[ "foo-1.0" := bare_source_detail ]} "foo" "1.0" ""
                     bare_source_detail [] Hpkg)
                  (Some "") "" [])
    as (p & e & Hrun & _ & Hdefault).
  - vm_compute. discriminate.
  - reflexivity.
  - exists p, e. split; [exact Hrun|]. apply Hdefault. reflexivity.
Defined.

(** C10 at the failing input.  A page whose [Categories] item holds the bare
    classifier [License] parses to a [License] group with no value; for the
    entry of that page, which has a source URI, the normaliser raises
    [IndexError] at [categories["License"][-1]]: the run stops there and the
    licence lookup is not called at all. *)
Theorem license_lookup_missed_on_empty_list :
  info_categories (info (parse_package_page page_bare_license))
    = Some {[ "License" := [] ]} /\
  info_fields (info (parse_package_page page_bare_license))
    = {[ "Download URL:" := Some "http://host/foo-1.0.tar.gz" ]} /\
  process_data sample_convert sample_now [(("foo", "1.0"), "")]
               {[ "foo-1.0" := parse_package_page page_bare_license ]} []
    = (Raise IndexError,
       [AddCategory "dev-python";
        SetCommonData "dev-python" the_common_data]) /\
  converted (snd (process_data sample_convert sample_now [(("foo", "1.0"), "")]
                               {[ "foo-1.0" := parse_package_page page_bare_license ]} []))
    = [].
Proof.
  split; [vm_compute; reflexivity|]. split; [vm_compute; reflexivity|].
  split; vm_compute; reflexivity.
Qed.

(** Away from that input the lookup is made once per entry that has a source
    URI, with [""] when there is no licence to read. *)
Lemma license_lookup_once (convert : string -> string -> string) (now : datetime)
      packages package version description pkg_data (t : list call) :
  packages !! (package +:+ "-" +:+ version) = Some pkg_data ->
  files pkg_data <> [] \/ info_nonempty (info pkg_data) = true ->
  select_source_uri (download_url_of (info pkg_data))
                    (fst (first_source (files pkg_data))) <> EmptyString ->
  (forall categories,
     info_categories (info pkg_data) = Some categories ->
     categories !! "License" <> Some []) ->
  exists raw evs,
    process_entry convert now packages ((package, version), description) t
      = (Ok tt, t ++ evs) /\
    converted evs = [("licenses", raw)] /\
    ((info_nonempty (info pkg_data) = false \/
      info_categories (info pkg_data) = None \/
      (exists categories, info_categories (info pkg_data) = Some categories /\
                          categories !! "License" = None)) ->
     raw = EmptyString).
Proof.
  intros Hpkg Hne Hsrc Hlic.
  rewrite (process_entry_run convert now _ _ _ _ _ t Hpkg Hne). cbv zeta.
  apply truthy_nonempty in Hsrc. rewrite Hsrc.
  assert (Hread : exists homepage raw py_versions,
             read_info (info pkg_data) = Ok (homepage, raw, py_versions) /\
             ((info_nonempty (info pkg_data) = false \/
               info_categories (info pkg_data) = None \/
               (exists categories, info_categories (info pkg_data) = Some categories /\
                                   categories !! "License" = None)) ->
              raw = EmptyString)).
  { unfold read_info. destruct (info_nonempty (info pkg_data)) eqn:Hi.
    - destruct (info_categories (info pkg_data)) as [categories|] eqn:Hc.
      + destruct (categories !! "License") as [licenses|] eqn:Hl.
        * unfold rbind, last_item.
          destruct (last licenses) as [x|] eqn:Hlast.
          -- eexists _, _, _. split; [reflexivity|].
             intros [?|[?|(c & [= <-] & ?)]]; congruence.
          -- apply last_None in Hlast. subst licenses.
             exfalso. eapply Hlic; eauto.
        * eexists _, _, _. split; [reflexivity|]. auto.
      + eexists _, _, _. split; [reflexivity|]. auto.
    - eexists _, _, _. split; [reflexivity|]. auto. }
  destruct Hread as (homepage & raw & py_versions & -> & Hraw).
  eexists raw, _. split; [reflexivity|]. split; [reflexivity|exact Hraw].
Qed.

(** ** The archive loader *)

Lemma glob_single (dir output : string) (f : file) :
  is_prefix "." output = false ->
  forall pattern, os_path_join (PyStr dir) "*" = Ok pattern ->
  glob pattern [(dir, [(output, f)])] = [(dir +:+ "/" +:+ output, f)].
Proof.
  intros Hvisible pattern Hjoin. unfold glob. cbn [flat_map fst snd].
  rewrite Hjoin, String.eqb_refl.
  cbn [List.filter fst snd]. rewrite Hvisible. reflexivity.
Qed.

(** C8 at the failing inputs.  Whenever the downloaded file is a tar archive
    (under a name that [glob] lists), [load_remote_file] raises at
    [os.path.join(unpack_dir, "*")], which is given the directory object
    and not its [name]: no member is parsed and no pair is returned. *)
Theorem load_remote_file_tar_raises {D : Type}
        (download_dir unpack_dir : TemporaryDirectory)
        (url_retrieve : string -> result file) (xz_d : string -> option string)
        (uri output raw : string) (members : list (string * string))
        (parser : string -> D) :
  url_retrieve uri = Ok (TarFile raw members) ->
  is_prefix "." output = false ->
  load_remote_file download_dir unpack_dir url_retrieve xz_d uri parser output
    = Raise AttributeError.
Proof.
  intros Hget Hvisible. unfold load_remote_file. rewrite Hget. cbn [rbind].
  destruct (os_path_join (PyStr (tmp_name download_dir)) "*") as [pattern|e] eqn:Hjoin;
    [|discriminate Hjoin].
  cbn [rbind]. cbv zeta.
  rewrite (glob_single _ _ _ Hvisible pattern Hjoin). reflexivity.
Qed.

Lemma load_remote_file_tar_raises_witness :
  load_remote_file sample_download_dir sample_unpack_dir sample_retrieve sample_xz
                   "http://host/pypi/foo/1.0" sample_parser "foo-1.0"
    = Raise AttributeError.
Proof.
  apply (load_remote_file_tar_raises sample_download_dir sample_unpack_dir
           sample_retrieve sample_xz "http://host/pypi/foo/1.0" "foo-1.0"
           "ustar" [("foo-1.0", "<html></html>")]); reflexivity.
Defined.

Lemma load_remote_file_xz_failure {D : Type}
      (download_dir unpack_dir : TemporaryDirectory)
      (url_retrieve : string -> result file) (xz_d : string -> option string)
      (uri output content : string) (parser : string -> D) :
  url_retrieve uri = Ok (Plain content) ->
  is_prefix "." output = false ->
  let f_name := tmp_name download_dir +:+ "/" +:+ output in
  snd (splitext f_name) = ".xz" \/ snd (splitext f_name) = ".lzma" ->
  xz_d content = None ->
  load_remote_file download_dir unpack_dir url_retrieve xz_d uri parser output
    = Raise (DownloadingError ("xz failed: " +:+ f_name +:+ " from " +:+ uri)).
Proof.
  intros Hget Hvisible f_name Hext Hxz. unfold load_remote_file. rewrite Hget.
  cbn [rbind].
  destruct (os_path_join (PyStr (tmp_name download_dir)) "*") as [pattern|e] eqn:Hjoin;
    [|discriminate Hjoin].
  cbn [rbind]. cbv zeta.
  rewrite (glob_single _ _ _ Hvisible pattern Hjoin).
  cbn [load_all load_one fst snd]. fold f_name.
  destruct (splitext f_name) as [name extention]. cbn [snd] in Hext.
  destruct Hext as [-> | ->]; cbn [String.eqb orb]; rewrite Hxz; reflexivity.
Qed.

(** ** The version pattern and the grammar it denotes *)

Lemma match_one cls r b x s :
  match_items (One cls :: r) b (String x s) = cls x && match_items r false s.
Proof. reflexivity. Qed.

Lemma match_plus_cons cls r b x s :
  match_items (Plus cls :: r) b (String x s)
  = cls x && (match_items (Plus cls :: r) false s || match_items r false s).
Proof. reflexivity. Qed.

Lemma match_plus_nil cls r b : match_items (Plus cls :: r) b EmptyString = false.
Proof. reflexivity. Qed.

Lemma at_eol_spec s : at_eol s = true <-> line_end s.
Proof.
  unfold line_end, nl. destruct s as [|c [|d s]]; cbn [at_eol].
  - split; auto.
  - split.
    + intros H. apply Ascii.eqb_eq in H. subst c. now right.
    + intros [H|H]; [discriminate|]. injection H as ->. apply Ascii.eqb_refl.
  - split; [discriminate|]. intros [H|H]; discriminate.
Qed.

Lemma letter_then_end_spec b s :
  match_items letter_then_end b s = true <->
  exists l e, s = l +:+ e /\ optional_letter l /\ line_end e.
Proof.
  unfold letter_then_end. cbn [match_items]. rewrite !andb_true_r. split.
  - intros H. apply orb_prop in H as [H|H].
    + destruct s as [|c s]; [discriminate|]. rewrite andb_true_r in H.
      apply andb_prop in H as [Hc He]. apply at_eol_spec in He.
      exists (String c EmptyString), s. split; [reflexivity|].
      split; [right; eauto|assumption].
    + apply at_eol_spec in H. exists EmptyString, s.
      split; [reflexivity|]. split; [now left|assumption].
  - intros (l & e & -> & [->|(c & Hc & ->)] & He); apply at_eol_spec in He.
    + change (EmptyString +:+ e) with e. rewrite He. apply orb_true_r.
    + change (String c EmptyString +:+ e) with (String c e).
      cbv iota. now rewrite Hc, He.
Qed.

Lemma match_plus_spec cls r s : forall b,
  match_items (Plus cls :: r) b s = true <->
  exists pre post,
    pre <> EmptyString /\ all_chars cls pre = true /\ s = pre +:+ post /\
    match_items r false post = true.
Proof.
  induction s as [|x s IH]; intros b.
  - rewrite match_plus_nil. split; [discriminate|].
    intros (pre & post & Hne & _ & Hs & _). destruct pre; [congruence|discriminate].
  - rewrite match_plus_cons. split.
    + intros H. apply andb_prop in H as [Hx H]. apply orb_prop in H as [H|H].
      * apply IH in H as (pre & post & _ & Hall & -> & Hr).
        exists (String x pre), post. split; [discriminate|].
        split; [cbn [all_chars]; now rewrite Hx|]. now split.
      * exists (String x EmptyString), s. split; [discriminate|].
        split; [cbn [all_chars]; now rewrite Hx|]. now split.
    + intros (pre & post & Hne & Hall & Hs & Hr).
      destruct pre as [|y pre]; [congruence|].
      change (String y pre +:+ post) with (String y (pre +:+ post)) in Hs.
      injection Hs as -> ->. cbn [all_chars] in Hall.
      apply andb_prop in Hall as [Hy Hall]. rewrite Hy. cbn [andb].
      destruct pre as [|z pre].
      * change (EmptyString +:+ post) with post. rewrite Hr. apply orb_true_r.
      * apply orb_true_iff. left. apply (IH false).
        exists (String z pre), post. repeat split; [discriminate|assumption..].
Qed.

Lemma plain_alternative_spec s :
  match_items [Bol; Plus is_digit; Opt is_lower; Eol] true s = true <-> plain_version s.
Proof.
  change (match_items [Bol; Plus is_digit; Opt is_lower; Eol] true s)
    with (match_items (Plus is_digit :: letter_then_end) true s).
  rewrite match_plus_spec. unfold plain_version. split.
  - intros (pre & post & Hne & Hall & -> & Hr).
    apply letter_then_end_spec in Hr as (l & e & -> & Hl & He).
    exists pre, l, e. auto.
  - intros (ds & l & e & -> & Hne & Hall & Hl & He).
    exists ds, (l +:+ e). repeat split; auto.
    apply letter_then_end_spec. eauto.
Qed.

Lemma dotted_alternative_spec s :
  match_items [Bol; One is_digit; Plus digit_or_dot; One is_digit; Opt is_lower; Eol] true s
  = true <-> dotted_version s.
Proof.
  unfold dotted_version. split.
  - destruct s as [|a s]; [discriminate|].
    change (match_items [Bol; One is_digit; Plus digit_or_dot; One is_digit;
                         Opt is_lower; Eol] true (String a s))
      with (is_digit a &&
            match_items (Plus digit_or_dot :: One is_digit :: letter_then_end) false s).
    intros H. apply andb_prop in H as [Ha H].
    apply match_plus_spec in H as (mid & post & Hne & Hall & -> & Hr).
    destruct post as [|b post]; [discriminate|].
    rewrite match_one in Hr. apply andb_prop in Hr as [Hb Hr].
    apply letter_then_end_spec in Hr as (l & e & -> & Hl & He).
    exists a, mid, b, l, e. repeat split; auto.
  - intros (a & mid & b & l & e & -> & Ha & Hne & Hall & Hb & Hl & He).
    change (match_items [Bol; One is_digit; Plus digit_or_dot; One is_digit;
                         Opt is_lower; Eol] true
                        (String a (mid +:+ String b (l +:+ e))))
      with (is_digit a &&
            match_items (Plus digit_or_dot :: One is_digit :: letter_then_end) false
                        (mid +:+ String b (l +:+ e))).
    rewrite Ha. cbn [andb]. apply match_plus_spec.
    exists mid, (String b (l +:+ e)). repeat split; auto.
    rewrite match_one, Hb. cbn [andb]. apply letter_then_end_spec. eauto.
Qed.

Lemma version_pattern_spec v : re_match version_pattern v = true <-> version_grammar v.
Proof.
  unfold re_match, version_pattern, version_grammar. cbn [existsb].
  rewrite orb_false_r, orb_true_iff, plain_alternative_spec, dotted_alternative_spec.
  reflexivity.
Qed.

(** *** The pseudo-version *)

Lemma length_append (a b : string) :
  String.length (a +:+ b) = String.length a + String.length b.
Proof.
  induction a as [|x a IH]; [reflexivity|].
  change (S (String.length (a +:+ b)) = S (String.length a + String.length b)).
  now rewrite IH.
Qed.

Lemma all_chars_append cls (a b : string) :
  all_chars cls (a +:+ b) = all_chars cls a && all_chars cls b.
Proof.
  induction a as [|x a IH]; [reflexivity|].
  change (cls x && all_chars cls (a +:+ b) = cls x && all_chars cls a && all_chars cls b).
  now rewrite IH, andb_assoc.
Qed.

Lemma zero_padded_shape width bound :
  forallb (fun n => Nat.eqb (String.length (zero_padded width n)) width &&
                    all_chars is_digit (zero_padded width n))
          (seq 0 bound) = true ->
  forall n, n < bound ->
    String.length (zero_padded width n) = width /\
    all_chars is_digit (zero_padded width n) = true.
Proof.
  intros Hall n Hn. rewrite forallb_forall in Hall.
  specialize (Hall n). rewrite in_seq in Hall.
  destruct (andb_prop _ _ (Hall ltac:(lia))) as [Hlen Hdig].
  apply Nat.eqb_eq in Hlen. auto.
Qed.

Lemma pseudoversion_shape (now : datetime) :
  year now < 10000 -> month now < 100 -> day now < 100 ->
  String.length (pseudoversion now) = 8 /\
  all_chars is_digit (pseudoversion now) = true.
Proof.
  intros Hy Hm Hd. unfold pseudoversion.
  destruct (zero_padded_shape 4 10000 ltac:(vm_compute; reflexivity) _ Hy) as [Ly Dy].
  destruct (zero_padded_shape 2 100 ltac:(vm_compute; reflexivity) _ Hm) as [Lm Dm].
  destruct (zero_padded_shape 2 100 ltac:(vm_compute; reflexivity) _ Hd) as [Ld Dd].
  rewrite !length_append, !all_chars_append, Ly, Lm, Ld, Dy, Dm, Dd. auto.
Qed.

(** C4.  The version of a record added by the normaliser is the version of
    the entry when this matches the pattern, and the pseudo-version of the
    run date otherwise; matching the pattern is being in the grammar
    [^[0-9]+[a-z]?$] or [^[0-9][0-9.]+[0-9][a-z]?$] (with Python's [$]).
    [1.2.3] is kept, [1.0-beta] is replaced.  The pseudo-version is the
    year, month and day on 4, 2 and 2 digits. *)
Theorem version_validation (convert : string -> string -> string) (now : datetime) :
  (forall version, re_match version_pattern version = true <-> version_grammar version) /\
  (forall version, version_grammar version -> filtered_version now version = version) /\
  (forall version, ~ version_grammar version ->
                   filtered_version now version = pseudoversion now) /\
  (forall packages package version description (t evs : list call) r p e,
     process_entry convert now packages ((package, version), description) t
       = (r, t ++ evs) ->
     In (p, e) (added evs) ->
     pkg_version p = filtered_version now version /\ realversion e = version) /\
  filtered_version now "1.2.3" = "1.2.3" /\
  filtered_version now "1.0-beta" = pseudoversion now /\
  pseudoversion now
    = zero_padded 4 (year now) +:+ zero_padded 2 (month now) +:+ zero_padded 2 (day now) /\
  (year now < 10000 -> month now < 100 -> day now < 100 ->
   String.length (pseudoversion now) = 8 /\ all_chars is_digit (pseudoversion now) = true) /\
  pseudoversion {| year := 2026; month := 11; day := 3 |} = "20261103".
Proof.
  split; [apply version_pattern_spec|]. split; [|split; [|split]].
  - intros version H. apply version_pattern_spec in H.
    unfold filtered_version. now rewrite H.
  - intros version H. unfold filtered_version.
    destruct (re_match version_pattern version) eqn:E; [|reflexivity].
    apply version_pattern_spec in E. contradiction.
  - intros packages package version description t evs r p e Hrun Hin.
    destruct (process_entry_added convert now _ _ _ _ _ _ _ _ _ Hrun Hin)
      as (pkg_data & homepage & raw & py_versions & _ & _ & -> & ->).
    split; reflexivity.
  - split; [reflexivity|]. split; [reflexivity|]. split; [reflexivity|].
    split; [apply pseudoversion_shape|reflexivity].
Qed.

Lemma version_validation_witness :
  filtered_version sample_now "12.0a" = "12.0a" /\
  filtered_version sample_now "1.0-beta" = "20261103" /\
  (exists p e,
     added (snd (process_entry sample_convert sample_now sample_packages
                               (("foo", "1.0"), "") [])) = [(p, e)] /\
     pkg_version p = "1.0" /\ realversion e = "1.0") /\
  String.length (pseudoversion sample_now) = 8.
Proof.
  destruct (version_validation sample_convert sample_now)
    as (Hspec & Hkeep & Hreplace & Hadded & _ & _ & _ & Hshape & _).
  split; [|split; [|split]].
  - apply Hkeep. right. exists "1"%char, "2.", "0"%char, "a", EmptyString.
    repeat split; try reflexivity; try discriminate.
    + right. exists "a"%char. split; reflexivity.
    + now left.
  - rewrite Hreplace; [reflexivity|].
    intros H. apply Hspec in H. vm_compute in H. discriminate H.
  - destruct (process_entry sample_convert sample_now sample_packages
                            (("foo", "1.0"), "") []) as [r t'] eqn:Hrun.
    assert (Ht : exists p e, t' = [] ++ [Convert "licenses" ""; AddPackage p e]).
    { vm_compute in Hrun. injection Hrun as _ <-. eexists _, _. reflexivity. }
    destruct Ht as (p & e & ->). exists p, e. split; [reflexivity|].
    apply (Hadded sample_packages "foo" "1.0" "" [] _ r p e Hrun).
    left. reflexivity.
  - apply Hshape; vm_compute; lia.
Defined.


(** * Further properties of the code *)

(** ** The fetch worker, beyond the retry policy *)

Section WorkerMore.

Context {J P : Type}.
Variable load : J -> nat -> result (gmap string P).

Local Abbreviation ev' := (event J (gmap string P)).

Lemma gets_app (t u : list ev') : gets (t ++ u) = gets t + gets u.
Proof. unfold gets. now rewrite List.filter_app, length_app. Qed.

Lemma gets_prints {A : Type} (f : A -> string) (l : list A) :
  gets (map (fun x => Print (f x) : ev') l) = 0.
Proof. induction l; auto. Qed.

Lemma attempt_died uri (w : worker) e :
  load uri (S (attempts w)) = Raise e -> uncaught e ->
  attempt load uri w =
  (Died e, {| attempts := S (attempts w); data := data w;
              trace := trace w ++ [Load uri] |}).
Proof.
  intros Hl He. unfold attempt. rewrite Hl.
  destruct e; try reflexivity. now destruct (He msg).
Qed.

(** From [a < 100] attempts made, the loop ends within [100 - a] more calls,
    whatever the download does. *)
Lemma retry_bounded uri fuel : forall w : worker,
  attempts w < 100 ->
  100 <= attempts w + fuel ->
  exists s w' t,
    retry load fuel uri w = Some (s, w') /\
    (s = Looping \/ exists e, s = Died e /\ uncaught e) /\
    trace w' = trace w ++ t /\
    1 <= length (loaded t) <= 100 - attempts w /\
    task_dones t <= 1 /\ gets t = 0.
Proof.
  induction fuel as [|fuel IH]; intros w Hlt Hfuel; [lia|].
  rewrite retry_S.
  destruct (load uri (S (attempts w))) as [d|e] eqn:Hload.
  - rewrite (attempt_loaded _ _ _ d Hload).
    eexists _, _, _. split; [reflexivity|]. split; [now left|].
    cbn [trace]. split; [reflexivity|].
    rewrite !loaded_app, !task_dones_app, !gets_app.
    rewrite (loaded_prints fst), (task_dones_prints fst), (gets_prints fst).
    change (loaded [Load uri; TaskDone; Put d]) with [uri].
    change (task_dones [Load uri; TaskDone; Put d]) with 1.
    change (gets [Load uri; TaskDone; Put d : ev']) with 0.
    cbn [length app]. repeat split; lia.
  - assert (Hcase : (exists msg, e = DownloadingError msg) \/ uncaught e).
    { destruct e; try (right; intros msg'; discriminate). left. eauto. }
    destruct Hcase as [[msg ->]|Hun].
    + rewrite (attempt_failed _ _ _ _ Hload) by lia. cbv zeta.
      destruct (Nat.ltb_spec (S (attempts w)) 100) as [Hlt'|Hge].
      * destruct (IH {| attempts := S (attempts w); data := data w;
                        trace := trace w ++ [Load uri; Print msg] |})
          as (s & w' & t & Hr & Hs & Ht & Hl & Htd & Hg);
          cbn [attempts data trace] in *; try lia.
        exists s, w', ([Load uri; Print msg] ++ t). rewrite Hr.
        split; [reflexivity|]. split; [exact Hs|].
        rewrite Ht, <- app_assoc. split; [reflexivity|].
        rewrite loaded_app, task_dones_app, gets_app.
        change (loaded [Load uri; Print msg]) with [uri].
        change (task_dones [Load uri; Print msg]) with 0.
        change (gets [Load uri; Print msg : ev']) with 0.
        cbn [length app]. repeat split; lia.
      * eexists _, _, [Load uri; Print msg; TaskDone].
        split; [reflexivity|]. split; [now left|].
        unfold did. cbn [attempts data trace]. rewrite <- app_assoc.
        split; [reflexivity|].
        change (loaded [Load uri; Print msg; TaskDone]) with [uri].
        change (task_dones [Load uri; Print msg; TaskDone : ev']) with 1.
        change (gets [Load uri; Print msg; TaskDone : ev']) with 0.
        cbn [length]. repeat split; lia.
    + rewrite (attempt_died _ _ _ Hload Hun).
      eexists _, _, [Load uri]. split; [reflexivity|].
      split; [right; eauto|]. cbn [trace]. split; [reflexivity|].
      change (loaded [Load uri]) with [uri].
      change (task_dones [Load uri : ev']) with 0.
      change (gets [Load uri : ev']) with 0.
      cbn [length]. repeat split; lia.
Qed.


End WorkerMore.

Lemma serve_job {J P : Type} (load : J -> nat -> result (gmap string P))
      fuel uri (w : worker) :
  serve load fuel (Some uri) w =
  retry load fuel uri {| attempts := 0; data := data w; trace := trace w ++ [Get] |}.
Proof. reflexivity. Qed.

Lemma run_cons {J P : Type} (load : J -> nat -> result (gmap string P))
      fuel task rest (w : worker) :
  run load fuel (task :: rest) w =
  match serve load fuel task w with
  | Some (Looping, w') => run load fuel rest w'
  | r => r
  end.
Proof. reflexivity. Qed.

(** A job that settles is fetched once and marked consumed once, and puts at
    most one result. *)
Lemma serve_settles {J P : Type} (load : J -> nat -> result (gmap string P))
      fuel uri (w : worker) :
  100 <= fuel -> settles load uri ->
  exists w' t,
    serve load fuel (Some uri) w = Some (Looping, w') /\
    trace w' = trace w ++ t /\
    gets t = 1 /\ task_dones t = 1 /\ length (puts t) <= 1.
Proof.
  intros Hfuel Hset. rewrite serve_job.
  remember {| attempts := 0; data := data w; trace := trace w ++ [Get] |} as w0 eqn:Hw0.
  assert (Ha : attempts w0 = 0) by (subst w0; reflexivity).
  assert (Htr : trace w0 = trace w ++ [Get]) by (subst w0; reflexivity).
  clear Hw0.
  destruct (retry_bounded load uri fuel w0) as (s & w' & t & Hr & _ & Ht & _ & _ & Hg);
    [lia..|].
  assert (Hfacts : s = Looping /\ task_dones t = 1 /\ length (puts t) <= 1).
  { destruct Hset as [(k & d & Hk & Hfail & Hok)|Hfail].
    - destruct (retry_succeeded load uri k d fuel w0)
        as (t' & Hr' & _ & Htd & Hp); [lia..| |exact Hok|].
      { intros n Hn. apply Hfail. lia. }
      rewrite Hr in Hr'. injection Hr' as -> ->. cbn [trace] in Ht.
      apply app_inv_head in Ht. subst t'. rewrite Hp. cbn [length]. auto.
    - destruct (retry_exhausted load uri fuel w0)
        as (t' & Hr' & _ & Htd & Hp); [lia..| |].
      { intros n Hn. apply Hfail. lia. }
      rewrite Hr in Hr'. injection Hr' as -> ->. cbn [trace] in Ht.
      apply app_inv_head in Ht. subst t'. rewrite Hp. cbn [length]. auto. }
  destruct Hfacts as (-> & Htd & Hp).
  exists w', ([Get] ++ t). split; [exact Hr|].
  rewrite Ht, Htr, <- app_assoc. split; [reflexivity|].
  rewrite gets_app, task_dones_app, puts_app.
  change (gets [Get : event J (gmap string P)]) with 1.
  change (task_dones [Get : event J (gmap string P)]) with 0.
  change (puts [Get : event J (gmap string P)]) with (@nil (gmap string P)).
  cbn [app]. repeat split; lia.
Qed.

(** X1.  Whatever the download does, one job makes the worker call
    [load_remote_file] at least once and at most 100 times: the inner loop
    always ends, either back in the outer loop or with an exception other
    than [DownloadingError], and it marks the job consumed at most once. *)
Theorem retry_ends_within_100_attempts {J P : Type}
        (load : J -> nat -> result (gmap string P)) (uri : J) (fuel : nat) (w : worker) :
  100 <= fuel ->
  exists s w' t,
    serve load fuel (Some uri) w = Some (s, w') /\
    (s = Looping \/ exists e, s = Died e /\ uncaught e) /\
    trace w' = trace w ++ Get :: t /\
    1 <= length (loaded t) <= 100 /\ task_dones t <= 1 /\ gets t = 0.
Proof.
  intros Hfuel. rewrite serve_job.
  destruct (retry_bounded load uri fuel
              {| attempts := 0; data := data w; trace := trace w ++ [Get] |})
    as (s & w' & t & Hr & Hs & Ht & Hl & Htd & Hg); cbn [attempts]; try lia.
  exists s, w', t. cbn [trace attempts] in *. rewrite <- app_assoc in Ht.
  repeat split; auto; lia.
Qed.

Lemma retry_ends_within_100_attempts_witness :
  exists s w' t,
    serve broken_load 100 (Some tt) fresh_worker = Some (s, w') /\
    (s = Looping \/ exists e, s = Died e /\ uncaught e) /\
    trace w' = trace fresh_worker ++ Get :: t /\
    1 <= length (loaded t) <= 100 /\ task_dones t <= 1 /\ gets t = 0.
Proof.
  apply (retry_ends_within_100_attempts broken_load tt 100 fresh_worker). lia.
Defined.



(** X3.  Accounting.  When every job handed to the worker settles and a
    sentinel follows, the worker ends at the sentinel having fetched and
    marked consumed each of these tasks exactly once (the jobs and the
    sentinel), with at most one result per job; whatever is queued behind the
    sentinel is left alone. *)
Theorem run_accounts_for_every_task {J P : Type}
        (load : J -> nat -> result (gmap string P)) (jobs : list J)
        (rest : list (option J)) (fuel : nat) :
  100 <= fuel ->
  Forall (settles load) jobs ->
  forall w : worker,
  exists w' t,
    run load fuel (map Some jobs ++ None :: rest) w = Some (Left, w') /\
    trace w' = trace w ++ t /\
    gets t = length jobs + 1 /\
    task_dones t = length jobs + 1 /\
    length (puts t) <= length jobs.
Proof.
  intros Hfuel Hall. induction Hall as [|uri jobs Huri _ IH]; intros w.
  - cbn [map app]. rewrite run_cons. cbn [serve].
    eexists _, [Get; Print "Exiting"; TaskDone]. split; [reflexivity|].
    unfold did. cbn [trace]. rewrite <- app_assoc. split; [reflexivity|].
    repeat split; cbn; lia.
  - cbn [map app]. rewrite run_cons.
    destruct (serve_settles load fuel uri w Hfuel Huri)
      as (w1 & t1 & Hs & Ht1 & Hg1 & Htd1 & Hp1).
    rewrite Hs. destruct (IH w1) as (w' & t & Hr & Ht & Hg & Htd & Hp).
    exists w', (t1 ++ t). split; [exact Hr|].
    rewrite Ht, Ht1, <- app_assoc. split; [reflexivity|].
    rewrite gets_app, task_dones_app, puts_app, length_app. cbn [length].
    repeat split; lia.
Qed.

Lemma run_accounts_for_every_task_witness :
  exists w' t,
    run flaky_load 100 (map Some [tt; tt] ++ None :: [Some tt]) fresh_worker
      = Some (Left, w') /\
    trace w' = trace fresh_worker ++ t /\
    gets t = length [tt; tt] + 1 /\
    task_dones t = length [tt; tt] + 1 /\
    length (puts t) <= length [tt; tt].
Proof.
  apply (run_accounts_for_every_task flaky_load [tt; tt] [Some tt] 100).
  - lia.
  - assert (H : settles flaky_load tt).
    { left. exists 3, {[ "foo-1.0" := 7 ]}. split; [lia|]. split; [|reflexivity].
      intros n Hn. exists "wget failed". unfold flaky_load.
      destruct (Nat.ltb_spec n 3); [reflexivity|lia]. }
    constructor; [exact H|]. constructor; [exact H|]. constructor.
Defined.


(** ** The record normaliser, beyond the claims *)

Lemma all_chars_filter cls (s : string) : all_chars cls (filter_chars cls s) = true.
Proof.
  induction s as [|c s IH]; [reflexivity|]. cbn [filter_chars].
  destruct (cls c) eqn:Hc; [|exact IH]. cbn [all_chars]. now rewrite Hc.
Qed.

Lemma filter_chars_id cls (s : string) :
  all_chars cls s = true -> filter_chars cls s = s.
Proof.
  induction s as [|c s IH]; [reflexivity|]. cbn [all_chars filter_chars].
  intros H. apply andb_prop in H as [Hc Hs]. now rewrite Hc, IH.
Qed.

Lemma append_nil_r (s : string) : s +:+ EmptyString = s.
Proof.
  induction s as [|c s IH]; [reflexivity|].
  change (String c (s +:+ EmptyString) = String c s). now rewrite IH.
Qed.

Lemma digits_are_a_version (s : string) :
  s <> EmptyString -> all_chars is_digit s = true -> version_grammar s.
Proof.
  intros Hne Hall. left. exists s, EmptyString, EmptyString.
  change (EmptyString +:+ EmptyString) with EmptyString. rewrite append_nil_r.
  repeat split; auto; now left.
Qed.

Lemma filtered_version_in_grammar (now : datetime) (version : string) :
  valid_date now -> version_grammar (filtered_version now version).
Proof.
  intros (Hy & Hm & Hd). unfold filtered_version.
  destruct (re_match version_pattern version) eqn:E.
  - now apply version_pattern_spec.
  - destruct (pseudoversion_shape now Hy Hm Hd) as [Hlen Hdig].
    apply digits_are_a_version; [|exact Hdig].
    intros Hnil. rewrite Hnil in Hlen. discriminate Hlen.
Qed.

Section NormaliserMore.

Variable convert : string -> string -> string.
Variable now : datetime.
Variable packages : gmap string PackageDetail.

Lemma process_entry_dropped (entry : (string * string) * string) (t : list call) :
  dropped packages entry ->
  process_entry convert now packages entry t = (Ok tt, t).
Proof.
  destruct entry as [[package version] description]. unfold dropped. cbn [fst snd].
  destruct (packages !! (package +:+ "-" +:+ version)) as [pkg_data|] eqn:Hpkg.
  2: { intros _. now apply process_entry_absent. }
  intros [[Hf Hi]|Hsrc].
  - now apply (process_entry_empty convert now _ _ _ _ pkg_data).
  - destruct (files pkg_data) as [|f fs] eqn:Hf.
    + destruct (info_nonempty (info pkg_data)) eqn:Hi.
      * rewrite <- Hf in Hsrc.
        rewrite (process_entry_run convert now _ _ _ _ _ t Hpkg (or_intror Hi)).
        cbv zeta. now rewrite Hsrc.
      * now apply (process_entry_empty convert now _ _ _ _ pkg_data).
    + assert (Hne : files pkg_data <> [] \/ info_nonempty (info pkg_data) = true).
      { left. rewrite Hf. discriminate. }
      rewrite <- Hf in Hsrc.
      rewrite (process_entry_run convert now _ _ _ _ _ t Hpkg Hne).
      cbv zeta. now rewrite Hsrc.
Qed.

(** The three ways one pass of the loop body can go. *)
Lemma process_entry_cases (entry : (string * string) * string) (t : list call) :
  (dropped packages entry /\
   process_entry convert now packages entry t = (Ok tt, t)) \/
  (exists err, process_entry convert now packages entry t = (Raise err, t)) \/
  (exists p e raw,
     record_of convert now packages entry p e /\
     process_entry convert now packages entry t
       = (Ok tt, t ++ [Convert "licenses" raw; AddPackage p e])).
Proof.
  destruct entry as [[package version] description]. unfold dropped. cbn [fst snd].
  destruct (packages !! (package +:+ "-" +:+ version)) as [pkg_data|] eqn:Hpkg.
  2: { left. split; [exact I|]. now apply process_entry_absent. }
  destruct (files pkg_data) as [|f fs] eqn:Hf.
  - destruct (info_nonempty (info pkg_data)) eqn:Hi.
    + rewrite <- Hf.
      rewrite (process_entry_run convert now _ _ _ _ _ t Hpkg (or_intror Hi)).
      cbv zeta.
      destruct (select_source_uri (download_url_of (info pkg_data))
                                  (fst (first_source (files pkg_data)))) as [|c src] eqn:Hsrc.
      * left. split; [now right|reflexivity].
      * cbn [truthy].
        destruct (read_info (info pkg_data)) as [[[homepage raw] py_versions]|err] eqn:Hread.
        -- right. right. eexists _, _, raw. split; [|reflexivity].
           exists pkg_data, homepage, raw, py_versions. cbn [fst snd].
           rewrite Hsrc. repeat split; auto; discriminate.
        -- right. left. eauto.
    + left. split; [left; auto|]. now apply (process_entry_empty convert now _ _ _ _ pkg_data).
  - rewrite <- Hf.
    assert (Hne : files pkg_data <> [] \/ info_nonempty (info pkg_data) = true).
    { left. rewrite Hf. discriminate. }
    rewrite (process_entry_run convert now _ _ _ _ _ t Hpkg Hne). cbv zeta.
    destruct (select_source_uri (download_url_of (info pkg_data))
                                (fst (first_source (files pkg_data)))) as [|c src] eqn:Hsrc.
    + left. split; [now right|reflexivity].
    + cbn [truthy].
      destruct (read_info (info pkg_data)) as [[[homepage raw] py_versions]|err] eqn:Hread.
      * right. right. eexists _, _, raw. split; [|reflexivity].
        exists pkg_data, homepage, raw, py_versions. cbn [fst snd].
        rewrite Hsrc. repeat split; auto; discriminate.
      * right. left. eauto.
Qed.

(** What the loop over the index adds to the trace. *)
Lemma for_each_process_entry (index : list ((string * string) * string)) :
  forall t : list call,
  exists r evs,
    for_each (process_entry convert now packages) index t = (r, t ++ evs) /\
    length (converted evs) = length (added evs) /\
    length (added evs) <= length index /\
    (forall p e, In (p, e) (added evs) ->
                 exists entry, In entry index /\ record_of convert now packages entry p e) /\
    (Forall (dropped packages) index -> r = Ok tt /\ evs = []).
Proof.
  induction index as [|entry index IH]; intros t.
  - exists (Ok tt), []. rewrite app_nil_r. cbn. repeat split; auto. intros p e [].
  - cbn [for_each]. unfold bind.
    destruct (process_entry_cases entry t) as [[Hd H]|[[err H]|(p & e & raw & Hrec & H)]];
      rewrite H.
    + destruct (IH t) as (r & evs & Hrun & Hlen & Hle & Hin & Hdrop).
      exists r, evs. rewrite Hrun. split; [reflexivity|]. split; [exact Hlen|].
      split; [cbn [length]; lia|]. split.
      * intros p e Hpe. destruct (Hin p e Hpe) as (entry' & He & Hr).
        exists entry'. split; [now right|exact Hr].
      * intros Hall. apply Hdrop. now inversion Hall.
    + exists (Raise err), []. rewrite app_nil_r. split; [reflexivity|].
      split; [reflexivity|]. split; [cbn; lia|]. split; [intros p e []|].
      intros Hall. exfalso. inversion Hall as [|? ? Hd _]; subst.
      rewrite (process_entry_dropped entry t Hd) in H. discriminate.
    + destruct (IH (t ++ [Convert "licenses" raw; AddPackage p e]))
        as (r & evs & Hrun & Hlen & Hle & Hin & Hdrop).
      exists r, ([Convert "licenses" raw; AddPackage p e] ++ evs).
      rewrite Hrun, <- app_assoc. split; [reflexivity|].
      change (converted ([Convert "licenses" raw; AddPackage p e] ++ evs))
        with (("licenses", raw) :: converted evs).
      change (added ([Convert "licenses" raw; AddPackage p e] ++ evs))
        with ((p, e) :: added evs).
      cbn [length]. split; [lia|]. split; [lia|]. split.
      * intros p' e' [[= <- <-]|Hpe].
        -- exists entry. split; [now left|exact Hrec].
        -- destruct (Hin p' e' Hpe) as (entry' & He & Hr).
           exists entry'. split; [now right|exact Hr].
      * intros Hall. exfalso. inversion Hall as [|? ? Hd _]; subst.
        rewrite (process_entry_dropped entry t Hd) in H.
        injection H as H. rewrite <- (app_nil_r t) in H at 1.
        apply app_inv_head in H. discriminate.
Qed.

End NormaliserMore.

Lemma process_data_run (convert : string -> string -> string) (now : datetime)
      (packages : gmap string PackageDetail)
      (index : list ((string * string) * string)) (t0 : list call) :
  exists r evs,
    process_data convert now index packages t0
      = (r, t0 ++ [AddCategory "dev-python";
                   SetCommonData "dev-python" the_common_data] ++ evs) /\
    length (converted evs) = length (added evs) /\
    length (added evs) <= length index /\
    (forall p e, In (p, e) (added evs) ->
                 exists entry, In entry index /\ record_of convert now packages entry p e) /\
    (Forall (dropped packages) index -> r = Ok tt /\ evs = []).
Proof.
  unfold process_data, bind, emit, modify.
  destruct (for_each_process_entry convert now packages index
              ((t0 ++ [AddCategory category]) ++ [SetCommonData category the_common_data]))
    as (r & evs & Hrun & Hfacts).
  exists r, evs. rewrite Hrun, <- !app_assoc. split; [reflexivity|exact Hfacts].
Qed.

Lemma added_of_process_data (convert : string -> string -> string) (now : datetime)
      (packages : gmap string PackageDetail)
      (index : list ((string * string) * string)) r t p e :
  process_data convert now index packages [] = (r, t) ->
  In (p, e) (added t) ->
  exists entry, In entry index /\ record_of convert now packages entry p e.
Proof.
  intros Hrun Hin.
  destruct (process_data_run convert now packages index [])
    as (r' & evs & Hrun' & _ & _ & Hrec & _).
  rewrite Hrun in Hrun'. injection Hrun' as _ ->. apply Hrec. exact Hin.
Qed.

Lemma first_source_origin (fs : list FileRecord) :
  first_source fs = (EmptyString, EmptyString) \/
  exists f, In f fs /\ file_type f = Some source_marker /\
            first_source fs = (file_url f, file_md5 f).
Proof.
  induction fs as [|g fs IH]; [now left|]. cbn [first_source].
  destruct (bool_decide (file_type g = Some source_marker)) eqn:Hg.
  - apply bool_decide_eq_true in Hg. right. exists g. split; [now left|]. auto.
  - destruct IH as [IH|(f & Hin & Hf & IH)]; [now left|].
    right. exists f. split; [now right|]. auto.
Qed.

Lemma read_info_license (i : InfoBlock) homepage raw py_versions :
  read_info i = Ok (homepage, raw, py_versions) -> raw = raw_license i.
Proof.
  unfold read_info, raw_license, info_nonempty.
  destruct (info_categories i) as [categories|].
  - rewrite (bool_decide_eq_true_2 (is_Some (Some categories))) by (eexists; reflexivity).
    rewrite orb_true_r.
    destruct (categories !! "License") as [licenses|]; [|intros [= _ <- _]; reflexivity].
    unfold rbind, last_item. destruct (last licenses); [|discriminate].
    intros [= _ <- _]. reflexivity.
  - destruct (negb _ || _); intros [= _ <- _]; reflexivity.
Qed.

(** X4.  Every package that a run of [process_data] adds comes from an entry
    of the index and is sanitised: its category is [dev-python], its name is
    the entry's name with every character outside letters, digits and
    [+ _ -] removed, its description keeps only the characters allowed there,
    and the unfiltered name and version are kept as [realname] and
    [realversion]. *)
Theorem added_packages_are_sanitised (convert : string -> string -> string)
        (now : datetime) (packages : gmap string PackageDetail)
        (index : list ((string * string) * string)) r t p e :
  process_data convert now index packages [] = (r, t) ->
  In (p, e) (added t) ->
  pkg_category p = "dev-python" /\
  all_chars allowed_ords_pkg (pkg_name p) = true /\
  all_chars allowed_ords_desc (description e) = true /\
  longdescription e = description e /\
  exists package version text,
    In ((package, version), text) index /\
    realname e = package /\ realversion e = version /\
    pkg_name p = filter_chars allowed_ords_pkg package /\
    description e = filter_chars allowed_ords_desc text.
Proof.
  intros Hrun Hin.
  destruct (added_of_process_data _ _ _ _ _ _ _ _ Hrun Hin)
    as ([[package version] text] & Hentry & pkg_data & homepage & raw & pyv
        & _ & _ & _ & -> & ->).
  cbn [fst snd pkg_category pkg_name description longdescription realname realversion
       make_ebuild].
  split; [reflexivity|]. split; [apply all_chars_filter|].
  split; [apply all_chars_filter|]. split; [reflexivity|].
  exists package, version, text. auto.
Qed.

Lemma added_packages_are_sanitised_witness :
  exists p e,
    In (p, e) (added (snd sample_run)) /\
    pkg_category p = "dev-python" /\
    all_chars allowed_ords_pkg (pkg_name p) = true /\
    realname e = "foo".
Proof.
  destruct sample_run as [r t] eqn:Hrun.
  assert (Hin : exists p e, In (p, e) (added t) /\ realname e = "foo").
  { vm_compute in Hrun. injection Hrun as _ <-. eexists _, _. split; [left|]; reflexivity. }
  destruct Hin as (p & e & Hin & Hname).
  destruct (added_packages_are_sanitised sample_convert sample_now sample_store
              sample_index r t p e Hrun Hin) as (Hc & Hn & _).
  exists p, e. auto.
Defined.

(** X5.  On a run date that [datetime] can hold, the version of every added
    package is in the version grammar, whether it is the entry's version or
    the pseudo-version put in its place; validating it again changes
    nothing. *)
Theorem added_versions_are_well_formed (convert : string -> string -> string)
        (now : datetime) (packages : gmap string PackageDetail)
        (index : list ((string * string) * string)) r t p e :
  valid_date now ->
  process_data convert now index packages [] = (r, t) ->
  In (p, e) (added t) ->
  version_grammar (pkg_version p) /\
  re_match version_pattern (pkg_version p) = true /\
  filtered_version now (pkg_version p) = pkg_version p /\
  (pkg_version p = realversion e \/ pkg_version p = pseudoversion now).
Proof.
  intros Hdate Hrun Hin.
  destruct (added_of_process_data _ _ _ _ _ _ _ _ Hrun Hin)
    as ([[package version] text] & Hentry & pkg_data & homepage & raw & pyv
        & _ & _ & _ & -> & ->).
  cbn [fst snd pkg_version realversion make_ebuild].
  assert (Hg := filtered_version_in_grammar now version Hdate).
  assert (Hm := proj2 (version_pattern_spec _) Hg).
  split; [exact Hg|]. split; [exact Hm|]. split.
  - unfold filtered_version at 1. now rewrite Hm.
  - unfold filtered_version. destruct (re_match version_pattern version); auto.
Qed.

Lemma added_versions_are_well_formed_witness :
  exists p e,
    In (p, e) (added (snd sample_run)) /\
    version_grammar (pkg_version p) /\
    filtered_version sample_now (pkg_version p) = pkg_version p.
Proof.
  destruct sample_run as [r t] eqn:Hrun.
  assert (Hin : exists p e, In (p, e) (added t)).
  { vm_compute in Hrun. injection Hrun as _ <-. eexists _, _. left. reflexivity. }
  destruct Hin as (p & e & Hin).
  destruct (added_versions_are_well_formed sample_convert sample_now sample_store
              sample_index r t p e) as (Hg & _ & Hid & _).
  - repeat split; vm_compute; lia.
  - exact Hrun.
  - exact Hin.
  - exists p, e. auto.
Defined.

(** X6.  No added package has an empty source URI.  Its md5 is the md5 of the
    first file of its page whose type is the source marker, or empty when the
    page has no such file: it is never taken from another kind of file, and
    it is that file's md5 even when the source URI is the download link. *)
Theorem added_source_and_md5 (convert : string -> string -> string)
        (now : datetime) (packages : gmap string PackageDetail)
        (index : list ((string * string) * string)) r t p e :
  process_data convert now index packages [] = (r, t) ->
  In (p, e) (added t) ->
  source_uri e <> EmptyString /\
  exists pkg_data,
    packages !! (realname e +:+ "-" +:+ realversion e) = Some pkg_data /\
    md5 e = snd (first_source (files pkg_data)) /\
    (md5 e = EmptyString \/
     exists f, In f (files pkg_data) /\ file_type f = Some source_marker /\
               md5 e = file_md5 f).
Proof.
  intros Hrun Hin.
  destruct (added_of_process_data _ _ _ _ _ _ _ _ Hrun Hin)
    as ([[package version] text] & Hentry & pkg_data & homepage & raw & pyv
        & Hpkg & _ & Hsrc & -> & ->).
  cbn [fst snd source_uri md5 realname realversion make_ebuild] in *.
  split; [exact Hsrc|]. exists pkg_data. split; [exact Hpkg|]. split; [reflexivity|].
  destruct (first_source_origin (files pkg_data)) as [->|(f & Hf & Hty & ->)].
  - now left.
  - right. exists f. auto.
Qed.

Lemma added_source_and_md5_witness :
  exists p e,
    In (p, e) (added (snd sample_run)) /\
    source_uri e <> EmptyString /\ md5 e = "0123".
Proof.
  destruct sample_run as [r t] eqn:Hrun.
  assert (Hin : exists p e, In (p, e) (added t) /\ md5 e = "0123").
  { vm_compute in Hrun. injection Hrun as _ <-. eexists _, _. split; [left|]; reflexivity. }
  destruct Hin as (p & e & Hin & Hmd5).
  destruct (added_source_and_md5 sample_convert sample_now sample_store
              sample_index r t p e Hrun Hin) as (Hsrc & _).
  exists p, e. auto.
Defined.

(** X7.  In a run of [process_data] the licence lookups and the added
    packages go in pairs: there are as many of the one as of the other, at
    most one pair per index entry, after the two opening calls
    [add_category] and [set_common_data].  The licence of an added package is
    the lookup of the last value listed in the [License] group of its page,
    or of [""] when the page lists none. *)
Theorem lookups_and_packages_pair_up (convert : string -> string -> string)
        (now : datetime) (packages : gmap string PackageDetail)
        (index : list ((string * string) * string)) r t :
  process_data convert now index packages [] = (r, t) ->
  (exists evs,
     t = [AddCategory "dev-python"; SetCommonData "dev-python" the_common_data] ++ evs) /\
  length (converted t) = length (added t) /\
  length (added t) <= length index /\
  (forall p e, In (p, e) (added t) ->
     exists pkg_data,
       packages !! (realname e +:+ "-" +:+ realversion e) = Some pkg_data /\
       license e = convert "licenses" (raw_license (info pkg_data))).
Proof.
  intros Hrun.
  destruct (process_data_run convert now packages index [])
    as (r' & evs & Hrun' & Hlen & Hle & Hrec & _).
  rewrite Hrun in Hrun'. injection Hrun' as _ ->. cbn [app].
  split; [eauto|]. split; [exact Hlen|]. split; [exact Hle|].
  intros p e Hin.
  destruct (Hrec p e Hin)
    as ([[package version] text] & Hentry & pkg_data & homepage & raw & pyv
        & Hpkg & Hread & _ & -> & ->).
  cbn [fst snd license realname realversion make_ebuild] in *.
  exists pkg_data. split; [exact Hpkg|]. now rewrite (read_info_license _ _ _ _ Hread).
Qed.

Lemma lookups_and_packages_pair_up_witness :
  length (converted (snd sample_run)) = length (added (snd sample_run)) /\
  length (added (snd sample_run)) <= length sample_index.
Proof.
  destruct sample_run as [r t] eqn:Hrun.
  destruct (lookups_and_packages_pair_up sample_convert sample_now sample_store
              sample_index r t Hrun) as (_ & Hlen & Hle & _).
  auto.
Defined.

(** X8.  Entries that have no detail in the store, an empty detail (no file
    and no info), or a detail with neither a download link nor a source file
    leave no trace: when every entry of the index is of that kind, the run
    ends normally after its two opening calls, with no lookup and no
    package. *)
Theorem dropped_entries_add_nothing (convert : string -> string -> string)
        (now : datetime) (packages : gmap string PackageDetail)
        (index : list ((string * string) * string)) :
  Forall (dropped packages) index ->
  process_data convert now index packages []
    = (Ok tt, [AddCategory "dev-python"; SetCommonData "dev-python" the_common_data]).
Proof.
  intros Hall.
  destruct (process_data_run convert now packages index [])
    as (r & evs & Hrun & _ & _ & _ & Hdrop).
  destruct (Hdrop Hall) as [-> ->]. exact Hrun.
Qed.

Lemma dropped_entries_add_nothing_witness :
  process_data sample_convert sample_now
               [(("bar", "0.1-rc1"), ""); (("baz", "2"), "")] sample_store []
    = (Ok tt, [AddCategory "dev-python"; SetCommonData "dev-python" the_common_data]).
Proof.
  apply dropped_entries_add_nothing.
  constructor; [|constructor; [|constructor]].
  - unfold dropped. vm_compute. right. reflexivity.
  - unfold dropped. vm_compute. exact I.
Defined.


(** ** The detail-page parser, beyond the claims *)

Lemma filter_map_position (P : node -> bool) (i : nat) (l : list (path * node)) :
  List.filter (fun pd => P (snd pd)) (map (fun pd => (i :: fst pd, snd pd)) l)
  = map (fun pd => (i :: fst pd, snd pd)) (List.filter (fun pd => P (snd pd)) l).
Proof.
  unfold path in *.
  induction l as [|x l IH]; [reflexivity|]. cbn [map List.filter snd].
  destruct (P (snd x)); cbn [map]; [f_equal|]; exact IH.
Qed.

Lemma find_all_at_Tag wanted class_ tag_name attrs classes contents :
  find_all_at wanted class_ (Tag tag_name attrs classes contents)
  = find_in_children wanted class_ 0 contents.
Proof.
  unfold find_all_at at 1. cbn [descendants]. generalize 0 as i.
  induction contents as [|c r IH]; intros i; [reflexivity|].
  cbn [find_in_children]. rewrite <- IH. cbn [List.filter snd].
  rewrite List.filter_app, (filter_map_position (is_tag wanted class_)).
  unfold find_all_at. destruct (is_tag wanted class_ c); reflexivity.
Qed.

(** *** [split] on a one-character separator *)

Lemma split_aux_hash_free (s : string) : forall cur,
  hash_free s -> split_aux "#" 0 cur s = [cur +:+ s].
Proof.
  unfold hash_free. induction s as [|c s IH]; intros cur H.
  - cbn [split_aux]. now rewrite append_nil_r.
  - cbn [all_chars] in H. apply andb_prop in H as [Hc Hs].
    cbn [split_aux is_prefix]. rewrite Ascii.eqb_sym.
    apply negb_true_iff in Hc. rewrite Hc. cbn [andb].
    rewrite IH by exact Hs. rewrite append_assoc. reflexivity.
Qed.

Lemma split_aux_at_hash (a b : string) : forall cur,
  hash_free a ->
  split_aux "#" 0 cur (a +:+ String "#" b) = (cur +:+ a) :: split_aux "#" 0 EmptyString b.
Proof.
  unfold hash_free. induction a as [|c a IH]; intros cur H.
  - change (EmptyString +:+ String "#" b) with (String "#"%char b).
    cbn [split_aux is_prefix]. rewrite Ascii.eqb_refl. cbn [andb String.length Nat.sub].
    now rewrite append_nil_r.
  - cbn [all_chars] in H. apply andb_prop in H as [Hc Hs].
    change (String c a +:+ String "#" b) with (String c (a +:+ String "#" b)).
    cbn [split_aux is_prefix]. rewrite Ascii.eqb_sym.
    apply negb_true_iff in Hc. rewrite Hc. cbn [andb].
    rewrite IH by exact Hs. rewrite append_assoc. reflexivity.
Qed.

(** A link [url#md5=hash] splits into the two parts again. *)
Lemma split_href (url hash : string) :
  hash_free url -> hash_free hash ->
  split "#" (url +:+ "#md5=" +:+ hash) = [url; "md5=" +:+ hash].
Proof.
  intros Hu Hh. unfold split.
  change (url +:+ "#md5=" +:+ hash) with (url +:+ String "#" ("md5=" +:+ hash)).
  rewrite split_aux_at_hash by exact Hu. change (EmptyString +:+ url) with url.
  rewrite split_aux_hash_free; [reflexivity|].
  unfold hash_free in *. rewrite all_chars_append, Hh. reflexivity.
Qed.

Lemma parse_rendered_row (r : string * string * string) :
  hash_free (fst (fst r)) -> hash_free (snd (fst r)) ->
  parse_row (find_all "td" (rendered_row r)) = Ok (rendered_file r).
Proof.
  destruct r as [[url hash] type]. cbn [fst snd]. intros Hu Hh.
  change (find_all "td" (rendered_row (url, hash, type)))
    with [ el "td" [anchor (url +:+ "#md5=" +:+ hash) "file"]; el "td" [text type];
           el "td" [text "any"]; el "td" [text "2015-01-01"]; el "td" [text "10KB"] ].
  unfold parse_row, index. cbn [lookup list_lookup rbind].
  change (find_all "a" (el "td" [anchor (url +:+ "#md5=" +:+ hash) "file"]))
    with [anchor (url +:+ "#md5=" +:+ hash) "file"].
  cbn [lookup list_lookup rbind].
  change (getitem (anchor (url +:+ "#md5=" +:+ hash) "file") "href")
    with (match ({[ "href" := url +:+ "#md5=" +:+ hash ]} : gmap string string) !! "href" with
          | Some v => Ok v | None => Raise KeyError end).
  rewrite lookup_singleton_eq. cbn [rbind].
  rewrite (split_href url hash Hu Hh). cbn [lookup list_lookup rbind].
  reflexivity.
Qed.

(** *** Searching rendered pages *)

Lemma find_in_children_app wanted class_ (l1 l2 : list node) : forall i,
  find_in_children wanted class_ i (l1 ++ l2)
  = find_in_children wanted class_ i l1
    ++ find_in_children wanted class_ (i + length l1) l2.
Proof.
  induction l1 as [|c l1 IH]; intros i.
  - cbn [app find_in_children length]. now rewrite Nat.add_0_r.
  - cbn [app find_in_children length]. rewrite IH, <- !app_assoc.
    now replace (S i + length l1) with (i + S (length l1)) by lia.
Qed.

(** Nodes among which the search finds nothing. *)
Lemma find_in_children_none wanted class_ (l : list node) : forall i,
  Forall (fun n => is_tag wanted class_ n = false /\ find_all_at wanted class_ n = []) l ->
  find_in_children wanted class_ i l = [].
Proof.
  induction l as [|c l IH]; intros i H; [reflexivity|].
  inversion H as [|? ? [Ht Hf] Hl]; subst. cbn [find_in_children].
  rewrite Ht, Hf, (IH _ Hl). reflexivity.
Qed.

(** Nodes that the search finds themselves, and nothing below them. *)
Lemma find_in_children_all wanted class_ (l : list node) : forall i,
  Forall (fun n => is_tag wanted class_ n = true /\ find_all_at wanted class_ n = []) l ->
  find_in_children wanted class_ i l = positions i l.
Proof.
  induction l as [|c l IH]; intros i H; [reflexivity|].
  inversion H as [|? ? [Ht Hf] Hl]; subst. cbn [find_in_children positions].
  rewrite Ht, Hf, (IH _ Hl). reflexivity.
Qed.

Lemma Forall_map_all {A : Type} (f : A -> node) (P : node -> Prop) (l : list A) :
  (forall x, P (f x)) -> Forall P (map f l).
Proof. intros H. induction l; constructor; auto. Qed.

Lemma rows_hold_no wanted class_ (rows : list (string * string * string)) i :
  (forall r, is_tag wanted class_ (rendered_row r) = false /\
             find_all_at wanted class_ (rendered_row r) = []) ->
  find_in_children wanted class_ i (map rendered_row rows) = [].
Proof. intros H. apply find_in_children_none, Forall_map_all. exact H. Qed.

Lemma fields_hold_no wanted class_ (kvs : list (string * string)) i :
  (forall kv, is_tag wanted class_ (rendered_field kv) = false /\
              find_all_at wanted class_ (rendered_field kv) = []) ->
  find_in_children wanted class_ i (map rendered_field kvs) = [].
Proof. intros H. apply find_in_children_none, Forall_map_all. exact H. Qed.

(** *** The loops on rendered rows and items *)

Lemma path_prefix_sibling (decomposed : list path) (i : nat) :
  Forall (fun q => exists j, q = [j] /\ j < i) decomposed ->
  existsb (fun q => path_prefix q [i]) decomposed = false.
Proof.
  induction 1 as [|q decomposed (j & -> & Hj) _ IH]; [reflexivity|].
  cbn [existsb path_prefix]. rewrite IH.
  destruct (Nat.eqb_spec j i); [lia|reflexivity].
Qed.

Lemma walk_rendered_rows (rows : list (string * string * string)) :
  forall i decomposed data,
    Forall (fun r => hash_free (fst (fst r)) /\ hash_free (snd (fst r))) rows ->
    Forall (fun q => exists j, q = [j] /\ j < i) decomposed ->
    walk_rows decomposed (positions i (map rendered_row rows)) data
    = (Ok tt, {| files := files data ++ map rendered_file rows; info := info data |}).
Proof.
  induction rows as [|r rows IH]; intros i decomposed data Hrows Hdec.
  - cbn [map positions walk_rows]. rewrite app_nil_r. now destruct data.
  - inversion Hrows as [|? ? [Hu Hh] Hrest]; subst.
    cbn [map positions walk_rows].
    rewrite (path_prefix_sibling decomposed i Hdec).
    rewrite (parse_rendered_row r Hu Hh).
    unfold bind, lift, modify. rewrite IH.
    + cbn [files info append_file]. now rewrite <- app_assoc.
    + exact Hrest.
    + constructor.
      * exists i. split; [reflexivity|lia].
      * eapply Forall_impl; [exact Hdec|].
        intros q (j & -> & Hj). exists j. split; [reflexivity|lia].
Qed.

Lemma walk_rendered_field (kv : string * string) (rest : list node) (data : PackageDetail) :
  field_label (fst kv) ->
  walk_entries (rendered_field kv :: rest) data
  = walk_entries rest (set_field (fst kv) (Some (snd kv)) data).
Proof.
  destruct kv as [label value]. cbn [fst snd]. intros [Hne Hcat].
  cbn [walk_entries].
  change (is_tag "li" None (rendered_field (label, value))) with true.
  change (find_all "strong" (rendered_field (label, value)))
    with [el "strong" [text label]].
  change (find_all "span" (rendered_field (label, value)))
    with [el "span" [text value]].
  cbn [negb]. unfold bind, lift, modify, index. cbn [lookup list_lookup].
  change (tag_string (el "strong" [text label])) with (Some label).
  change (tag_string (el "span" [text value])) with (Some value).
  destruct label as [|c label]; [congruence|]. cbn [truthy negb default from_option id].
  destruct (String.eqb_spec (String c label) "Categories") as [E|_]; [congruence|].
  reflexivity.
Qed.

Lemma walk_rendered_fields (kvs : list (string * string)) : forall data,
  Forall (fun kv => field_label (fst kv)) kvs ->
  walk_entries (map rendered_field kvs) data
  = (Ok tt, fold_left (fun d kv => set_field (fst kv) (Some (snd kv)) d) kvs data).
Proof.
  induction kvs as [|kv kvs IH]; intros data H; [reflexivity|].
  inversion H as [|? ? Hkv Hrest]; subst. cbn [map fold_left].
  rewrite (walk_rendered_field kv _ data Hkv). now apply IH.
Qed.

Lemma find_all_at_page wanted class_ (body : list node) :
  String.eqb "html" wanted = false ->
  String.eqb "body" wanted = false ->
  find_all_at wanted class_ (page body)
  = map (fun pd => (0 :: 0 :: fst pd, snd pd)) (find_in_children wanted class_ 0 body).
Proof.
  intros Hhtml Hbody. unfold page, el.
  rewrite find_all_at_Tag. cbn [find_in_children is_tag]. rewrite Hhtml. cbn [andb app].
  rewrite find_all_at_Tag. cbn [find_in_children is_tag]. rewrite Hbody. cbn [andb app].
  rewrite find_all_at_Tag, !app_nil_r, map_map. reflexivity.
Qed.

Lemma slice_1_m1_middle {A : Type} (x y : A) (l : list A) :
  slice_1_m1 (x :: l ++ [y]) = l.
Proof. unfold slice_1_m1. cbn [tl]. apply removelast_last. Qed.

Lemma fold_set_field (kvs : list (string * string)) : forall data,
  fold_left (fun d kv => set_field (fst kv) (Some (snd kv)) d) kvs data
  = {| files := files data;
       info := {| info_fields :=
                    fold_left (fun m kv => <[fst kv := Some (snd kv)]> m) kvs
                              (info_fields (info data));
                  info_categories := info_categories (info data) |} |}.
Proof.
  induction kvs as [|kv kvs IH]; intros data.
  - cbn [fold_left]. now destruct data as [fs [m c]].
  - cbn [fold_left]. rewrite IH. reflexivity.
Qed.

(** The searches that [walk] makes on a rendered page. *)
Lemma tables_of_rendered_page rows kvs :
  find_all_at "table" (Some "list") (rendered_page rows kvs)
  = [([0; 0; 0], file_table (map rendered_row rows))].
Proof.
  unfold rendered_page. rewrite find_all_at_page by reflexivity.
  cbn [find_in_children]. unfold file_table at 1 3, info_list.
  rewrite !find_all_at_Tag.
  change (is_tag "table" (Some "list")
                 (Tag "table" ∅ ["list"] (header_row :: map rendered_row rows ++ [summary_row])))
    with true.
  change (is_tag "table" (Some "list") (Tag "ul" ∅ ["nodot"] (map rendered_field kvs)))
    with false.
  cbn [find_in_children]. rewrite find_in_children_app.
  rewrite (rows_hold_no "table" (Some "list")) by (intros r; split; reflexivity).
  rewrite (fields_hold_no "table" (Some "list")) by (intros kv; split; reflexivity).
  reflexivity.
Qed.

(** The tree that [table.decompose()] leaves, and the lists found in it. *)
Lemma rendered_page_without_table rows kvs :
  remove_at [0; 0; 0] (rendered_page rows kvs) = page [info_list (map rendered_field kvs)].
Proof. reflexivity. Qed.

Lemma lists_of_rendered_page kvs :
  find_all_at "ul" (Some "nodot") (page [info_list (map rendered_field kvs)])
  = [([0; 0; 0], info_list (map rendered_field kvs))].
Proof.
  rewrite find_all_at_page by reflexivity.
  cbn [find_in_children]. unfold info_list at 1 3.
  rewrite !find_all_at_Tag.
  change (is_tag "ul" (Some "nodot") (Tag "ul" ∅ ["nodot"] (map rendered_field kvs)))
    with true.
  cbn [find_in_children].
  rewrite (fields_hold_no "ul" (Some "nodot")) by (intros kv; split; reflexivity).
  reflexivity.
Qed.

Lemma header_of_file_table (nodes : list node) :
  exists others, find_all "th" (file_table nodes) = el "th" [text "File"] :: others.
Proof.
  unfold find_all, file_table. rewrite find_all_at_Tag. cbn [find_in_children].
  change (is_tag "th" None header_row) with false.
  change (find_all_at "th" None header_row)
    with [([0], el "th" [text "File"]); ([1], el "th" [text "Type"])].
  cbn [app map snd]. eauto.
Qed.

Lemma rows_of_file_table (rows : list (string * string * string)) :
  slice_1_m1 (find_all_at "tr" None (file_table (map rendered_row rows)))
  = positions 1 (map rendered_row rows).
Proof.
  unfold file_table. rewrite find_all_at_Tag. cbn [find_in_children].
  change (is_tag "tr" None header_row) with true.
  change (find_all_at "tr" None header_row) with (@nil (path * node)).
  rewrite find_in_children_app.
  rewrite (find_in_children_all "tr" None (map rendered_row rows))
    by (apply Forall_map_all; intros r; split; reflexivity).
  cbn [find_in_children map app].
  change (is_tag "tr" None summary_row) with true.
  change (find_all_at "tr" None summary_row) with (@nil (path * node)).
  cbn [map app]. apply slice_1_m1_middle.
Qed.

Lemma walk_table_rendered rows kvs (data : PackageDetail) :
  Forall (fun r => hash_free (fst (fst r)) /\ hash_free (snd (fst r))) rows ->
  walk_table (rendered_page rows kvs) data
  = (Ok (Some [0; 0; 0]),
     {| files := files data ++ map rendered_file rows; info := info data |}).
Proof.
  intros Hrows. unfold walk_table.
  rewrite tables_of_rendered_page. cbn [slice_m1 last].
  destruct (header_of_file_table (map rendered_row rows)) as [others Hth].
  unfold bind, lift. rewrite Hth. unfold index. cbn [lookup list_lookup].
  change (contains_in "File" (tag_string (el "th" [text "File"]))) with (Ok true).
  cbn [negb]. rewrite rows_of_file_table.
  assert (Hwalk := walk_rendered_rows rows 1 [] data Hrows ltac:(constructor)).
  unfold path in *. rewrite Hwalk. reflexivity.
Qed.

Lemma first_label_of_info_list (kv : string * string) (kvs : list (string * string)) :
  exists others,
    find_all "strong" (info_list (map rendered_field (kv :: kvs)))
    = el "strong" [text (fst kv)] :: others.
Proof.
  unfold find_all, info_list. rewrite find_all_at_Tag. cbn [map find_in_children].
  change (is_tag "strong" None (rendered_field kv)) with false.
  change (find_all_at "strong" None (rendered_field kv))
    with [([0], el "strong" [text (fst kv)])].
  cbn [app map snd]. eauto.
Qed.

Lemma walk_info_rendered rows kv kvs (data : PackageDetail) :
  contains "Downloads (All Versions):" (fst kv) = false ->
  Forall (fun kv => field_label (fst kv)) (kv :: kvs) ->
  walk_info (rendered_page rows (kv :: kvs)) (Some [0; 0; 0]) data
  = (Ok tt, fold_left (fun d kv => set_field (fst kv) (Some (snd kv)) d) (kv :: kvs) data).
Proof.
  intros Hfirst Hlabels. unfold walk_info.
  rewrite rendered_page_without_table, lists_of_rendered_page. cbn [fst snd map].
  destruct (first_label_of_info_list kv kvs) as [others Hstrong].
  cbn [map] in Hstrong.
  unfold bind, lift. rewrite Hstrong. unfold index. cbn [lookup list_lookup].
  change (tag_string (el "strong" [text (fst kv)])) with (Some (fst kv)).
  cbn [contains_in]. rewrite Hfirst.
  exact (walk_rendered_fields (kv :: kvs) data Hlabels).
Qed.

Lemma walk_info_no_item rows (data : PackageDetail) :
  walk_info (rendered_page rows []) (Some [0; 0; 0]) data = (Raise IndexError, data).
Proof.
  unfold walk_info.
  rewrite rendered_page_without_table, lists_of_rendered_page. cbn [fst snd map].
  reflexivity.
Qed.

(** X9.  Round trip of the parser.  A page made of a file table (header
    row, one row per file with the link [url#md5=hash] and the release type,
    summary row) and of a list of labelled values parses to exactly these
    files, in order, with the url and the md5 taken apart at the [#], and to
    exactly these fields, a label met again replacing its value.  The labels
    are not empty and not [Categories], and the first one does not announce
    the downloads list. *)
Theorem rendered_page_round_trip (rows : list (string * string * string))
        (kv : string * string) (kvs : list (string * string)) :
  Forall (fun r => hash_free (fst (fst r)) /\ hash_free (snd (fst r))) rows ->
  Forall (fun kv => field_label (fst kv)) (kv :: kvs) ->
  contains "Downloads (All Versions):" (fst kv) = false ->
  parse_package_page (rendered_page rows (kv :: kvs))
  = {| files := map rendered_file rows;
       info := {| info_fields :=
                    fold_left (fun m kv => <[fst kv := Some (snd kv)]> m) (kv :: kvs) ∅;
                  info_categories := None |} |}.
Proof.
  intros Hrows Hlabels Hfirst. unfold parse_package_page, walk, bind.
  rewrite (walk_table_rendered rows (kv :: kvs) empty_detail Hrows).
  rewrite (walk_info_rendered rows kv kvs _ Hfirst Hlabels).
  rewrite fold_set_field. reflexivity.
Qed.

Lemma rendered_page_round_trip_witness :
  parse_package_page
    (rendered_page [ ("http://host/foo-1.0.tar.gz", "0123", source_marker);
                     ("http://host/foo-1.0.whl", "abcd", "Python Wheel") ]
                   [ ("Home Page:", "http://foo.example"); ("Author:", "A. N. Other") ])
  = {| files := [ rendered_file ("http://host/foo-1.0.tar.gz", "0123", source_marker);
                  rendered_file ("http://host/foo-1.0.whl", "abcd", "Python Wheel") ];
       info := {| info_fields := {[ "Home Page:" := Some "http://foo.example";
                                    "Author:" := Some "A. N. Other" ]};
                  info_categories := None |} |}.
Proof.
  rewrite (rendered_page_round_trip
             [ ("http://host/foo-1.0.tar.gz", "0123", source_marker);
               ("http://host/foo-1.0.whl", "abcd", "Python Wheel") ]
             ("Home Page:", "http://foo.example") [ ("Author:", "A. N. Other") ]).
  - vm_compute. reflexivity.
  - repeat constructor; reflexivity.
  - repeat constructor; discriminate.
  - reflexivity.
Defined.

(** X10.  One malformed part spoils the page.  When the info list of a page
    holds no labelled item, reading its first label raises [IndexError], and
    the files already read from a well-formed table are thrown away with the
    rest: the page parses to the empty record. *)
Theorem empty_info_list_discards_files (rows : list (string * string * string)) :
  Forall (fun r => hash_free (fst (fst r)) /\ hash_free (snd (fst r))) rows ->
  walk (rendered_page rows []) empty_detail
  = (Raise IndexError, {| files := map rendered_file rows; info := empty_info |}) /\
  parse_package_page (rendered_page rows []) = empty_detail.
Proof.
  intros Hrows.
  assert (Hwalk : walk (rendered_page rows []) empty_detail
                  = (Raise IndexError,
                     {| files := map rendered_file rows; info := empty_info |})).
  { unfold walk, bind. rewrite (walk_table_rendered rows [] empty_detail Hrows).
    rewrite walk_info_no_item. reflexivity. }
  split; [exact Hwalk|]. unfold parse_package_page. now rewrite Hwalk.
Qed.

Lemma empty_info_list_discards_files_witness :
  parse_package_page
    (rendered_page [ ("http://host/foo-1.0.tar.gz", "0123", source_marker) ] [])
  = empty_detail.
Proof.
  apply (empty_info_list_discards_files
           [ ("http://host/foo-1.0.tar.gz", "0123", source_marker) ]).
  repeat constructor; reflexivity.
Defined.

(** X11.  A list item with a label but neither a value nor a link is
    decomposed while the list is being iterated, so the iteration passes over
    the entry that follows it: whatever that entry is, it is not read. *)
Theorem shapeless_item_hides_the_next (entry next : node) (rest : list node)
        (strong : node) (others : list node) (label : string) (data : PackageDetail) :
  is_tag "li" None entry = true ->
  find_all "strong" entry = strong :: others ->
  tag_string strong = Some label ->
  field_label label ->
  find_all "span" entry = [] ->
  find_all "a" entry = [] ->
  walk_entries (entry :: next :: rest) data = walk_entries rest data /\
  walk_entries [entry] data = (Ok tt, data).
Proof.
  intros Hli Hstrong Hlabel [Hne Hcat] Hspan Ha.
  assert (Hstep : forall l,
             walk_entries (entry :: l) data
             = match l with [] => (Ok tt, data) | _ :: l' => walk_entries l' data end).
  { intros l. cbn [walk_entries]. rewrite Hli, Hstrong, Hspan, Ha. cbn [negb].
    unfold bind, lift, index. cbn [lookup list_lookup]. rewrite Hlabel.
    destruct label as [|c label]; [congruence|].
    cbn [truthy negb default from_option id].
    destruct (String.eqb_spec (String c label) "Categories") as [E|_]; [congruence|].
    destruct l; reflexivity. }
  split; [apply (Hstep (next :: rest))|apply (Hstep [])].
Qed.

Lemma shapeless_item_hides_the_next_witness :
  walk_entries [ el "li" [el "strong" [text "Keywords:"]];
                 field_li "Home Page:" "http://foo.example" ] empty_detail
  = walk_entries [] empty_detail.
Proof.
  apply (shapeless_item_hides_the_next
           (el "li" [el "strong" [text "Keywords:"]])
           (field_li "Home Page:" "http://foo.example") []
           (el "strong" [text "Keywords:"]) [] "Keywords:" empty_detail);
    try reflexivity.
  split; discriminate.
Defined.


(** ** The archive loader, beyond the claims *)

Lemma list_ascii_of_append (a b : string) :
  list_ascii_of_string (a +:+ b) = list_ascii_of_string a ++ list_ascii_of_string b.
Proof.
  induction a as [|c a IH]; [reflexivity|].
  change (c :: list_ascii_of_string (a +:+ b)
          = c :: (list_ascii_of_string a ++ list_ascii_of_string b)).
  now rewrite IH.
Qed.

Lemma rfind_absent (c : ascii) (l : list ascii) :
  forallb (fun x => negb (Ascii.eqb x c)) l = true -> rfind c l = None.
Proof.
  induction l as [|x l IH]; [reflexivity|]. cbn [forallb rfind].
  intros H. apply andb_prop in H as [Hx Hl]. rewrite (IH Hl).
  apply negb_true_iff in Hx. now rewrite Hx.
Qed.

Lemma rfind_last (c : ascii) (l1 l2 : list ascii) :
  forallb (fun x => negb (Ascii.eqb x c)) l2 = true ->
  rfind c (l1 ++ c :: l2) = Some (length l1).
Proof.
  intros H. induction l1 as [|x l1 IH].
  - cbn [app rfind length]. rewrite (rfind_absent c l2 H). now rewrite Ascii.eqb_refl.
  - cbn [app rfind length]. now rewrite IH.
Qed.

Lemma all_chars_forallb cls (s : string) :
  all_chars cls s = forallb cls (list_ascii_of_string s).
Proof. induction s as [|c s IH]; [reflexivity|]. cbn. now rewrite IH. Qed.

Lemma drop_past_separator {A : Type} (l1 l2 : list A) (x : A) :
  drop (S (length l1)) (l1 ++ x :: l2) = l2.
Proof. induction l1 as [|y l1 IH]; [reflexivity|exact IH]. Qed.

(** The name under which a downloaded file is kept. *)
Lemma basename_join (dir name : string) :
  slash_free name -> basename (dir +:+ "/" +:+ name) = name.
Proof.
  unfold slash_free, basename. intros H.
  change (dir +:+ "/" +:+ name) with (dir +:+ String "/" name).
  rewrite list_ascii_of_append.
  change (list_ascii_of_string (String "/" name)) with ("/"%char :: list_ascii_of_string name).
  rewrite rfind_last by (now rewrite <- all_chars_forallb).
  rewrite drop_past_separator. apply string_of_list_ascii_of_string.
Qed.

Lemma load_plain_file {D : Type}
      (download_dir unpack_dir : TemporaryDirectory)
      (url_retrieve : string -> result file) (xz_d : string -> option string)
      (uri output content : string) (parser : string -> D) :
  url_retrieve uri = Ok (Plain content) ->
  is_prefix "." output = false ->
  load_remote_file download_dir unpack_dir url_retrieve xz_d uri parser output
  = load_one unpack_dir xz_d uri parser
             (tmp_name download_dir +:+ "/" +:+ output, Plain content) ∅.
Proof.
  intros Hget Hvisible. unfold load_remote_file. rewrite Hget. cbn [rbind].
  destruct (os_path_join (PyStr (tmp_name download_dir)) "*") as [pattern|e] eqn:Hjoin;
    [|discriminate Hjoin].
  cbn [rbind]. cbv zeta.
  rewrite (glob_single _ _ _ Hvisible pattern Hjoin). cbn [load_all].
  destruct (load_one _ _ _ _ _ _); reflexivity.
Qed.

(** X12.  A downloaded file that is not an archive is parsed and returned
    under its own name.  When its extension is [.xz] or [.lzma] it is
    decompressed first and returned under the name without the extension; if
    the decompression fails, [DownloadingError] is raised with the file and
    the URI in its message. *)
Theorem plain_download_is_parsed {D : Type}
        (download_dir unpack_dir : TemporaryDirectory)
        (url_retrieve : string -> result file) (xz_d : string -> option string)
        (uri output content : string) (parser : string -> D) :
  url_retrieve uri = Ok (Plain content) ->
  is_prefix "." output = false ->
  slash_free output ->
  let f_name := tmp_name download_dir +:+ "/" +:+ output in
  let extention := snd (splitext f_name) in
  let load := load_remote_file download_dir unpack_dir url_retrieve xz_d uri parser output in
  (extention <> ".xz" -> extention <> ".lzma" ->
   load = Ok {[ output := parser content ]}) /\
  (extention = ".xz" \/ extention = ".lzma" ->
   forall content', xz_d content = Some content' ->
   load = Ok {[ basename (fst (splitext f_name)) := parser content' ]}) /\
  (extention = ".xz" \/ extention = ".lzma" ->
   xz_d content = None ->
   load = Raise (DownloadingError ("xz failed: " +:+ f_name +:+ " from " +:+ uri))).
Proof.
  intros Hget Hvisible Hslash f_name extention load. subst load.
  rewrite (load_plain_file _ _ _ _ _ _ _ _ Hget Hvisible). fold f_name.
  unfold load_one. cbn [fst snd]. subst extention.
  destruct (splitext f_name) as [name ext]. cbn [fst snd].
  split; [|split].
  - intros Hxz Hlzma.
    apply String.eqb_neq in Hxz, Hlzma. rewrite Hxz, Hlzma. cbn [orb].
    unfold update, _call_parser. subst f_name. rewrite basename_join by exact Hslash.
    now rewrite (right_id_L ∅ (∪)).
  - intros Hext content' Hxz.
    assert (Hor : String.eqb ext ".xz" || String.eqb ext ".lzma" = true).
    { destruct Hext as [-> | ->]; reflexivity. }
    rewrite Hor, Hxz. unfold update, _call_parser. now rewrite (right_id_L ∅ (∪)).
  - intros Hext Hxz.
    assert (Hor : String.eqb ext ".xz" || String.eqb ext ".lzma" = true).
    { destruct Hext as [-> | ->]; reflexivity. }
    now rewrite Hor, Hxz.
Qed.

Lemma plain_download_is_parsed_witness :
  load_remote_file sample_download_dir sample_unpack_dir plain_retrieve unxz
                   "http://host/pypi/foo/1.0" sample_parser "foo-1.0"
    = Ok {[ "foo-1.0" := sample_parser "<html></html>" ]} /\
  load_remote_file sample_download_dir sample_unpack_dir xz_retrieve unxz
                   "http://host/simple" sample_parser "packages.xz"
    = Ok {[ "packages" := sample_parser "<html></html>" ]}.
Proof.
  split.
  - apply (plain_download_is_parsed sample_download_dir sample_unpack_dir plain_retrieve
             unxz "http://host/pypi/foo/1.0" "foo-1.0" "<html></html>" sample_parser);
      try reflexivity; vm_compute; discriminate.
  - apply (proj1 (proj2
             (plain_download_is_parsed sample_download_dir sample_unpack_dir xz_retrieve
                unxz "http://host/simple" "packages.xz" "XZ__<html></html>" sample_parser
                eq_refl eq_refl eq_refl))).
    + left. vm_compute. reflexivity.
    + reflexivity.
Defined.

(** X13.  [glob] does not list names that start with a dot: a download kept
    under such a file name (a name without a slash, other than the
    directories [.] and [..]) is never looked at, archive or not, and
    [load_remote_file] returns the empty dictionary. *)
Theorem hidden_download_loads_nothing {D : Type}
        (download_dir unpack_dir : TemporaryDirectory)
        (url_retrieve : string -> result file) (xz_d : string -> option string)
        (uri output : string) (downloaded : file) (parser : string -> D) :
  url_retrieve uri = Ok downloaded ->
  is_prefix "." output = true ->
  slash_free output ->
  output <> "." -> output <> ".." ->
  load_remote_file download_dir unpack_dir url_retrieve xz_d uri parser output = Ok ∅.
Proof.
  intros Hget Hhidden _ _ _. unfold load_remote_file. rewrite Hget. cbn [rbind].
  destruct (os_path_join (PyStr (tmp_name download_dir)) "*") as [pattern|e] eqn:Hjoin;
    [|discriminate Hjoin].
  cbn [rbind]. cbv zeta. unfold glob. cbn [flat_map fst snd].
  rewrite Hjoin, String.eqb_refl. cbn [List.filter fst snd]. rewrite Hhidden.
  reflexivity.
Qed.

Lemma hidden_download_loads_nothing_witness :
  load_remote_file sample_download_dir sample_unpack_dir sample_retrieve sample_xz
                   "http://host/pypi/.foo/1.0" sample_parser ".foo-1.0"
    = Ok ∅.
Proof.
  apply (hidden_download_loads_nothing sample_download_dir sample_unpack_dir
           sample_retrieve sample_xz "http://host/pypi/.foo/1.0" ".foo-1.0"
           (TarFile "ustar" [("foo-1.0", "<html></html>")]));
    try reflexivity; discriminate.
Defined.

(** ** The index parser *)

Lemma triple_eta {A B C : Type} (x : A * B * C) : x = (fst (fst x), snd (fst x), snd x).
Proof. now destruct x as [[a b] c]. Qed.

Lemma queued_app (t u : list index_event) : queued (t ++ u) = queued t ++ queued u.
Proof. unfold queued. apply flat_map_app. Qed.

Section IndexFacts.

Variable releases : nat -> string -> result (list string).
Variable repo_uri : string.

Lemma add_version_in_step (package : string) (st : index_state) (version : string) :
  in_step repo_uri st -> in_step repo_uri (add_version repo_uri package st version).
Proof.
  intros [Hidx Hjobs]. unfold add_version. split; cbn [entries said].
  - intros p v d. rewrite queued_app. cbn [queued flat_map app].
    destruct (decide ((package, version) = (p, v))) as [[= <- <-]|Hne].
    + rewrite lookup_insert_eq. intros [= <-]. split; [reflexivity|].
      apply in_or_app. right. now left.
    + rewrite lookup_insert_ne by exact Hne. intros H.
      destruct (Hidx p v d H) as [Hd Hin]. split; [exact Hd|].
      apply in_or_app. now left.
  - intros j. rewrite queued_app. cbn [queued flat_map app]. intros Hin.
    apply in_app_or in Hin as [Hin|[<-|[]]].
    + destruct (Hjobs j Hin) as (p & v & -> & Hpv). exists p, v. split; [reflexivity|].
      destruct (decide ((package, version) = (p, v))) as [[= <- <-]|Hne].
      * apply lookup_insert_eq.
      * now rewrite lookup_insert_ne by exact Hne.
    + exists package, version. split; [reflexivity|apply lookup_insert_eq].
Qed.

Lemma add_versions_in_step (package : string) (versions : list string) :
  forall st, in_step repo_uri st -> in_step repo_uri (fold_left (add_version repo_uri package) versions st).
Proof.
  induction versions as [|v vs IH]; intros st H; [exact H|].
  cbn [fold_left]. apply IH. now apply add_version_in_step.
Qed.

Lemma walk_anchors_in_step (anchors : list (path * node)) :
  forall decomposed st,
    in_step repo_uri st -> in_step repo_uri (walk_anchors releases repo_uri decomposed anchors st).
Proof.
  induction anchors as [|[p entry] rest IH]; intros decomposed st H; [exact H|].
  cbn [walk_anchors]. apply IH. apply add_versions_in_step. exact H.
Qed.



End IndexFacts.

(** The loop that empties the result queue. *)
Lemma empty_queue_data (first : bool) (results : list (gmap string PackageDetail)) :
  forall data t,
    fst (empty_queue first results data t)
    = fold_left (fun data got => update data (Page <$> got)) results data.
Proof.
  induction results as [|got rest IH]; intros data t; [reflexivity|].
  cbn [empty_queue fold_left]. apply IH.
Qed.

Lemma empty_queue_trace (results : list (gmap string PackageDetail)) :
  forall data t,
    exists lines,
      snd (empty_queue false results data t) = t ++ lines /\
      queued lines = [] /\
      Forall (fun e => forall d, e <> Dumped d) lines /\
      length lines = 2 * length results.
Proof.
  induction results as [|got rest IH]; intros data t.
  - exists []. cbn. rewrite app_nil_r. auto.
  - cbn [empty_queue].
    match goal with |- context [empty_queue false rest ?d ?u] =>
      destruct (IH d u) as (lines & Hrun & Hq & Hd & Hlen) end.
    eexists (_ :: _ :: lines). rewrite Hrun, <- app_assoc. split; [reflexivity|].
    split; [exact Hq|]. split.
    + constructor; [discriminate|]. constructor; [discriminate|exact Hd].
    + cbn [length]. lia.
Qed.

Lemma drain_lookup_absent (results : list (gmap string PackageDetail)) (k : string) :
  Forall (fun got => got !! k = None) results ->
  forall data : gmap string stored,
    fold_left (fun data got => update data (Page <$> got)) results data !! k = data !! k.
Proof.
  induction 1 as [|got rest Hgot _ IH]; intros data; [reflexivity|].
  cbn [fold_left]. rewrite IH. unfold update.
  rewrite lookup_union_r; [reflexivity|]. now rewrite lookup_fmap, Hgot.
Qed.

Lemma drain_lookup_last (rs1 rs2 : list (gmap string PackageDetail))
      (got : gmap string PackageDetail) (k : string) (detail : PackageDetail) :
  got !! k = Some detail ->
  Forall (fun later => later !! k = None) rs2 ->
  forall data : gmap string stored,
    fold_left (fun data got => update data (Page <$> got)) (rs1 ++ got :: rs2) data !! k
    = Some (Page detail).
Proof.
  intros Hgot Hlater data. rewrite fold_left_app. cbn [fold_left].
  rewrite (drain_lookup_absent rs2 k Hlater). unfold update.
  apply lookup_union_Some_l. now rewrite lookup_fmap, Hgot.
Qed.

(** A page found after the queue is emptied was handed out by the queue. *)
Lemma drain_lookup_page (results : list (gmap string PackageDetail)) (k : string)
      (detail : PackageDetail) :
  forall data : gmap string stored,
    fold_left (fun data got => update data (Page <$> got)) results data !! k
    = Some (Page detail) ->
    data !! k = Some (Page detail) \/
    exists got, In got results /\ got !! k = Some detail.
Proof.
  induction results as [|got rest IH]; intros data H; [now left|].
  cbn [fold_left] in H. destruct (IH _ H) as [Hd|(got' & Hin & Hk)].
  - unfold update in Hd. apply lookup_union_Some_raw in Hd as [Hd|[_ Hd]].
    + rewrite lookup_fmap in Hd. destruct (got !! k) as [d|] eqn:E; [|discriminate].
      injection Hd as ->. right. exists got. split; [now left|exact E].
    + now left.
  - right. exists got'. split; [now right|exact Hk].
Qed.

Lemma drain_lookup_index (results : list (gmap string PackageDetail)) (k : string)
      (index : gmap (string * string) string) :
  forall data : gmap string stored,
    fold_left (fun data got => update data (Page <$> got)) results data !! k
    = Some (Index index) ->
    data !! k = Some (Index index).
Proof.
  induction results as [|got rest IH]; intros data H; [exact H|].
  cbn [fold_left] in H. apply IH in H. unfold update in H.
  apply lookup_union_Some_raw in H as [H|[_ H]]; [|exact H].
  rewrite lookup_fmap in H. destruct (got !! k); discriminate.
Qed.

Lemma read_index_in_step releases repo_uri soup :
  in_step repo_uri (read_index releases repo_uri soup).
Proof.
  unfold read_index. destruct (head _) as [[p packages]|].
  - apply walk_anchors_in_step. split; cbn.
    + intros p0 v d H. rewrite lookup_empty in H. discriminate.
    + intros j [].
  - split; cbn.
    + intros p0 v d H. rewrite lookup_empty in H. discriminate.
    + intros j [].
Qed.

Lemma parse_data_run releases repo_uri (first : bool) (soup : node)
      (results : list (gmap string PackageDetail)) :
  let st := read_index releases repo_uri soup in
  let data :=
    fold_left (fun data got => update data (Page <$> got)) results
              ({[ "index" := Index (entries st) ]} : gmap string stored) in
  exists lines,
    parse_data releases repo_uri first soup results
    = (data, false,
       said st ++ [Joined] ++ (if first then [Slept 5] else []) ++ lines ++ [Dumped data]) /\
    queued lines = [] /\
    Forall (fun e => forall d, e <> Dumped d) lines /\
    length lines = 2 * length results.
Proof.
  intros st data. unfold parse_data. fold st.
  set (data0 := ({[ "index" := Index (entries st) ]} : gmap string stored)).
  destruct first.
  - destruct (empty_queue_trace results data0 ((said st ++ [Joined]) ++ [Slept 5]))
      as (lines & Htr & Hq & Hd & Hlen).
    assert (Hdata := empty_queue_data false results data0 ((said st ++ [Joined]) ++ [Slept 5])).
    destruct (empty_queue false results data0 _) as [d t]. cbn [fst snd] in *. subst d t.
    exists lines. rewrite <- !app_assoc. auto.
  - destruct (empty_queue_trace results data0 (said st ++ [Joined]))
      as (lines & Htr & Hq & Hd & Hlen).
    assert (Hdata := empty_queue_data false results data0 (said st ++ [Joined])).
    destruct (empty_queue false results data0 _) as [d t]. cbn [fst snd] in *. subst d t.
    exists lines. rewrite <- !app_assoc. auto.
Qed.

Lemma append_inv_head (s a b : string) : s +:+ a = s +:+ b -> a = b.
Proof.
  induction s as [|c s IH]; [auto|].
  change (String c (s +:+ a) = String c (s +:+ b) -> a = b).
  intros [= H]. auto.
Qed.

(** Two separators tell where the name ends. *)
Lemma append_two_separators (c1 c2 : ascii) (p p' v v' : string) :
  c1 <> c2 ->
  p +:+ String c1 v = p' +:+ String c1 v' ->
  p +:+ String c2 v = p' +:+ String c2 v' ->
  p = p' /\ v = v'.
Proof.
  intros Hne. revert p'. induction p as [|a p IH]; intros [|b p'].
  - change (String c1 v = String c1 v' -> String c2 v = String c2 v' -> "" = "" /\ v = v').
    intros [= ->] _. auto.
  - change (String c1 v = String b (p' +:+ String c1 v') ->
            String c2 v = String b (p' +:+ String c2 v') -> "" = String b p' /\ v = v').
    intros [= -> _] [= E _]. congruence.
  - change (String a (p +:+ String c1 v) = String c1 v' ->
            String a (p +:+ String c2 v) = String c2 v' -> String a p = "" /\ v = v').
    intros [= -> _] [= E _]. congruence.
  - change (String a (p +:+ String c1 v) = String b (p' +:+ String c1 v') ->
            String a (p +:+ String c2 v) = String b (p' +:+ String c2 v') ->
            String a p = String b p' /\ v = v').
    intros [= -> H1] [= H2]. destruct (IH p' H1 H2) as [-> ->]. auto.
Qed.

Lemma pkg_job_uri (repo_uri p v : string) :
  pkg_job repo_uri p v !! "uri" = Some (Str (repo_uri +:+ "pypi/" +:+ p +:+ "/" +:+ v)).
Proof. unfold pkg_job. apply lookup_insert_eq. Qed.

Lemma pkg_job_output (repo_uri p v : string) :
  pkg_job repo_uri p v !! "output" = Some (Str (p +:+ "-" +:+ v)).
Proof.
  unfold pkg_job. rewrite !lookup_insert_ne by discriminate. apply lookup_insert_eq.
Qed.

Lemma contains_dash (p v : string) : contains "-" (p +:+ "-" +:+ v) = true.
Proof.
  induction p as [|c p IH]; [reflexivity|].
  change (contains "-" (String c (p +:+ "-" +:+ v)) = true).
  cbn [contains]. rewrite IH. apply orb_true_r.
Qed.

(** X14.  A job determines its index entry: two entries with the same job
    have the same name and the same version.  No job is filed under the
    name [index].  The output name alone does not determine the entry: the
    entries (p, v-w) and (p-v, w) have different jobs and the same output
    name. *)
Theorem job_identifies_entry (repo_uri : string) :
  (forall p v p' v',
     pkg_job repo_uri p v = pkg_job repo_uri p' v' -> p = p' /\ v = v') /\
  (forall p v, output_of (pkg_job repo_uri p v) <> Some "index") /\
  (forall p v w,
     pkg_job repo_uri p (v +:+ "-" +:+ w) <> pkg_job repo_uri (p +:+ "-" +:+ v) w /\
     output_of (pkg_job repo_uri p (v +:+ "-" +:+ w))
     = output_of (pkg_job repo_uri (p +:+ "-" +:+ v) w)).
Proof.
  assert (Hinj : forall p v p' v',
             pkg_job repo_uri p v = pkg_job repo_uri p' v' -> p = p' /\ v = v').
  { intros p v p' v' H.
    assert (Huri := f_equal (fun job => job !! "uri") H).
    assert (Hout := f_equal (fun job => job !! "output") H).
    cbv beta in Huri, Hout. rewrite !pkg_job_uri in Huri. rewrite !pkg_job_output in Hout.
    injection Huri as Huri. injection Hout as Hout.
    apply append_inv_head in Huri. apply (append_inv_head "pypi/") in Huri.
    apply (append_two_separators "/" "-"); [discriminate|exact Huri|exact Hout]. }
  split; [exact Hinj|]. split.
  - intros p v. unfold output_of. rewrite pkg_job_output. intros [= H].
    assert (Hc := contains_dash p v). rewrite H in Hc. discriminate Hc.
  - intros p v w. split.
    + intros H. apply Hinj in H as [H _].
      assert (Hlen := f_equal String.length H). rewrite length_append in Hlen.
      change (String.length ("-" +:+ v)) with (S (String.length v)) in Hlen. lia.
    + unfold output_of. rewrite !pkg_job_output. now rewrite <- !append_assoc.
Qed.

Lemma job_identifies_entry_witness :
  ("foo" = "foo" /\ "1.0" = "1.0") /\
  pkg_job "http://host/" "foo" "1.0-rc1" <> pkg_job "http://host/" "foo-1.0" "rc1" /\
  output_of (pkg_job "http://host/" "foo" "1.0-rc1")
  = output_of (pkg_job "http://host/" "foo-1.0" "rc1").
Proof.
  split.
  - exact (proj1 (job_identifies_entry "http://host/") "foo" "1.0" "foo" "1.0" eq_refl).
  - exact (proj2 (proj2 (job_identifies_entry "http://host/")) "foo" "1.0" "rc1").
Defined.

(** X15.  [parse_data] keeps the index and the task queue in step.  When no
    result is filed under the name [index], the data returned has its index;
    every job is put on the queue before the one [join], and none after it;
    every entry of the index has an empty description and its job on the
    queue, and every job on the queue belongs to an entry of the index. *)
Theorem index_and_jobs_agree (releases : nat -> string -> result (list string))
        (repo_uri : string) (first : bool) (soup : node)
        (results : list (gmap string PackageDetail)) data first' t :
  parse_data releases repo_uri first soup results = (data, first', t) ->
  Forall (fun got => got !! "index" = None) results ->
  exists index before after,
    data !! "index" = Some (Index index) /\
    t = before ++ [Joined] ++ after /\
    queued after = [] /\
    (forall p v d, index !! (p, v) = Some d ->
                   d = EmptyString /\ In (pkg_job repo_uri p v) (queued before)) /\
    (forall j, In j (queued before) ->
               exists p v, j = pkg_job repo_uri p v /\ index !! (p, v) = Some EmptyString).
Proof.
  intros Hrun Hresults.
  destruct (parse_data_run releases repo_uri first soup results)
    as (lines & Hrun' & Hq & _ & _).
  rewrite Hrun in Hrun'. injection Hrun' as -> _ ->.
  destruct (read_index_in_step releases repo_uri soup) as [Hidx Hjobs].
  exists (entries (read_index releases repo_uri soup)),
         (said (read_index releases repo_uri soup)).
  eexists. split; [|split; [reflexivity|split; [|split; [exact Hidx|exact Hjobs]]]].
  - rewrite (drain_lookup_absent results "index" Hresults). apply lookup_singleton_eq.
  - rewrite !queued_app, Hq. now destruct first.
Qed.

Lemma index_and_jobs_agree_witness :
  In (pkg_job "http://host/" "foo" "1.1") (queued (snd sample_parse)).
Proof.
  assert (Hentries : fst (fst sample_parse) !! "index" = Some (Index sample_entries))
    by (vm_compute; reflexivity).
  destruct (index_and_jobs_agree sample_releases "http://host/" true
              (index_page ["foo"; "bar"; "baz"]) sample_results
              (fst (fst sample_parse)) (snd (fst sample_parse)) (snd sample_parse)
              (triple_eta sample_parse))
    as (index & before & after & Hindex & Ht & _ & Hidx & _).
  - repeat constructor.
  - rewrite Hentries in Hindex. injection Hindex as <-.
    rewrite Ht, queued_app. apply in_or_app. left.
    apply (Hidx "foo" "1.1" EmptyString). reflexivity.
Defined.




(** X17.  The results are filed with [dict.update], in the order in which
    the queue hands them out: when two results carry the same name the one
    handed out last is kept, and [process_data] reads that one.  This holds
    for every name, [index] included. *)
Theorem later_results_replace_earlier (releases : nat -> string -> result (list string))
        (repo_uri : string) (first : bool) (soup : node)
        (earlier later : list (gmap string PackageDetail))
        (got : gmap string PackageDetail) (k : string) (detail : PackageDetail)
        data first' t :
  parse_data releases repo_uri first soup (earlier ++ got :: later) = (data, first', t) ->
  got !! k = Some detail ->
  Forall (fun next => next !! k = None) later ->
  data !! k = Some (Page detail) /\ pages data !! k = Some detail.
Proof.
  intros Hrun Hgot Hlater.
  destruct (parse_data_run releases repo_uri first soup (earlier ++ got :: later))
    as (lines & Hrun' & _).
  rewrite Hrun in Hrun'. injection Hrun' as -> _ _.
  assert (H := drain_lookup_last earlier later got k detail Hgot Hlater
                 {[ "index" := Index (entries (read_index releases repo_uri soup)) ]}).
  split; [exact H|]. unfold pages. rewrite lookup_omap, H. reflexivity.
Qed.

Lemma later_results_replace_earlier_witness :
  pages (fst (fst (parse_data sample_releases "http://host/" false (index_page ["foo"])
                              repeated_results))) !! "foo-1.0"
  = Some sample_detail.
Proof.
  apply (later_results_replace_earlier sample_releases "http://host/" false
           (index_page ["foo"]) [ {[ "foo-1.0" := wheel_only_detail ]} ] []
           {[ "foo-1.0" := sample_detail ]} "foo-1.0" sample_detail _ _ _ (triple_eta _)).
  - reflexivity.
  - constructor.
Defined.

Lemma pages_lookup (data : gmap string stored) (k : string) (detail : PackageDetail) :
  pages data !! k = Some detail -> data !! k = Some (Page detail).
Proof.
  unfold pages. rewrite lookup_omap. destruct (data !! k) as [[i|d]|]; cbn; congruence.
Qed.

(** X18.  From the index page to the package database: a package that
    [process_data] adds from the data returned by [parse_data] belongs to
    a job that [parse_data] queued, for its name and version; its
    description is empty; and its page is one of the results handed out by
    the queue, filed under name, dash, version, with a file or an info
    entry in it.  [items] is [data["index"].items()] in any order. *)
Theorem added_packages_were_fetched (releases : nat -> string -> result (list string))
        (repo_uri : string) (first : bool) (soup : node)
        (results : list (gmap string PackageDetail))
        (data : gmap string stored) (first' : bool) (t : list index_event)
        (index : gmap (string * string) string)
        (items : list ((string * string) * string))
        (convert : string -> string -> string) (now : datetime)
        (r : result unit) (calls : list call) (p : Package) (e : ebuild_data) :
  parse_data releases repo_uri first soup results = (data, first', t) ->
  data !! "index" = Some (Index index) ->
  (forall entry, In entry items -> index !! fst entry = Some (snd entry)) ->
  process_data convert now items (pages data) [] = (r, calls) ->
  In (p, e) (added calls) ->
  In (pkg_job repo_uri (realname e) (realversion e)) (queued t) /\
  description e = EmptyString /\
  exists got detail,
    In got results /\
    got !! (realname e +:+ "-" +:+ realversion e) = Some detail /\
    (files detail <> [] \/ info_nonempty (info detail) = true).
Proof.
  intros Hrun Hindex Hitems Hprocess Hadded.
  destruct (parse_data_run releases repo_uri first soup results)
    as (lines & Hrun' & _).
  rewrite Hrun in Hrun'. injection Hrun' as -> _ ->.
  apply drain_lookup_index in Hindex. rewrite lookup_singleton_eq in Hindex.
  injection Hindex as <-.
  destruct (read_index_in_step releases repo_uri soup) as [Hidx _].
  destruct (added_of_process_data _ _ _ _ _ _ _ _ Hprocess Hadded)
    as ([[package version] text] & Hentry & pkg_data & homepage & raw & pyv
        & Hpkg & _ & Hsrc & -> & ->).
  cbn [fst snd realname realversion description make_ebuild] in *.
  destruct (Hidx package version text (Hitems _ Hentry)) as [-> Hjob].
  split; [|split; [reflexivity|]].
  - rewrite queued_app. apply in_or_app. now left.
  - apply pages_lookup, drain_lookup_page in Hpkg as [Hpkg|(got & Hin & Hgot)].
    + exfalso. destruct (decide ("index" = package +:+ "-" +:+ version)) as [Heq|Hne].
      * rewrite <- Heq, lookup_singleton_eq in Hpkg. discriminate.
      * rewrite lookup_singleton_ne in Hpkg by exact Hne. discriminate.
    + exists got, pkg_data. split; [exact Hin|]. split; [exact Hgot|].
      destruct (files pkg_data) as [|f fs] eqn:Hf; [|left; discriminate].
      destruct (info_nonempty (info pkg_data)) eqn:Hinfo; [now right|].
      exfalso. apply Hsrc. unfold select_source_uri, download_url_of.
      rewrite Hinfo. reflexivity.
Qed.

Lemma added_packages_were_fetched_witness :
  exists p e,
    In (p, e) (added (snd (process_data sample_convert sample_now sample_items
                                        (pages (fst (fst sample_parse))) []))) /\
    In (pkg_job "http://host/" (realname e) (realversion e)) (queued (snd sample_parse)).
Proof.
  assert (Hentries : fst (fst sample_parse) !! "index" = Some (Index sample_entries))
    by (vm_compute; reflexivity).
  assert (Hlen : length (added (snd (process_data sample_convert sample_now sample_items
                                        (pages (fst (fst sample_parse))) []))) = 1)
    by (vm_compute; reflexivity).
  destruct (added (snd (process_data sample_convert sample_now sample_items
                          (pages (fst (fst sample_parse))) []))) as [|[p e] rest] eqn:Hadded;
    [discriminate Hlen|].
  exists p, e. split; [now left|].
  apply (added_packages_were_fetched sample_releases "http://host/" true
           (index_page ["foo"; "bar"; "baz"]) sample_results
           (fst (fst sample_parse)) (snd (fst sample_parse)) (snd sample_parse)
           sample_entries sample_items sample_convert sample_now
           (fst (process_data sample_convert sample_now sample_items
                              (pages (fst (fst sample_parse))) []))
           (snd (process_data sample_convert sample_now sample_items
                              (pages (fst (fst sample_parse))) [])) p e
           (triple_eta sample_parse) Hentries).
  - intros entry [<-|[<-|[<-|[]]]]; reflexivity.
  - now destruct (process_data _ _ _ _ _).
  - rewrite Hadded. now left.
Defined.

(** ** The URI lists *)

Lemma decode_download_uries_map (uries : list uri_entry) :
  decode_download_uries uries = map decode_uri uries.
Proof.
  unfold decode_download_uries.
  assert (H : forall acc, fold_left (fun decoded uri => decoded ++ [decode_uri uri]) uries acc
                          = acc ++ map decode_uri uries).
  { induction uries as [|u us IH]; intros acc; cbn [fold_left map].
    - now rewrite app_nil_r.
    - rewrite IH, <- app_assoc. reflexivity. }
  exact (H []).
Qed.

Lemma set_missing_lookup (key : string) (v : setting) (d : gmap string setting) (k : string) :
  set_missing key v d !! k
  = match d !! k with
    | Some x => Some x
    | None => if String.eqb k key then Some v else None
    end.
Proof.
  unfold set_missing. destruct (String.eqb_spec k key) as [->|Hne].
  - destruct (d !! key) eqn:E; [now rewrite E|]. now rewrite lookup_insert_eq.
  - destruct (d !! key) eqn:E; [now destruct (d !! k)|].
    rewrite lookup_insert_ne by congruence. now destruct (d !! k).
Qed.

Lemma set_missing_present (key : string) (v : setting) (d : gmap string setting) :
  is_Some (d !! key) -> set_missing key v d = d.
Proof. unfold set_missing. now intros [x ->]. Qed.

Lemma decode_uri_complete (uri : uri_entry) : complete (decode_uri uri).
Proof.
  destruct uri as [s|d]; unfold complete, decode_uri.
  - split; [|split]; eexists.
    + rewrite !lookup_insert_ne by discriminate. apply lookup_insert_eq.
    + rewrite lookup_insert_ne by discriminate. apply lookup_insert_eq.
    + apply lookup_insert_eq.
  - rewrite !set_missing_lookup. cbn [String.eqb Ascii.eqb Bool.eqb].
    split; [|split].
    + destruct (d !! "parser"); eauto.
    + destruct (d !! "open_file"); eauto.
    + destruct (d !! "open_mode"); eauto.
Qed.

(** The default that [decode_download_uries] has for a key. *)
Lemma decode_uri_lookup (d : gmap string setting) (k : string) :
  decode_uri (UriDict d) !! k
  = match d !! k with
    | Some v => Some v
    | None =>
        if String.eqb k "parser" then Some (Method "parse_data")
        else if String.eqb k "open_file" then Some (Flag true)
        else if String.eqb k "open_mode" then Some (Str "r")
        else None
    end.
Proof.
  unfold decode_uri. rewrite !set_missing_lookup.
  destruct (d !! k); [reflexivity|].
  destruct (String.eqb_spec k "parser") as [->|_]; [reflexivity|].
  destruct (String.eqb_spec k "open_file") as [->|_]; [reflexivity|].
  reflexivity.
Qed.

(** X19.  [decode_download_uries] keeps the length and the order of the
    list and makes every entry complete.  A string becomes the dictionary of
    its URI with the three defaults: parser [parse_data], [open_file] true,
    [open_mode] ["r"].  A dictionary keeps every value it has, and gets the
    default for each of the three keys it lacks and nothing else; it is not
    given a URI when it has none. *)
Theorem decoded_uries_are_complete (uries : list uri_entry) :
  length (decode_download_uries uries) = length uries /\
  Forall complete (decode_download_uries uries) /\
  (forall i uri,
     uries !! i = Some (UriString uri) ->
     decode_download_uries uries !! i
     = Some (<["open_mode" := Str "r"]>
               (<["open_file" := Flag true]>
                  (<["parser" := Method "parse_data"]> (<["uri" := Str uri]> ∅))))) /\
  (forall i d,
     uries !! i = Some (UriDict d) ->
     exists decuri,
       decode_download_uries uries !! i = Some decuri /\
       (forall k v, d !! k = Some v -> decuri !! k = Some v) /\
       (forall k, d !! k = None ->
                  decuri !! k
                  = if String.eqb k "parser" then Some (Method "parse_data")
                    else if String.eqb k "open_file" then Some (Flag true)
                    else if String.eqb k "open_mode" then Some (Str "r")
                    else None)).
Proof.
  rewrite decode_download_uries_map. split; [apply length_map|]. split; [|split].
  - induction uries as [|uri uries IH]; cbn [map]; constructor;
      [apply decode_uri_complete|exact IH].
  - intros i uri Hi. rewrite list_lookup_fmap, Hi. reflexivity.
  - intros i d Hi. exists (decode_uri (UriDict d)).
    rewrite list_lookup_fmap, Hi. split; [reflexivity|]. split.
    + intros k v Hk. now rewrite decode_uri_lookup, Hk.
    + intros k Hk. now rewrite decode_uri_lookup, Hk.
Qed.

Lemma decoded_uries_are_complete_witness :
  exists uries decuri,
    get_download_uries {[ "repo_uri" := "http://host/" ]} = Ok ("http://host/", uries) /\
    decode_download_uries uries !! 0 = Some decuri /\
    decuri !! "uri" = Some (Str "http://host/simple") /\
    decuri !! "output" = Some (Str "packages") /\
    decuri !! "parser" = Some (Method "parse_data") /\
    decuri !! "timeout" = None.
Proof.
  destruct (decoded_uries_are_complete
              [UriDict (<["uri" := Str "http://host/simple"]>
                          (<["output" := Str "packages"]> ∅))])
    as (_ & _ & _ & Hdict).
  destruct (Hdict 0 _ eq_refl) as (decuri & Hdec & Hkeep & Hnew).
  eexists _, decuri. split; [reflexivity|]. split; [exact Hdec|].
  split; [apply Hkeep; reflexivity|]. split; [apply Hkeep; reflexivity|].
  split; [apply (Hnew "parser"); reflexivity|apply (Hnew "timeout"); reflexivity].
Defined.

(** X20.  Decoding is idempotent: a decoded list decodes to itself.  This is
    the case of the jobs of [parse_data] as well, whose parser is given by
    name: decoding them leaves the parser they name. *)
Theorem decode_is_idempotent (uries : list uri_entry) (repo_uri package version : string) :
  decode_download_uries (map UriDict (decode_download_uries uries))
  = decode_download_uries uries /\
  decode_uri (UriDict (pkg_job repo_uri package version)) !! "parser"
  = Some (Str "parse_package_page").
Proof.
  split.
  - rewrite !decode_download_uries_map, !map_map. apply map_ext. intros uri.
    destruct (decode_uri_complete uri) as (Hp & Hf & Hm).
    change (decode_uri (UriDict (decode_uri uri)))
      with (set_missing "open_mode" (Str "r")
              (set_missing "open_file" (Flag true)
                 (set_missing "parser" (Method "parse_data") (decode_uri uri)))).
    rewrite (set_missing_present "parser") by exact Hp.
    rewrite (set_missing_present "open_file") by exact Hf.
    now rewrite (set_missing_present "open_mode") by exact Hm.
  - rewrite decode_uri_lookup. unfold pkg_job.
    rewrite lookup_insert_ne by discriminate. now rewrite lookup_insert_eq.
Qed.
